(** * StorageManager: the local persistence layer of the note-taking app

    A shallow embedding of [class StorageManager] (the storage module of the
    repository) and the properties its specification states about it.

    Conventions of the embedding:
    - a JavaScript string is a [string]; one character of the model stands
      for one UTF-16 code unit, so [String.length] is [.length] (the two
      default titles are written as in the source; of them only that they
      are not empty is used);
    - an ISO-8601 timestamp ([new Date().toISOString()]) is the instant it
      denotes, in milliseconds, as a [Z]: the strings have a fixed width and
      compare as their instants do;
    - an IndexedDB object store is a finite map from its key path to
      records, enumerated by ascending key;
    - a [localStorage] entry is held as the value [JSON.parse] gives for it
      ([JSON.parse (JSON.stringify v)] is [v] for the values stored here);
    - an [async] method is a function from the state of the page before the
      call to the settled outcome of its promise and the state after it. *)

From Stdlib Require Import ZArith String Ascii List Bool Lia.
From stdpp Require Import base option gmap strings list fin_maps sorting.

Open Scope string_scope.
Open Scope Z_scope.

(** ** Values *)

Abbreviation Timestamp := Z.

(** Opaque serialisable payloads (setting values, graph nodes and links); the
    storage layer never looks inside them. *)
#[local] Unset Elimination Schemes.
Inductive JsonValue : Type :=
| JNull
| JBool (b : bool)
| JNumber (n : Z)
| JString (s : string)
| JArray (items : list JsonValue)
| JObject (fields : list (string * JsonValue)).
#[local] Set Elimination Schemes.

(** What a store callback hands back, and what [JSON.parse] yields for a
    stored entry: [undefined], an array of records, one record, or a string
    (the key an IndexedDB [put] request results in). *)
Inductive Value (A : Type) : Type :=
| Undefined
| Array (l : list A)
| Object (a : A)
| Str (s : string).
Arguments Undefined {A}.
Arguments Array {A} l.
Arguments Object {A} a.
Arguments Str {A} s.

(** [if (v)], [v || d], [!v] on such a value. *)
Definition truthy {A} (v : Value A) : bool :=
  match v with
  | Undefined => false
  | Array _ | Object _ => true
  | Str s => negb (String.eqb s "")
  end.

(** [s || d] for a string property that may be missing: the empty string is
    falsy as well. *)
Definition str_or (s : option string) (d : string) : string :=
  match s with
  | Some x => if String.eqb x "" then d else x
  | None => d
  end.

(** [s || null] *)
Definition str_or_null (s : option string) : option string :=
  match s with
  | Some x => if String.eqb x "" then None else Some x
  | None => None
  end.

(** ** Records (section 3 of the specification) *)

(** The object passed to [saveNote]: only the properties the method reads,
    each of which may be missing. *)
Module NoteArg.
Record t := mk {
  id : option string;
  title : option string;
  content : option string;
  tags : option (list string);
  createdAt : option Timestamp
}.
End NoteArg.

Module Note.
Record t := mk {
  id : string;
  title : string;
  content : string;
  tags : list string;
  createdAt : Timestamp;
  updatedAt : Timestamp;
  wordCount : nat
}.
(** A stored note handed back to [saveNote]. *)
Definition arg (n : t) : NoteArg.t :=
  NoteArg.mk (Some (id n)) (Some (title n)) (Some (content n))
             (Some (tags n)) (Some (createdAt n)).
End Note.

Inductive Priority := low | medium | high.

Module TaskArg.
Record t := mk {
  id : option string;
  title : option string;
  description : option string;
  priority : option Priority;
  completed : option bool;
  dueDate : option string;
  createdAt : option Timestamp;
  relatedNoteId : option string
}.
End TaskArg.

Module Task.
Record t := mk {
  id : string;
  title : string;
  description : string;
  priority : Priority;
  completed : bool;
  dueDate : option string;
  createdAt : Timestamp;
  updatedAt : Timestamp;
  relatedNoteId : option string
}.
Definition arg (k : t) : TaskArg.t :=
  TaskArg.mk (Some (id k)) (Some (title k)) (Some (description k))
             (Some (priority k)) (Some (completed k)) (dueDate k)
             (Some (createdAt k)) (relatedNoteId k).
End Task.

Module GraphArg.
Record t := mk {
  nodes : option (list JsonValue);
  links : option (list JsonValue)
}.
End GraphArg.

(** The record of the [knowledge_graph] store.  The default object
    [{ nodes: [], links: [] }] of [getKnowledgeGraph] has neither [id] nor
    [updatedAt]. *)
Module Graph.
Record t := mk {
  id : option string;
  nodes : list JsonValue;
  links : list JsonValue;
  updatedAt : option Timestamp
}.
Definition arg (g : t) : GraphArg.t :=
  GraphArg.mk (Some (nodes g)) (Some (links g)).
End Graph.

Module Setting.
Record t := mk {
  key : string;
  value : JsonValue;
  updatedAt : Timestamp
}.
End Setting.

(** ** The two physical stores *)

(** The four object stores of the database [SmartNotesDB]. *)
Record IDBDatabase := mkDB {
  db_notes : gmap string Note.t;
  db_tasks : gmap string Task.t;
  db_knowledge_graph : gmap string Graph.t;
  db_settings : gmap string Setting.t
}.

(** The four [localStorage] entries the manager uses; [None] is an entry
    that does not exist ([getItem] gives [null]). *)
Record Storage := mkLS {
  ls_notes : option (Value Note.t);
  ls_tasks : option (Value Task.t);
  ls_knowledge_graph : option (Value Graph.t);
  ls_settings : option (Value Setting.t)
}.

(** The names of the stores, indexed by the type of their records. *)
Inductive StoreName : Type -> Type :=
| notes : StoreName Note.t
| tasks : StoreName Task.t
| knowledge_graph : StoreName Graph.t
| settings : StoreName Setting.t.

(** [keyPath] of each object store, as declared in [onupgradeneeded]. *)
Definition keyPath {A} (s : StoreName A) : A -> option string :=
  match s in StoreName T return T -> option string with
  | notes => fun n => Some (Note.id n)
  | tasks => fun k => Some (Task.id k)
  | knowledge_graph => Graph.id
  | settings => fun x => Some (Setting.key x)
  end.

Definition objectStore {A} (s : StoreName A) (db : IDBDatabase) : gmap string A :=
  match s in StoreName T return gmap string T with
  | notes => db_notes db
  | tasks => db_tasks db
  | knowledge_graph => db_knowledge_graph db
  | settings => db_settings db
  end.

Definition setObjectStore {A} (s : StoreName A) : gmap string A -> IDBDatabase -> IDBDatabase :=
  match s in StoreName T return gmap string T -> IDBDatabase -> IDBDatabase with
  | notes => fun m db => mkDB m (db_tasks db) (db_knowledge_graph db) (db_settings db)
  | tasks => fun m db => mkDB (db_notes db) m (db_knowledge_graph db) (db_settings db)
  | knowledge_graph => fun m db => mkDB (db_notes db) (db_tasks db) m (db_settings db)
  | settings => fun m db => mkDB (db_notes db) (db_tasks db) (db_knowledge_graph db) m
  end.

Definition getItem {A} (s : StoreName A) (ls : Storage) : option (Value A) :=
  match s in StoreName T return option (Value T) with
  | notes => ls_notes ls
  | tasks => ls_tasks ls
  | knowledge_graph => ls_knowledge_graph ls
  | settings => ls_settings ls
  end.

Definition putItem {A} (s : StoreName A) : option (Value A) -> Storage -> Storage :=
  match s in StoreName T return option (Value T) -> Storage -> Storage with
  | notes => fun v ls => mkLS v (ls_tasks ls) (ls_knowledge_graph ls) (ls_settings ls)
  | tasks => fun v ls => mkLS (ls_notes ls) v (ls_knowledge_graph ls) (ls_settings ls)
  | knowledge_graph => fun v ls => mkLS (ls_notes ls) (ls_tasks ls) v (ls_settings ls)
  | settings => fun v ls => mkLS (ls_notes ls) (ls_tasks ls) (ls_knowledge_graph ls) v
  end.

(** ** The state of the page *)

(** [useLocalStorage], [db] and [localStorage], and how many times the clock
    and the random generator have been read so far. *)
Record World := mkWorld {
  useLocalStorage : bool;
  db : IDBDatabase;
  localStorage : Storage;
  clockReads : nat;
  randomDraws : nat
}.

Inductive JsError :=
| TypeError          (* calling or reading through something that is not there *)
| DataError          (* IndexedDB: the record has no valid key *)
| ImportError.       (* new Error('无效的导入数据格式') *)

Inductive Outcome (A : Type) : Type :=
| Resolved (a : A)
| Rejected (e : JsError).
Arguments Resolved {A} a.
Arguments Rejected {A} e.

Definition Async (A : Type) : Type := World -> Outcome A * World.

#[global] Instance Async_ret : MRet Async := fun A a w => (Resolved a, w).
#[global] Instance Async_bind : MBind Async := fun A B f m w =>
  match m w with
  | (Resolved a, w') => f a w'
  | (Rejected e, w') => (Rejected e, w')
  end.

Definition throw {A} (e : JsError) : Async A := fun w => (Rejected e, w).

(** [for (const x of l) await body(x)] *)
Fixpoint for_of {A} (l : list A) (body : A -> Async unit) : Async unit :=
  match l with
  | [] => mret tt
  | x :: rest => body x ≫= fun _ => for_of rest body
  end.

(** ** The store handed to an operation *)

(** The records of an object store in the order of their keys, as [getAll]
    and a cursor yield them. *)
Definition by_key {A} (a b : string * A) : Prop := String.leb (fst a) (fst b) = true.

#[global] Instance by_key_dec {A} (a b : string * A) : Decision (by_key a b) :=
  decide (String.leb (fst a) (fst b) = true).

Definition records {A} (m : gmap string A) : list A :=
  snd <$> merge_sort by_key (map_to_list m).

(** [performTransaction] passes the callback either the [IDBObjectStore] of
    the transaction or, in fallback mode, the object literal [{ data }]. *)
Inductive Store (A : Type) : Type :=
| IDBObjectStore (name : StoreName A)
| DataObject (data : Value A).
Arguments IDBObjectStore {A} name.
Arguments DataObject {A} data.

Definition modify_db (f : IDBDatabase -> IDBDatabase) : Async unit :=
  fun w => (Resolved tt,
            mkWorld (useLocalStorage w) (f (db w)) (localStorage w)
                    (clockReads w) (randomDraws w)).

Definition modify_localStorage (f : Storage -> Storage) : Async unit :=
  fun w => (Resolved tt,
            mkWorld (useLocalStorage w) (db w) (f (localStorage w))
                    (clockReads w) (randomDraws w)).

(** [store.put(x)]: the request results in the key of the record.  The
    object [{ data }] has no method [put]. *)
Definition store_put {A} (store : Store A) (x : A) : Async string :=
  match store with
  | IDBObjectStore name =>
      match keyPath name x with
      | Some k =>
          modify_db (fun d => setObjectStore name (<[k := x]> (objectStore name d)) d) ≫= fun _ =>
          mret k
      | None => throw DataError
      end
  | DataObject _ => throw TypeError
  end.

(** [store.put(x)] of a record in which the key path yields no value: the
    database refuses it with a [DataError]. *)
Definition store_put_without_key {A} (store : Store A) : Async string :=
  match store with
  | IDBObjectStore _ => throw DataError
  | DataObject _ => throw TypeError
  end.

(** [store.get(k)] *)
Definition store_get {A} (store : Store A) (k : string) : Async (option A) :=
  match store with
  | IDBObjectStore name => fun w => (Resolved (objectStore name (db w) !! k), w)
  | DataObject _ => throw TypeError
  end.

(** [store.getAll()]: every record of the store. *)
Definition store_getAll {A} (store : Store A) : Async (list A) :=
  match store with
  | IDBObjectStore name => fun w => (Resolved (records (objectStore name (db w))), w)
  | DataObject _ => throw TypeError
  end.

(** [store.delete(k)] *)
Definition store_delete {A} (store : Store A) (k : string) : Async unit :=
  match store with
  | IDBObjectStore name =>
      modify_db (fun d => setObjectStore name (delete k (objectStore name d)) d)
  | DataObject _ => throw TypeError
  end.

(** [store.clear()] *)
Definition store_clear {A} (store : Store A) : Async unit :=
  match store with
  | IDBObjectStore name => modify_db (setObjectStore name ∅)
  | DataObject _ => throw TypeError
  end.

(** [store.data]: [undefined] on an [IDBObjectStore]. *)
Definition store_data {A} (store : Store A) : Value A :=
  match store with
  | IDBObjectStore _ => Undefined
  | DataObject data => data
  end.

(** [v.find(p)]: only an array has the method. *)
Definition js_find {A} (v : Value A) (p : A -> bool) : Async (option A) :=
  match v with
  | Array l => mret (List.find p l)
  | _ => throw TypeError
  end.

(** [v.filter(p)] *)
Definition js_filter {A} (v : Value A) (p : A -> bool) : Async (list A) :=
  match v with
  | Array l => mret (List.filter p l)
  | _ => throw TypeError
  end.

(** [v || []] *)
Definition or_empty {A} (v : Value A) : Value A :=
  if truthy v then v else Array [].

(** What a callback result of type [R] is as a JavaScript value. *)
Class ToValue (A R : Type) := toValue : R -> Value A.
#[global] Instance ToValue_value {A} : ToValue A (Value A) := fun v => v.
#[global] Instance ToValue_option {A} : ToValue A (option A) :=
  fun o => match o with Some a => Object a | None => Undefined end.
#[global] Instance ToValue_list {A} : ToValue A (list A) := Array.
#[global] Instance ToValue_key {A} : ToValue A string := Str.

Inductive Mode := readonly | readwrite.

(** [performLocalStorageOperation(storeName, operation)] *)
Definition performLocalStorageOperation {A R} `{ToValue A R}
    (storeName : StoreName A) (operation : Store A -> Async R) : Async R :=
  fun w =>
    let data := default (Array []) (getItem storeName (localStorage w)) in
    match operation (DataObject data) w with
    | (Resolved result, w') =>
        match toValue result with
        | Undefined => (Resolved result, w')
        | v => (Resolved result,
                mkWorld (useLocalStorage w') (db w')
                        (putItem storeName (Some v) (localStorage w'))
                        (clockReads w') (randomDraws w'))
        end
    | (Rejected error, w') => (Rejected error, w')
    end.

(** [performTransaction(storeName, mode, operation)]: with the database, the
    promise settles with the result of the request the callback returns. *)
Definition performTransaction {A R} `{ToValue A R}
    (storeName : StoreName A) (mode : Mode) (operation : Store A -> Async R) : Async R :=
  fun w =>
    if useLocalStorage w
    then performLocalStorageOperation storeName operation w
    else operation (IDBObjectStore storeName) w.

(** [localStorage.setItem(name, JSON.stringify(v))] and
    [localStorage.removeItem(name)] *)
Definition setItem {A} (name : StoreName A) (v : Value A) : Async unit :=
  modify_localStorage (putItem name (Some v)).
Definition removeItem {A} (name : StoreName A) : Async unit :=
  modify_localStorage (putItem name None).

(** [if (this.useLocalStorage) { yes } no] *)
Definition if_useLocalStorage {R} (yes no : Async R) : Async R :=
  fun w => if useLocalStorage w then yes w else no w.

(** [s.includes(sub)] *)
Fixpoint includes (s sub : string) : bool :=
  String.prefix sub s ||
  match s with
  | EmptyString => false
  | String _ rest => includes rest sub
  end.

(** [n.toString(36)] for an integer [n]; [Z.log2 n] further rounds are
    enough, a numeral in base 36 being no longer than in base 2. *)
Definition digit36 (d : Z) : ascii :=
  if d <? 10 then ascii_of_nat (48 + Z.to_nat d)%nat else ascii_of_nat (87 + Z.to_nat d)%nat.

Fixpoint digits36 (fuel : nat) (n : Z) (acc : string) : string :=
  let acc' := String (digit36 (n mod 36)) acc in
  match fuel with
  | O => acc'
  | S fuel' => if n / 36 =? 0 then acc' else digits36 fuel' (n / 36) acc'
  end.

Definition toString36 (n : Z) : string :=
  if n <? 0
  then String.append "-" (digits36 (Z.to_nat (Z.log2 (- n))) (- n) "")
  else digits36 (Z.to_nat (Z.log2 n)) n "".

(** ** Documents of export and import *)

Module ExportData.
Record t := mk {
  notes : Value Note.t;
  tasks : Value Task.t;
  knowledgeGraph : option Graph.t;
  settings : Value Setting.t
}.
End ExportData.

Module ExportDocument.
Record t := mk {
  version : string;
  exportDate : Timestamp;
  data : ExportData.t
}.
End ExportDocument.

(** An element of the [settings] array of a document: [setting.key], which
    may be missing, and [setting.value]. *)
Module SettingArg.
Record t := mk { key : option string; value : JsonValue }.
End SettingArg.

(** What [importData] reads of a parsed document.  An element of an array
    may be [null] ([None]); a property may be missing ([Undefined], [None])
    or hold something that is not an array. *)
Module ImportData.
Record t := mk {
  notes : Value (option NoteArg.t);
  tasks : Value (option TaskArg.t);
  knowledgeGraph : option GraphArg.t;
  settings : Value (option SettingArg.t)
}.
End ImportData.

Module ImportDocument.
Record t := mk { data : option ImportData.t }.
End ImportDocument.

Definition map_value {A B} (f : A -> B) (v : Value A) : Value B :=
  match v with
  | Undefined => Undefined
  | Array l => Array (f <$> l)
  | Object a => Object (f a)
  | Str s => Str s
  end.

(** An exported document, as [importData] reads it. *)
Definition asImport (doc : ExportDocument.t) : ImportDocument.t :=
  let d := ExportDocument.data doc in
  ImportDocument.mk (Some (ImportData.mk
    (map_value (fun n => Some (Note.arg n)) (ExportData.notes d))
    (map_value (fun k => Some (Task.arg k)) (ExportData.tasks d))
    (Graph.arg <$> ExportData.knowledgeGraph d)
    (map_value (fun s => Some (SettingArg.mk (Some (Setting.key s)) (Setting.value s)))
               (ExportData.settings d)))).

(** [Promise.all([a, b])] over calls that are started one after the other:
    both run; the result is rejected with the first rejection. *)
Definition promise_all2 {A B} (a : Async A) (b : Async B) : Async (A * B) :=
  fun w =>
    let '(ra, w1) := a w in
    let '(rb, w2) := b w1 in
    (match ra, rb with
     | Resolved x, Resolved y => Resolved (x, y)
     | Rejected e, _ => Rejected e
     | _, Rejected e => Rejected e
     end, w2).

(** ** The storage manager *)

Section StorageManager.

(** The environment: the successive readings of the clock, and the
    successive [Math.random().toString(36).substr(2)]. *)
Variable Date_now : nat -> Timestamp.
Variable Math_random : nat -> string.

(** [new Date().toISOString()], [Date.now()] *)
Definition now : Async Timestamp :=
  fun w => (Resolved (Date_now (clockReads w)),
            mkWorld (useLocalStorage w) (db w) (localStorage w)
                    (S (clockReads w)) (randomDraws w)).

Definition random36 : Async string :=
  fun w => (Resolved (Math_random (randomDraws w)),
            mkWorld (useLocalStorage w) (db w) (localStorage w)
                    (clockReads w) (S (randomDraws w))).

Definition generateId : Async string :=
  t ← now;
  r ← random36;
  mret (String.append (toString36 t) r).

(** *** Notes *)

Definition saveNote (note : NoteArg.t) : Async Note.t :=
  id ← (match str_or_null (NoteArg.id note) with
        | Some i => mret i
        | None => generateId
        end);
  createdAt ← (match NoteArg.createdAt note with
               | Some t => mret t
               | None => now
               end);
  updatedAt ← now;
  let noteData :=
    Note.mk id
            (str_or (NoteArg.title note) "无标题笔记")
            (str_or (NoteArg.content note) "")
            (default [] (NoteArg.tags note))
            createdAt
            updatedAt
            (match str_or_null (NoteArg.content note) with
             | Some c => String.length c
             | None => O
             end) in
  _ ← performTransaction notes readwrite (fun store =>
        store_put store noteData);
  mret noteData.

Definition getNotes : Async (Value Note.t) :=
  performTransaction notes readonly (fun store =>
    if_useLocalStorage
      (mret (or_empty (store_data store)))
      (l ← store_getAll store; mret (Array l))).

Definition getNote (id : string) : Async (option Note.t) :=
  performTransaction notes readonly (fun store =>
    if_useLocalStorage
      (js_find (store_data store) (fun note => String.eqb (Note.id note) id))
      (store_get store id)).

Definition deleteNote (id : string) : Async unit :=
  _ ← performTransaction notes readwrite (fun store =>
        if_useLocalStorage
          (filtered ← js_filter (store_data store)
                                (fun note => negb (String.eqb (Note.id note) id));
           _ ← setItem notes (Array filtered);
           mret (Array filtered))
          (_ ← store_delete store id; mret Undefined));
  mret tt.

(** [String.prototype.toLowerCase] *)
Variable toLowerCase : string -> string.

Definition note_matches (searchTerm : string) (note : Note.t) : bool :=
  includes (toLowerCase (Note.title note)) searchTerm ||
  includes (toLowerCase (Note.content note)) searchTerm ||
  existsb (fun tag => includes (toLowerCase tag) searchTerm) (Note.tags note).

Definition searchNotes (query : string) : Async (list Note.t) :=
  notes' ← getNotes;
  let searchTerm := toLowerCase query in
  js_filter notes' (note_matches searchTerm).

(** *** Tasks *)

Definition saveTask (task : TaskArg.t) : Async Task.t :=
  id ← (match str_or_null (TaskArg.id task) with
        | Some i => mret i
        | None => generateId
        end);
  createdAt ← (match TaskArg.createdAt task with
               | Some t => mret t
               | None => now
               end);
  updatedAt ← now;
  let taskData :=
    Task.mk id
            (str_or (TaskArg.title task) "新任务")
            (str_or (TaskArg.description task) "")
            (default medium (TaskArg.priority task))
            (default false (TaskArg.completed task))
            (str_or_null (TaskArg.dueDate task))
            createdAt
            updatedAt
            (str_or_null (TaskArg.relatedNoteId task)) in
  _ ← performTransaction tasks readwrite (fun store =>
        store_put store taskData);
  mret taskData.

Definition getTasks : Async (Value Task.t) :=
  performTransaction tasks readonly (fun store =>
    if_useLocalStorage
      (mret (or_empty (store_data store)))
      (l ← store_getAll store; mret (Array l))).

Definition getTask (id : string) : Async (option Task.t) :=
  performTransaction tasks readonly (fun store =>
    if_useLocalStorage
      (js_find (store_data store) (fun task => String.eqb (Task.id task) id))
      (store_get store id)).

Definition deleteTask (id : string) : Async unit :=
  _ ← performTransaction tasks readwrite (fun store =>
        if_useLocalStorage
          (filtered ← js_filter (store_data store)
                                (fun task => negb (String.eqb (Task.id task) id));
           _ ← setItem tasks (Array filtered);
           mret (Array filtered))
          (_ ← store_delete store id; mret Undefined));
  mret tt.

Definition updateTaskStatus (id : string) (completed : bool) : Async (option Task.t) :=
  task ← getTask id;
  match task with
  | Some t =>
      updatedAt ← now;
      let t' := Task.mk (Task.id t) (Task.title t) (Task.description t)
                        (Task.priority t) completed (Task.dueDate t)
                        (Task.createdAt t) updatedAt (Task.relatedNoteId t) in
      _ ← saveTask (Task.arg t');
      mret (Some t')
  | None => mret None
  end.

(** *** Knowledge graph *)

Definition saveKnowledgeGraph (graphData : GraphArg.t) : Async Graph.t :=
  updatedAt ← now;
  let data :=
    Graph.mk (Some "main_graph")
             (default [] (GraphArg.nodes graphData))
             (default [] (GraphArg.links graphData))
             (Some updatedAt) in
  _ ← performTransaction knowledge_graph readwrite (fun store =>
        store_put store data);
  mret data.

(** [item.id === 'main_graph'] *)
Definition is_main_graph (item : Graph.t) : bool :=
  match Graph.id item with
  | Some i => String.eqb i "main_graph"
  | None => false
  end.

(** [{ nodes: [], links: [] }] *)
Definition empty_graph : Graph.t := Graph.mk None [] [] None.

Definition getKnowledgeGraph : Async (option Graph.t) :=
  performTransaction knowledge_graph readonly (fun store =>
    if_useLocalStorage
      (found ← js_find (store_data store) is_main_graph;
       mret (Some (default empty_graph found)))
      (store_get store "main_graph")).

(** *** Settings *)

Definition saveSetting (key : string) (value : JsonValue) : Async Setting.t :=
  updatedAt ← now;
  let setting := Setting.mk key value updatedAt in
  _ ← performTransaction settings readwrite (fun store =>
        store_put store setting);
  mret setting.

(** [saveSetting(undefined, value)], which [importData] calls for an element
    that has no [key]: the record [{ key: undefined, value, updatedAt }] is
    stamped and handed to [put], which finds no key in it.  The call is
    never resolved. *)
Definition saveSetting_without_key (value : JsonValue) : Async unit :=
  updatedAt ← now;
  _ ← performTransaction settings readwrite (fun store =>
        store_put_without_key store);
  mret tt.

Definition getSetting (key : string) (defaultValue : JsonValue) : Async JsonValue :=
  setting ← performTransaction settings readonly (fun store =>
              if_useLocalStorage
                (js_find (store_data store) (fun item => String.eqb (Setting.key item) key))
                (store_get store key));
  mret (match setting with
        | Some s => Setting.value s
        | None => defaultValue
        end).

Definition getAllSettings : Async (Value Setting.t) :=
  performTransaction settings readonly (fun store =>
    if_useLocalStorage
      (mret (or_empty (store_data store)))
      (l ← store_getAll store; mret (Array l))).

(** *** Export, import, clear *)

Definition exportData : Async ExportDocument.t :=
  '(notes', tasks', knowledgeGraph, settings') ←
     promise_all2 (promise_all2 (promise_all2 getNotes getTasks) getKnowledgeGraph)
                  getAllSettings;
  exportDate ← now;
  mret (ExportDocument.mk "1.0" exportDate
          (ExportData.mk notes' tasks' knowledgeGraph settings')).

(** The body of each [for ... of] loop of [importData]; reading a property
    of a [null] element throws. *)
Definition import_note (note : option NoteArg.t) : Async unit :=
  match note with
  | Some n => _ ← saveNote n; mret tt
  | None => throw TypeError
  end.

Definition import_task (task : option TaskArg.t) : Async unit :=
  match task with
  | Some k => _ ← saveTask k; mret tt
  | None => throw TypeError
  end.

Definition import_setting (setting : option SettingArg.t) : Async unit :=
  match setting with
  | Some s =>
      match SettingArg.key s with
      | Some key => _ ← saveSetting key (SettingArg.value s); mret tt
      | None => saveSetting_without_key (SettingArg.value s)
      end
  | None => throw TypeError
  end.

(** The four blocks of [importData]; [x && Array.isArray(x)] guards each
    loop. *)
Definition importNotes (d : ImportData.t) : Async unit :=
  match ImportData.notes d with
  | Array l => for_of l import_note
  | _ => mret tt
  end.

Definition importTasks (d : ImportData.t) : Async unit :=
  match ImportData.tasks d with
  | Array l => for_of l import_task
  | _ => mret tt
  end.

Definition importKnowledgeGraph (d : ImportData.t) : Async unit :=
  match ImportData.knowledgeGraph d with
  | Some g => _ ← saveKnowledgeGraph g; mret tt
  | None => mret tt
  end.

Definition importSettings (d : ImportData.t) : Async unit :=
  match ImportData.settings d with
  | Array l => for_of l import_setting
  | _ => mret tt
  end.

(** The [catch] clause logs the error and throws it again. *)
Definition importData (importData : ImportDocument.t) : Async bool :=
  match ImportDocument.data importData with
  | None => throw ImportError
  | Some d =>
      _ ← importNotes d;
      _ ← importTasks d;
      _ ← importKnowledgeGraph d;
      _ ← importSettings d;
      mret true
  end.

(** One round of the loop of [clearAllData]. *)
Definition clearStore {A} (storeName : StoreName A) : Async unit :=
  _ ← performTransaction storeName readwrite (fun store =>
        if_useLocalStorage
          (_ ← removeItem storeName; mret (Array []))
          (_ ← store_clear store; mret Undefined));
  mret tt.

Definition clearAllData : Async unit :=
  _ ← clearStore notes;
  _ ← clearStore tasks;
  _ ← clearStore knowledge_graph;
  clearStore settings.

End StorageManager.

(** ** Statistics *)

Module StorageStats.
Record t := mk {
  totalNotes : nat;
  totalTasks : nat;
  completedTasks : nat;
  totalWords : nat;
  completionRate : Z
}.
End StorageStats.

Section Statistics.

(** [Math.round((completedTasks / totalTasks) * 100)], which the host
    computes in double precision. *)
Variable round_percent : nat -> nat -> Z.

(** [notes.length], [tasks.filter(...)] and [notes.reduce(...)] need arrays:
    on anything else one of them throws a [TypeError]. *)
Definition getStorageStats : Async StorageStats.t :=
  '(notes', tasks') ← promise_all2 getNotes getTasks;
  match notes', tasks' with
  | Array ns, Array ts =>
      let totalNotes := length ns in
      let totalTasks := length ts in
      let completedTasks := length (List.filter Task.completed ts) in
      let totalWords := fold_left (fun sum note => (sum + Note.wordCount note)%nat) ns O in
      mret (StorageStats.mk totalNotes totalTasks completedTasks totalWords
              (if (0 <? totalTasks)%nat
               then round_percent completedTasks totalTasks
               else 0))
  | _, _ => throw TypeError
  end.

End Statistics.

(** * Vocabulary of the properties *)

(** ** States *)

(** The persisted state: what survives the call, as opposed to the counters
    of the environment. *)
Definition persisted (w : World) : IDBDatabase * Storage := (db w, localStorage w).

Definition emptyDB : IDBDatabase := mkDB ∅ ∅ ∅ ∅.
Definition emptyStorage : Storage := mkLS None None None None.

(** A fresh profile: nothing stored; [fallback] tells whether opening the
    database failed. *)
Definition init (fallback : bool) : World := mkWorld fallback emptyDB emptyStorage 0 0.

(** The clock never runs backwards. *)
Definition monotone (Date_now : nat -> Timestamp) : Prop :=
  forall i j, (i <= j)%nat -> Date_now i <= Date_now j.

(** ** Stored collections and search *)

(** The notes the active backend holds, when the collection can be read:
    every record of the object store, or the array of the [notes] entry (an
    entry that does not exist reads as the empty array). *)
Definition stored_notes (w : World) : option (list Note.t) :=
  if useLocalStorage w
  then match ls_notes (localStorage w) with
       | None => Some []
       | Some (Array l) => Some l
       | Some _ => None
       end
  else Some (records (db_notes (db w))).

(** The tasks the active backend holds, when the collection can be read. *)
Definition stored_tasks (w : World) : option (list Task.t) :=
  if useLocalStorage w
  then match ls_tasks (localStorage w) with
       | None => Some []
       | Some (Array l) => Some l
       | Some _ => None
       end
  else Some (records (db_tasks (db w))).

(** No stored task has the id: nothing lies under that key of the object
    store, or no element of the array of the [tasks] entry carries it. *)
Definition task_absent (id : string) (w : World) : Prop :=
  if useLocalStorage w
  then exists l, stored_tasks w = Some l /\ forall t, In t l -> Task.id t <> id
  else db_tasks (db w) !! id = None.

(** [sub] occurs in [s], as the specification words it. *)
Definition is_substring (sub s : string) : Prop :=
  exists before after, s = String.append before (String.append sub after).

(** A note matches a query, as the specification words it: the lower-cased
    query occurs in the lower-cased title, or in the lower-cased content, or
    in at least one lower-cased tag. *)
Definition matches_query (toLowerCase : string -> string) (query : string) (note : Note.t) : Prop :=
  is_substring (toLowerCase query) (toLowerCase (Note.title note)) \/
  is_substring (toLowerCase query) (toLowerCase (Note.content note)) \/
  exists tag, In tag (Note.tags note) /\
              is_substring (toLowerCase query) (toLowerCase tag).

(** ** Normalisation and consistency *)

(** How [saveNote] derives the record it stores from its argument (the
    normalisation rule of section 4.4). *)
Definition normalised_note (note : NoteArg.t) (noteData : Note.t) : Prop :=
  Note.id noteData <> "" /\
  (forall i, NoteArg.id note = Some i -> i <> "" -> Note.id noteData = i) /\
  Note.title noteData = str_or (NoteArg.title note) "无标题笔记" /\
  Note.content noteData = str_or (NoteArg.content note) "" /\
  Note.tags noteData = default [] (NoteArg.tags note) /\
  Note.wordCount noteData = String.length (Note.content noteData) /\
  (forall t, NoteArg.createdAt note = Some t -> Note.createdAt noteData = t).

Definition normalised_task (task : TaskArg.t) (taskData : Task.t) : Prop :=
  Task.id taskData <> "" /\
  (forall i, TaskArg.id task = Some i -> i <> "" -> Task.id taskData = i) /\
  Task.title taskData = str_or (TaskArg.title task) "新任务" /\
  Task.description taskData = str_or (TaskArg.description task) "" /\
  Task.priority taskData = default medium (TaskArg.priority task) /\
  Task.completed taskData = default false (TaskArg.completed task) /\
  Task.dueDate taskData = str_or_null (TaskArg.dueDate task) /\
  Task.relatedNoteId taskData = str_or_null (TaskArg.relatedNoteId task) /\
  (forall t, TaskArg.createdAt task = Some t -> Task.createdAt taskData = t).

(** A record is filed under its own key, which is not empty, and carries a
    title that is not empty. *)
Definition well_filed_note (k : string) (n : Note.t) : Prop :=
  Note.id n = k /\ k <> "" /\ Note.title n <> "".

Definition well_filed_task (k : string) (t : Task.t) : Prop :=
  Task.id t = k /\ k <> "" /\ Task.title t <> "".

(** An entry of [localStorage] that holds no record. *)
Definition no_records {A} (entry : option (Value A)) : Prop :=
  entry = None \/ entry = Some (Array []).

Definition consistent (w : World) : Prop :=
  map_Forall well_filed_note (db_notes (db w)) /\
  map_Forall well_filed_task (db_tasks (db w)) /\
  no_records (ls_notes (localStorage w)) /\
  no_records (ls_tasks (localStorage w)).

(** A consistent state whose backend is the one [fallback] tells. *)
Definition consistent_on (fallback : bool) (w : World) : Prop :=
  useLocalStorage w = fallback /\ consistent w.

(** A call preserves a property of the state, whatever its outcome. *)
Definition preserves {A} (P : World -> Prop) (m : Async A) : Prop :=
  forall w, P w -> P (snd (m w)).

(** Every record of the object store lies under its own [id]: the store is
    keyed by the key path [id]. *)
Definition filed_under_id (m : gmap string Note.t) : Prop :=
  map_Forall (fun k n => Note.id n = k) m.

(** ** Round trip *)

(** Two notes with the same id, title, content and tags; two tasks with the
    same id, title and description. *)
Definition same_note (a b : Note.t) : Prop :=
  Note.id b = Note.id a /\ Note.title b = Note.title a /\
  Note.content b = Note.content a /\ Note.tags b = Note.tags a.

Definition same_task (a b : Task.t) : Prop :=
  Task.id b = Task.id a /\ Task.title b = Task.title a /\
  Task.description b = Task.description a.

(** A stage of the import that is resolved and touches neither the notes nor
    the tasks. *)
Definition leaves_notes_and_tasks (m : Async unit) : Prop :=
  forall w, useLocalStorage w = false ->
    exists w', m w = (Resolved tt, w') /\
               useLocalStorage w' = false /\
               localStorage w' = localStorage w /\
               db_notes (db w') = db_notes (db w) /\
               db_tasks (db w') = db_tasks (db w).

(** ** Reachable states *)

(** The calls that touch the state.  ([searchNotes] touches it as [getNotes]
    does.) *)
Inductive Call : Type :=
| call_saveNote (note : NoteArg.t)
| call_getNotes
| call_getNote (id : string)
| call_deleteNote (id : string)
| call_saveTask (task : TaskArg.t)
| call_getTasks
| call_getTask (id : string)
| call_deleteTask (id : string)
| call_updateTaskStatus (id : string) (completed : bool)
| call_saveKnowledgeGraph (graphData : GraphArg.t)
| call_getKnowledgeGraph
| call_saveSetting (key : string) (value : JsonValue)
| call_getSetting (key : string) (defaultValue : JsonValue)
| call_getAllSettings
| call_exportData
| call_importData (doc : ImportDocument.t)
| call_clearAllData.

Section ReachableStates.
Variable Date_now : nat -> Timestamp.
Variable Math_random : nat -> string.

(** The state a call leaves, whether it is resolved or rejected. *)
Definition after (c : Call) (w : World) : World :=
  match c with
  | call_saveNote note => snd (saveNote Date_now Math_random note w)
  | call_getNotes => snd (getNotes w)
  | call_getNote id => snd (getNote id w)
  | call_deleteNote id => snd (deleteNote id w)
  | call_saveTask task => snd (saveTask Date_now Math_random task w)
  | call_getTasks => snd (getTasks w)
  | call_getTask id => snd (getTask id w)
  | call_deleteTask id => snd (deleteTask id w)
  | call_updateTaskStatus id completed =>
      snd (updateTaskStatus Date_now Math_random id completed w)
  | call_saveKnowledgeGraph graphData => snd (saveKnowledgeGraph Date_now graphData w)
  | call_getKnowledgeGraph => snd (getKnowledgeGraph w)
  | call_saveSetting key value => snd (saveSetting Date_now key value w)
  | call_getSetting key defaultValue => snd (getSetting key defaultValue w)
  | call_getAllSettings => snd (getAllSettings w)
  | call_exportData => snd (exportData Date_now w)
  | call_importData doc => snd (importData Date_now Math_random doc w)
  | call_clearAllData => snd (clearAllData w)
  end.

(** A page load keeps what is stored and picks the backend anew. *)
Definition reload (fallback : bool) (w : World) : World :=
  mkWorld fallback (db w) (localStorage w) (clockReads w) (randomDraws w).

(** The states the manager can be in: a fresh profile, and whatever calls
    and page loads make of it. *)
Inductive reachable : World -> Prop :=
| reachable_init (fallback : bool) : reachable (init fallback)
| reachable_call (w : World) (c : Call) : reachable w -> reachable (after c w)
| reachable_reload (w : World) (fallback : bool) : reachable w -> reachable (reload fallback w).

End ReachableStates.

(** ** Sample data *)

Module Sample.
(** A clock that advances one millisecond per reading, one that stands
    still within the millisecond, and a random source. *)
Definition ticking (i : nat) : Timestamp := 1700000000000 + Z.of_nat i.
Definition frozen (_ : nat) : Timestamp := 1700000000000.
Definition dice (i : nat) : string := if Nat.even i then "k3x9" else "q7".

(** ASCII lower-casing, for examples. *)
Definition lower_ascii (c : ascii) : ascii :=
  let n := nat_of_ascii c in
  if (65 <=? n)%nat && (n <=? 90)%nat then ascii_of_nat (n + 32) else c.
Fixpoint toLowerCase (s : string) : string :=
  match s with
  | EmptyString => EmptyString
  | String c rest => String (lower_ascii c) (toLowerCase rest)
  end.

Definition alpha : NoteArg.t :=
  NoteArg.mk None (Some "Alpha") (Some "about cats") (Some []) None.
Definition beta : NoteArg.t :=
  NoteArg.mk None (Some "Beta") (Some "about dogs") (Some ["feline"]) None.
Definition chore : TaskArg.t :=
  TaskArg.mk (Some "t1") (Some "Review") None (Some high) None None None None.

(** A note dated after the readings of the sample clocks, with an empty
    [id]. *)
Definition postdated : NoteArg.t :=
  NoteArg.mk (Some "") (Some "Plan") (Some "later") None (Some 1800000000000).

Definition gamma : NoteArg.t :=
  NoteArg.mk (Some "n7") (Some "Gamma") (Some "text") None None.

(** A document whose second note is [null]. *)
Definition broken : ImportData.t :=
  ImportData.mk (Array [Some gamma; None; Some beta]) Undefined None Undefined.

(** A document whose second task is [null]. *)
Definition broken_tasks : ImportData.t :=
  ImportData.mk (Array [Some gamma]) (Array [Some chore; None]) None Undefined.

Definition stored_alpha : Note.t :=
  Note.mk "n1" "Alpha" "about cats" [] 5 6 10.
Definition stored_beta : Note.t :=
  Note.mk "n2" "Beta" "about dogs" ["feline"] 7 8 10.
Definition theme : Setting.t := Setting.mk "theme" (JString "dark") 9.

(** Fallback mode with two notes and a setting already in [localStorage]. *)
Definition populated : World :=
  mkWorld true emptyDB
          (mkLS (Some (Array [stored_alpha; stored_beta])) None None
                (Some (Array [theme])))
          0 0.
End Sample.

(** The database after the two notes of the example were saved. *)
Definition two_notes : World :=
  after Sample.ticking Sample.dice (call_saveNote Sample.beta)
        (after Sample.ticking Sample.dice (call_saveNote Sample.alpha) (init false)).

Definition saved_alpha : Note.t :=
  Note.mk "loyw3v28k3x9" "Alpha" "about cats" [] 1700000000001 1700000000002 10.
Definition saved_beta : Note.t :=
  Note.mk "loyw3v2bq7" "Beta" "about dogs" ["feline"] 1700000000004 1700000000005 10.

(** The state after the first note of the broken document was saved. *)
Definition one_imported : World :=
  snd (for_of [Some Sample.gamma] (import_note Sample.ticking Sample.dice) (init false)).

(** A database with a note and a task, reached from a fresh profile. *)
Definition busy : World :=
  after Sample.ticking Sample.dice (call_saveTask Sample.chore)
        (after Sample.ticking Sample.dice (call_saveNote Sample.gamma) (init false)).

(** * Further vocabulary *)

(** The backend is [fallback], and the store of the other backend is as
    given: the database [d] in fallback mode, the entries [ls] otherwise. *)
Definition other_store_is (fallback : bool) (d : IDBDatabase) (ls : Storage) (w : World) : Prop :=
  useLocalStorage w = fallback /\
  (if fallback then db w = d else localStorage w = ls).

(** A stored note whose [wordCount] is the length of its content. *)
Definition counted (k : string) (n : Note.t) : Prop :=
  Note.wordCount n = String.length (Note.content n).

(** The one record of the [knowledge_graph] store. *)
Definition the_graph (k : string) (g : Graph.t) : Prop :=
  k = "main_graph" /\ Graph.id g = Some "main_graph".

Definition filed_setting (k : string) (s : Setting.t) : Prop :=
  Setting.key s = k.

(** The [knowledge_graph] entry of [localStorage] holds no saved graph: it
    does not exist, or is the empty array, or the default object a read has
    written back. *)
Definition no_graph (entry : option (Value Graph.t)) : Prop :=
  entry = None \/ entry = Some (Array []) \/ entry = Some (Object empty_graph).

Definition well_kept (w : World) : Prop :=
  map_Forall counted (db_notes (db w)) /\
  map_Forall the_graph (db_knowledge_graph (db w)) /\
  map_Forall filed_setting (db_settings (db w)) /\
  no_records (ls_settings (localStorage w)) /\
  no_graph (ls_knowledge_graph (localStorage w)).

(** [t] is one of the first [reads] readings of the clock. *)
Definition stamped_before (Date_now : nat -> Timestamp) (reads : nat) (t : Timestamp) : Prop :=
  exists i, (i < reads)%nat /\ t = Date_now i.

(** Every [updatedAt] in the database is a reading the clock has already
    given. *)
Definition stamped (Date_now : nat -> Timestamp) (w : World) : Prop :=
  map_Forall (fun _ n => stamped_before Date_now (clockReads w) (Note.updatedAt n))
             (db_notes (db w)) /\
  map_Forall (fun _ t => stamped_before Date_now (clockReads w) (Task.updatedAt t))
             (db_tasks (db w)).

(** The entry holds something other than an array. *)
Definition not_an_array {A} (entry : option (Value A)) : Prop :=
  match entry with
  | Some (Array _) | None => False
  | Some _ => True
  end.

(** Every key of [m] is still a key of [m']. *)
Definition keys_kept {A} (m m' : gmap string A) : Prop :=
  forall k, is_Some (m !! k) -> is_Some (m' !! k).

(** Every record of the database in [w] still has a record under its key in
    [w'] (the same one or a later version). *)
Definition records_kept (w w' : World) : Prop :=
  keys_kept (db_notes (db w)) (db_notes (db w')) /\
  keys_kept (db_tasks (db w)) (db_tasks (db w')) /\
  keys_kept (db_knowledge_graph (db w)) (db_knowledge_graph (db w')) /\
  keys_kept (db_settings (db w)) (db_settings (db w')).

(** The calls that delete. *)
Definition removes (c : Call) : bool :=
  match c with
  | call_deleteNote _ | call_deleteTask _ | call_clearAllData => true
  | _ => false
  end.

(** The elements an import loop goes through: those of an array; anything
    else is skipped. *)
Definition elements {A} (v : Value (option A)) : list (option A) :=
  match v with
  | Array l => l
  | _ => []
  end.

(** No element is [null]. *)
Definition no_null {A} (v : Value (option A)) : Prop :=
  Forall is_Some (elements v).

(** The document gives [importData] nothing to save. *)
Definition nothing_to_import (d : ImportData.t) : Prop :=
  elements (ImportData.notes d) = [] /\
  elements (ImportData.tasks d) = [] /\
  ImportData.knowledgeGraph d = None /\
  elements (ImportData.settings d) = [].

(** Where a save has put a record: a note or a task under its non-empty
    [id], a setting under its key. *)
Definition note_in (x : option NoteArg.t) (w : World) : Prop :=
  forall n i, x = Some n -> NoteArg.id n = Some i -> i <> "" ->
    is_Some (db_notes (db w) !! i).

Definition task_in (x : option TaskArg.t) (w : World) : Prop :=
  forall t i, x = Some t -> TaskArg.id t = Some i -> i <> "" ->
    is_Some (db_tasks (db w) !! i).

Definition setting_in (x : option SettingArg.t) (w : World) : Prop :=
  forall s key, x = Some s -> SettingArg.key s = Some key ->
    is_Some (db_settings (db w) !! key).

(** The element, if it is a setting, carries its [key]. *)
Definition has_key (x : option SettingArg.t) : Prop :=
  forall s, x = Some s -> is_Some (SettingArg.key s).

(** Every setting of the document carries its [key]. *)
Definition keyed (v : Value (option SettingArg.t)) : Prop :=
  Forall has_key (elements v).

(** The characters the contents of the notes have together. *)
Definition total_length (l : list Note.t) : nat :=
  list_sum (List.map (fun n => String.length (Note.content n)) l).

(** A missing [dueDate] or [relatedNoteId] is stored as [null], never as the
    empty string. *)
Definition tidy_task (k : string) (t : Task.t) : Prop :=
  Task.dueDate t <> Some "" /\ Task.relatedNoteId t <> Some "".

Definition tidy (w : World) : Prop := map_Forall tidy_task (db_tasks (db w)).

(** The record with another [updatedAt]; the task with another [completed]
    as well. *)
Definition note_stamped (n : Note.t) (updatedAt : Timestamp) : Note.t :=
  Note.mk (Note.id n) (Note.title n) (Note.content n) (Note.tags n)
          (Note.createdAt n) updatedAt (Note.wordCount n).

Definition task_stamped (t : Task.t) (completed : bool) (updatedAt : Timestamp) : Task.t :=
  Task.mk (Task.id t) (Task.title t) (Task.description t) (Task.priority t)
          completed (Task.dueDate t) (Task.createdAt t) updatedAt (Task.relatedNoteId t).

(** The settings and the graph of the database are as given. *)
Definition settings_and_graph_are (s : gmap string Setting.t) (g : gmap string Graph.t)
    (w : World) : Prop :=
  db_settings (db w) = s /\ db_knowledge_graph (db w) = g.

(** ** Further sample data *)

(** The first note of [two_notes], edited. *)
Definition alpha_edited : NoteArg.t :=
  NoteArg.mk (Some "loyw3v28k3x9") (Some "Alpha") (Some "about cats and dogs")
             None (Some 1700000000001).

(** A document with two notes, a task, a graph and a setting. *)
Definition backup : ImportData.t :=
  ImportData.mk (Array [Some Sample.gamma; Some Sample.beta])
                (Array [Some Sample.chore])
                (Some (GraphArg.mk None None))
                (Array [Some (SettingArg.mk (Some "theme") (JString "dark"))]).

(** A document whose second setting has no [key]. *)
Definition without_key : ImportData.t :=
  ImportData.mk (Array [Some Sample.gamma])
                (Array [Some Sample.chore])
                None
                (Array [Some (SettingArg.mk (Some "theme") (JString "dark"));
                        Some (SettingArg.mk None (JString "orphan"))]).

(** [busy] with a setting and a graph. *)
Definition furnished : World :=
  after Sample.ticking Sample.dice (call_saveKnowledgeGraph (GraphArg.mk (Some [JNumber 1]) None))
        (after Sample.ticking Sample.dice (call_saveSetting "theme" (JString "dark")) busy).

(** * Properties *)

(** ** Reading the model *)

Ltac unfold_async :=
  unfold performTransaction, performLocalStorageOperation, if_useLocalStorage,
         store_put, store_get, store_getAll, store_delete, store_clear, store_data,
         js_find, js_filter, setItem, removeItem, modify_db, modify_localStorage,
         generateId, now, random36, throw, mbind, mret, Async_bind, Async_ret,
         toValue, ToValue_value, ToValue_option, ToValue_list, ToValue_key in *.

(** ** Saving in fallback mode *)

(** An operation that throws leaves [localStorage] as the operation left
    it: nothing is written back. *)
Lemma performLocalStorageOperation_rejected {A R} `{ToValue A R}
    (storeName : StoreName A) (operation : Store A -> Async R) (w w' : World) (e : JsError) :
  operation (DataObject (default (Array []) (getItem storeName (localStorage w)))) w
    = (Rejected e, w') ->
  performLocalStorageOperation storeName operation w = (Rejected e, w').
Proof. intros Hop. unfold performLocalStorageOperation. now rewrite Hop. Qed.

Lemma put_in_fallback_mode {A} (storeName : StoreName A) (mode : Mode) (x : A) (w : World) :
  useLocalStorage w = true ->
  performTransaction storeName mode (fun store => store_put store x) w
    = (Rejected TypeError, w).
Proof.
  intros Hfb. unfold performTransaction. rewrite Hfb.
  now apply performLocalStorageOperation_rejected.
Qed.

Section Fallback.
Variable Date_now : nat -> Timestamp.
Variable Math_random : nat -> string.

#[local] Abbreviation saveNote := (saveNote Date_now Math_random).
#[local] Abbreviation saveTask := (saveTask Date_now Math_random).
#[local] Abbreviation saveKnowledgeGraph := (saveKnowledgeGraph Date_now).
#[local] Abbreviation saveSetting := (saveSetting Date_now).

(** The part of a save that runs before the transaction reads the clock
  and the random generator only. *)
Lemma saveNote_fallback (note : NoteArg.t) (w : World) :
  useLocalStorage w = true ->
  fst (saveNote note w) = Rejected TypeError /\
  persisted (snd (saveNote note w)) = persisted w.
Proof.
  intros Hfb. unfold saveNote.
  destruct (str_or_null (NoteArg.id note)), (NoteArg.createdAt note);
    unfold_async; simpl; rewrite Hfb; auto.
Qed.

Lemma saveTask_fallback (task : TaskArg.t) (w : World) :
  useLocalStorage w = true ->
  fst (saveTask task w) = Rejected TypeError /\
  persisted (snd (saveTask task w)) = persisted w.
Proof.
  intros Hfb. unfold saveTask.
  destruct (str_or_null (TaskArg.id task)), (TaskArg.createdAt task);
    unfold_async; simpl; rewrite Hfb; auto.
Qed.

Lemma saveKnowledgeGraph_fallback (graphData : GraphArg.t) (w : World) :
  useLocalStorage w = true ->
  fst (saveKnowledgeGraph graphData w) = Rejected TypeError /\
  persisted (snd (saveKnowledgeGraph graphData w)) = persisted w.
Proof.
  intros Hfb. unfold saveKnowledgeGraph. unfold_async; simpl; rewrite Hfb; auto.
Qed.

Lemma saveSetting_fallback (key : string) (value : JsonValue) (w : World) :
  useLocalStorage w = true ->
  fst (saveSetting key value w) = Rejected TypeError /\
  persisted (snd (saveSetting key value w)) = persisted w.
Proof.
  intros Hfb. unfold saveSetting. unfold_async; simpl; rewrite Hfb; auto.
Qed.

End Fallback.

(** C2. In fallback mode ([useLocalStorage] set) every call of [saveNote],
    [saveTask], [saveKnowledgeGraph] and [saveSetting] is rejected, whatever
    its argument: the operation calls [put] on the plain object [{ data }]
    that [performLocalStorageOperation] supplies.  The failed call leaves
    the persisted collections as they were. *)
Theorem saves_rejected_in_fallback_mode
    (Date_now : nat -> Timestamp) (Math_random : nat -> string) (w : World) :
  useLocalStorage w = true ->
  (forall A (storeName : StoreName A) mode (record : A),
      performTransaction storeName mode (fun store => store_put store record) w
        = (Rejected TypeError, w)) /\
  (forall note,
      fst (saveNote Date_now Math_random note w) = Rejected TypeError /\
      persisted (snd (saveNote Date_now Math_random note w)) = persisted w) /\
  (forall task,
      fst (saveTask Date_now Math_random task w) = Rejected TypeError /\
      persisted (snd (saveTask Date_now Math_random task w)) = persisted w) /\
  (forall graphData,
      fst (saveKnowledgeGraph Date_now graphData w) = Rejected TypeError /\
      persisted (snd (saveKnowledgeGraph Date_now graphData w)) = persisted w) /\
  (forall key value,
      fst (saveSetting Date_now key value w) = Rejected TypeError /\
      persisted (snd (saveSetting Date_now key value w)) = persisted w).
Proof.
  intros Hfb. repeat split; intros.
  - now apply put_in_fallback_mode.
  - now apply saveNote_fallback.
  - now apply saveNote_fallback.
  - now apply saveTask_fallback.
  - now apply saveTask_fallback.
  - now apply saveKnowledgeGraph_fallback.
  - now apply saveKnowledgeGraph_fallback.
  - now apply saveSetting_fallback.
  - now apply saveSetting_fallback.
Qed.

Lemma saves_rejected_in_fallback_mode_witness :
  useLocalStorage Sample.populated = true /\
  fst (saveNote Sample.ticking Sample.dice Sample.alpha Sample.populated)
    = Rejected TypeError /\
  persisted (snd (saveNote Sample.ticking Sample.dice Sample.alpha Sample.populated))
    = persisted Sample.populated.
Proof.
  split; [reflexivity |].
  exact (proj1 (proj2 (saves_rejected_in_fallback_mode Sample.ticking Sample.dice
                         Sample.populated eq_refl)) Sample.alpha).
Defined.

(** ** Reading in fallback mode *)

(** C3. In fallback mode a successful single-record read writes: when
    [getNote(id)] or [getSetting(key)] finds a record,
    [performLocalStorageOperation] stores that one record as the whole
    serialised collection, in place of the array; and [getKnowledgeGraph]
    stores the object it returns as the whole [knowledge_graph] entry. *)
Theorem fallback_read_writes_result_back (w : World) :
  useLocalStorage w = true ->
  (forall id l note,
      ls_notes (localStorage w) = Some (Array l) ->
      List.find (fun n => String.eqb (Note.id n) id) l = Some note ->
      fst (getNote id w) = Resolved (Some note) /\
      ls_notes (localStorage (snd (getNote id w))) = Some (Object note)) /\
  (forall key defaultValue l setting,
      ls_settings (localStorage w) = Some (Array l) ->
      List.find (fun s => String.eqb (Setting.key s) key) l = Some setting ->
      fst (getSetting key defaultValue w) = Resolved (Setting.value setting) /\
      ls_settings (localStorage (snd (getSetting key defaultValue w)))
        = Some (Object setting)) /\
  (forall graph,
      fst (getKnowledgeGraph w) = Resolved (Some graph) ->
      ls_knowledge_graph (localStorage (snd (getKnowledgeGraph w)))
        = Some (Object graph)).
Proof.
  intros Hfb. split; [| split].
  - intros id l note Hl Hfind. unfold getNote. unfold_async.
    rewrite Hfb. simpl. rewrite Hl. simpl. rewrite Hfind. simpl. auto.
  - intros key defaultValue l setting Hl Hfind. unfold getSetting. unfold_async.
    rewrite Hfb. simpl. rewrite Hl. simpl. rewrite Hfind. simpl. auto.
  - intros graph. unfold getKnowledgeGraph. unfold_async.
    rewrite Hfb. simpl.
    destruct (default (Array []) (ls_knowledge_graph (localStorage w))); simpl;
      try discriminate.
    intros [= <-]. reflexivity.
Qed.

Lemma fallback_read_writes_result_back_witness :
  useLocalStorage Sample.populated = true /\
  (fst (getNote "n2" Sample.populated) = Resolved (Some Sample.stored_beta) /\
   ls_notes (localStorage (snd (getNote "n2" Sample.populated)))
     = Some (Object Sample.stored_beta)) /\
  (fst (getSetting "theme" JNull Sample.populated) = Resolved (JString "dark") /\
   ls_settings (localStorage (snd (getSetting "theme" JNull Sample.populated)))
     = Some (Object Sample.theme)) /\
  ls_knowledge_graph (localStorage (snd (getKnowledgeGraph Sample.populated)))
    = Some (Object empty_graph).
Proof.
  split; [reflexivity |].
  destruct (fallback_read_writes_result_back Sample.populated eq_refl)
    as (Hnote & Hsetting & Hgraph).
  split; [| split].
  - exact (Hnote "n2" [Sample.stored_alpha; Sample.stored_beta] Sample.stored_beta
                 eq_refl eq_refl).
  - exact (Hsetting "theme" JNull [Sample.theme] Sample.theme eq_refl eq_refl).
  - exact (Hgraph empty_graph eq_refl).
Defined.

(** After such a read the entry is no longer an array, and the next read of
    the collection through [find] throws. *)
Example getNote_twice :
  fst ((getNote "n2" ≫= fun _ => getNote "n2") Sample.populated) = Rejected TypeError.
Proof. reflexivity. Qed.

(** ** The two backends side by side *)

(** C1 (the code departs from it). The outcome of [saveNote] depends on the
    backend: on a fresh profile the same call is resolved with the saved
    record when the database is in use and rejected in fallback mode. *)
Theorem saveNote_outcome_depends_on_backend :
  fst (saveNote Sample.ticking Sample.dice Sample.alpha (init false))
    = Resolved (Note.mk "loyw3v28k3x9" "Alpha" "about cats" []
                        1700000000001 1700000000002 10) /\
  fst (saveNote Sample.ticking Sample.dice Sample.alpha (init true))
    = Rejected TypeError.
Proof. split; reflexivity. Qed.

(** C5 (the code departs from it). With no graph ever saved, the call is
    resolved with [undefined] when the database is in use; in fallback mode
    the first call is resolved with [{ nodes: [], links: [] }] and stores
    that object as the [knowledge_graph] entry, and the second call is
    rejected. *)
Theorem getKnowledgeGraph_without_saved_graph :
  getKnowledgeGraph (init false) = (Resolved None, init false) /\
  fst (getKnowledgeGraph (init true)) = Resolved (Some empty_graph) /\
  ls_knowledge_graph (localStorage (snd (getKnowledgeGraph (init true))))
    = Some (Object empty_graph) /\
  fst ((getKnowledgeGraph ≫= fun _ => getKnowledgeGraph) (init true))
    = Rejected TypeError.
Proof. repeat split; reflexivity. Qed.

(** ** Search *)

Lemma prefix_spec (a s : string) :
  String.prefix a s = true <-> exists after, s = String.append a after.
Proof.
  revert s. induction a as [| c a IH]; intros [| d s]; simpl.
  - split; [intros _; now exists "" | reflexivity].
  - split; [intros _; now exists (String d s) | reflexivity].
  - split; [discriminate | intros [after H]; discriminate].
  - destruct (ascii_dec c d) as [-> | Hne].
    + rewrite IH. split; intros [after H]; exists after.
      * now rewrite H.
      * now injection H.
    + split; [discriminate |]. intros [after H]. injection H. congruence.
Qed.

Lemma includes_spec (s sub : string) :
  includes s sub = true <-> is_substring sub s.
Proof.
  induction s as [| c s IH]; cbn [includes].
  - rewrite orb_false_r, prefix_spec. split.
    + intros [after H]. exists "", after. exact H.
    + intros ([| b before] & after & H); [now exists after | discriminate].
  - rewrite orb_true_iff, prefix_spec, IH. split.
    + intros [[after H] | (before & after & H)].
      * exists "", after. exact H.
      * exists (String c before), after. simpl. now rewrite H.
    + intros ([| b before] & after & H).
      * left. now exists after.
      * right. exists before, after. simpl in H. now injection H.
Qed.

Lemma note_matches_spec (toLowerCase : string -> string) (query : string) (note : Note.t) :
  note_matches toLowerCase (toLowerCase query) note = true
  <-> matches_query toLowerCase query note.
Proof.
  unfold note_matches, matches_query.
  rewrite !orb_true_iff, !includes_spec, existsb_exists.
  setoid_rewrite includes_spec. tauto.
Qed.

(** [getNotes] is resolved with the stored collection. *)
Lemma getNotes_stored (w : World) (l : list Note.t) :
  stored_notes w = Some l -> fst (getNotes w) = Resolved (Array l).
Proof.
  unfold stored_notes, getNotes. unfold_async.
  destruct (useLocalStorage w) eqn:Hfb; simpl.
  - destruct (ls_notes (localStorage w)) as [[| l' | |] |]; simpl;
      try discriminate; now intros [= ->].
  - now intros [= <-].
Qed.

(** C9. For every stored set of notes and every query, [searchNotes(query)]
    is resolved with exactly the stored notes for which the lower-cased query
    is a substring of the lower-cased title, or of the lower-cased content,
    or of at least one lower-cased tag. *)
Theorem searchNotes_returns_the_matching_notes
    (toLowerCase : string -> string) (w : World) (l : list Note.t) (query : string) :
  stored_notes w = Some l ->
  exists found,
    fst (searchNotes toLowerCase query w) = Resolved found /\
    forall note, In note found <-> In note l /\ matches_query toLowerCase query note.
Proof.
  intros Hstored. apply getNotes_stored in Hstored.
  exists (List.filter (note_matches toLowerCase (toLowerCase query)) l). split.
  - unfold searchNotes. unfold mbind, Async_bind.
    destruct (getNotes w) as [r w']. simpl in Hstored. subst r. reflexivity.
  - intros note. rewrite filter_In, note_matches_spec. reflexivity.
Qed.

Lemma searchNotes_returns_the_matching_notes_witness :
  stored_notes Sample.populated = Some [Sample.stored_alpha; Sample.stored_beta] /\
  exists found,
    fst (searchNotes Sample.toLowerCase "FELINE" Sample.populated) = Resolved found /\
    forall note,
      In note found <->
      In note [Sample.stored_alpha; Sample.stored_beta] /\
      matches_query Sample.toLowerCase "FELINE" note.
Proof.
  split; [reflexivity |].
  exact (searchNotes_returns_the_matching_notes Sample.toLowerCase Sample.populated
           [Sample.stored_alpha; Sample.stored_beta] "FELINE" eq_refl).
Defined.

(** The example of the specification, on both backends. *)
Example search_cat_and_feline :
  fst (searchNotes Sample.toLowerCase "cat" two_notes) = Resolved [saved_alpha] /\
  fst (searchNotes Sample.toLowerCase "feline" two_notes) = Resolved [saved_beta] /\
  fst (searchNotes Sample.toLowerCase "cat" Sample.populated)
    = Resolved [Sample.stored_alpha] /\
  fst (searchNotes Sample.toLowerCase "feline" Sample.populated)
    = Resolved [Sample.stored_beta].
Proof. repeat split; vm_compute; reflexivity. Qed.

(** ** Composition of calls, identifiers and defaults *)

Lemma preserves_ret {A} (P : World -> Prop) (a : A) : preserves P (mret a).
Proof. intros w Hw. exact Hw. Qed.

Lemma preserves_throw {A} (P : World -> Prop) (e : JsError) : preserves P (@throw A e).
Proof. intros w Hw. exact Hw. Qed.

Lemma preserves_bind {A B} (P : World -> Prop) (m : Async A) (f : A -> Async B) :
  preserves P m -> (forall a, preserves P (f a)) -> preserves P (m ≫= f).
Proof.
  intros Hm Hf w Hw. unfold mbind, Async_bind.
  specialize (Hm w Hw). destruct (m w) as [[a | e] w']; simpl in *.
  - now apply Hf.
  - exact Hm.
Qed.

Lemma preserves_for_of {A} (P : World -> Prop) (l : list A) (body : A -> Async unit) :
  (forall x, preserves P (body x)) -> preserves P (for_of l body).
Proof.
  intros Hbody. induction l as [| x l IH]; simpl.
  - apply preserves_ret.
  - apply preserves_bind; [apply Hbody | intros _; exact IH].
Qed.

Lemma bind_rejected {A B} (m : Async A) (f : A -> Async B) (w : World) (e : JsError) :
  fst (m w) = Rejected e -> (m ≫= f) w = (Rejected e, snd (m w)).
Proof.
  intros Hm. unfold mbind, Async_bind. destruct (m w) as [[a | e'] w']; simpl in *; congruence.
Qed.

Lemma bind_resolved {A B} (m : Async A) (f : A -> Async B) (w w' : World) (a : A) :
  m w = (Resolved a, w') -> (m ≫= f) w = f a w'.
Proof. intros Hm. unfold mbind, Async_bind. now rewrite Hm. Qed.

(** A [put] that finds no key is rejected and changes nothing. *)
Lemma put_without_key_rejected (w : World) :
  performTransaction settings readwrite (fun store => store_put_without_key store) w
    = (Rejected (if useLocalStorage w then TypeError else DataError), w).
Proof.
  unfold performTransaction, performLocalStorageOperation, store_put_without_key, throw.
  now destruct (useLocalStorage w).
Qed.

Lemma preserves_saveSetting_without_key (Date_now : nat -> Timestamp)
    (P : World -> Prop) (value : JsonValue) :
  preserves P (now Date_now) -> preserves P (saveSetting_without_key Date_now value).
Proof.
  intros Hnow. unfold saveSetting_without_key.
  apply preserves_bind; [exact Hnow |]. intros updatedAt.
  apply preserves_bind; [| intros _; apply preserves_ret].
  intros w Hw. now rewrite put_without_key_rejected.
Qed.

Lemma preserves_promise_all2 {A B} (P : World -> Prop) (a : Async A) (b : Async B) :
  preserves P a -> preserves P b -> preserves P (promise_all2 a b).
Proof.
  intros Ha Hb w Hw. unfold promise_all2.
  specialize (Ha w Hw). destruct (a w) as [ra w1]. simpl in Ha.
  specialize (Hb w1 Ha). destruct (b w1) as [rb w2]. exact Hb.
Qed.

Example toString36_samples :
  toString36 0 = "0" /\ toString36 35 = "z" /\ toString36 36 = "10" /\
  toString36 (-71) = "-1z" /\ toString36 1700000000000 = "loyw3v28".
Proof. repeat split; reflexivity. Qed.

Lemma digits36_not_empty (fuel : nat) (n : Z) (acc : string) : digits36 fuel n acc <> "".
Proof.
  revert n acc. induction fuel as [| fuel IH]; intros n acc; simpl.
  - discriminate.
  - destruct (n / 36 =? 0); [discriminate | apply IH].
Qed.

Lemma toString36_not_empty (n : Z) : toString36 n <> "".
Proof.
  unfold toString36. destruct (n <? 0); [discriminate | apply digits36_not_empty].
Qed.

Lemma append_not_empty (a b : string) : a <> "" -> String.append a b <> "".
Proof. destruct a; [congruence | discriminate]. Qed.

Lemma str_or_null_Some (s : option string) (x : string) :
  str_or_null s = Some x -> x <> "" /\ s = Some x.
Proof.
  destruct s as [y |]; simpl; [| discriminate].
  destruct (String.eqb_spec y ""); [discriminate |]. now intros [= <-].
Qed.

Lemma str_or_not_empty (s : option string) (d : string) : d <> "" -> str_or s d <> "".
Proof.
  intros Hd. destruct s as [y |]; simpl; [| exact Hd].
  now destruct (String.eqb_spec y "").
Qed.

Lemma str_or_keeps (x d : string) : x <> "" -> str_or (Some x) d = x.
Proof. intros Hx. simpl. now destruct (String.eqb_spec x ""). Qed.

Lemma str_or_null_keeps (x : string) : x <> "" -> str_or_null (Some x) = Some x.
Proof. intros Hx. simpl. now destruct (String.eqb_spec x ""). Qed.

(** ** Saving with the database *)

Lemma wordCount_is_length (content : option string) :
  match str_or_null content with
  | Some c => String.length c
  | None => O
  end = String.length (str_or content "").
Proof.
  destruct content as [c |]; simpl; [| reflexivity].
  now destruct (String.eqb_spec c "") as [-> |].
Qed.

Section Structured.
Variable Date_now : nat -> Timestamp.
Variable Math_random : nat -> string.

(** With the database in use, [saveNote] is resolved with the normalised
    record and files it under its [id]; [updatedAt] is the last reading [i]
    of the clock, [createdAt] an earlier reading of the same call when the
    argument has none. *)
Lemma saveNote_structured (note : NoteArg.t) (w : World) :
  useLocalStorage w = false ->
  exists noteData i,
    saveNote Date_now Math_random note w
      = (Resolved noteData,
         mkWorld false
                 (setObjectStore notes (<[Note.id noteData := noteData]> (db_notes (db w))) (db w))
                 (localStorage w) (S i) (randomDraws (snd (saveNote Date_now Math_random note w)))) /\
    normalised_note note noteData /\
    (clockReads w <= i)%nat /\
    Note.updatedAt noteData = Date_now i /\
    (NoteArg.createdAt note = None ->
     exists i0, (clockReads w <= i0 <= i)%nat /\ Note.createdAt noteData = Date_now i0) /\
    (str_or_null (NoteArg.id note) <> None -> NoteArg.createdAt note <> None ->
     i = clockReads w).
Proof.
  intros Hdb. destruct w as [fb d ls c r]. simpl in Hdb. subst fb.
  unfold saveNote, normalised_note.
  pose proof (wordCount_is_length (NoteArg.content note)) as Hwc.
  destruct (str_or_null (NoteArg.id note)) as [i |] eqn:Hid;
    destruct (NoteArg.createdAt note) as [t |] eqn:Hct;
    unfold_async; simpl.
  all: eexists (Note.mk _ _ _ _ _ _ _), _; split; [reflexivity |]; simpl.
  all: repeat split; try assumption; try lia; try congruence; try tauto.
  all: try (intros; congruence).
  all: try (apply append_not_empty, toString36_not_empty).
  all: try (eexists; split; [| reflexivity]; lia).
  all: try (now apply str_or_null_Some in Hid).
  all: intros i0 Hi0 Hne; rewrite Hi0, (str_or_null_keeps _ Hne) in Hid; congruence.
Qed.

Lemma saveTask_structured (task : TaskArg.t) (w : World) :
  useLocalStorage w = false ->
  exists taskData i,
    saveTask Date_now Math_random task w
      = (Resolved taskData,
         mkWorld false
                 (setObjectStore tasks (<[Task.id taskData := taskData]> (db_tasks (db w))) (db w))
                 (localStorage w) (S i) (randomDraws (snd (saveTask Date_now Math_random task w)))) /\
    normalised_task task taskData /\
    (clockReads w <= i)%nat /\
    Task.updatedAt taskData = Date_now i /\
    (TaskArg.createdAt task = None ->
     exists i0, (clockReads w <= i0 <= i)%nat /\ Task.createdAt taskData = Date_now i0) /\
    (str_or_null (TaskArg.id task) <> None -> TaskArg.createdAt task <> None ->
     i = clockReads w).
Proof.
  intros Hdb. destruct w as [fb d ls c r]. simpl in Hdb. subst fb.
  unfold saveTask, normalised_task.
  destruct (str_or_null (TaskArg.id task)) as [i |] eqn:Hid;
    destruct (TaskArg.createdAt task) as [t |] eqn:Hct;
    unfold_async; simpl.
  all: eexists (Task.mk _ _ _ _ _ _ _ _ _), _; split; [reflexivity |]; simpl.
  all: repeat split; try assumption; try lia; try congruence; try tauto.
  all: try (intros; congruence).
  all: try (apply append_not_empty, toString36_not_empty).
  all: try (eexists; split; [| reflexivity]; lia).
  all: try (now apply str_or_null_Some in Hid).
  all: intros i0 Hi0 Hne; rewrite Hi0, (str_or_null_keeps _ Hne) in Hid; congruence.
Qed.

End Structured.

(** With the database in use a read changes nothing. *)
Lemma getNote_structured (id : string) (w : World) :
  useLocalStorage w = false ->
  getNote id w = (Resolved (db_notes (db w) !! id), w).
Proof. intros Hdb. unfold getNote. unfold_async. now rewrite Hdb. Qed.

Lemma getTask_structured (id : string) (w : World) :
  useLocalStorage w = false ->
  getTask id w = (Resolved (db_tasks (db w) !! id), w).
Proof. intros Hdb. unfold getTask. unfold_async. now rewrite Hdb. Qed.

Lemma getNotes_structured (w : World) :
  useLocalStorage w = false ->
  getNotes w = (Resolved (Array (records (db_notes (db w)))), w).
Proof. intros Hdb. unfold getNotes. unfold_async. now rewrite Hdb. Qed.

Lemma getTasks_structured (w : World) :
  useLocalStorage w = false ->
  getTasks w = (Resolved (Array (records (db_tasks (db w)))), w).
Proof. intros Hdb. unfold getTasks. unfold_async. now rewrite Hdb. Qed.

Lemma getKnowledgeGraph_structured (w : World) :
  useLocalStorage w = false ->
  getKnowledgeGraph w = (Resolved (db_knowledge_graph (db w) !! "main_graph"), w).
Proof. intros Hdb. unfold getKnowledgeGraph. unfold_async. now rewrite Hdb. Qed.

Lemma getAllSettings_structured (w : World) :
  useLocalStorage w = false ->
  getAllSettings w = (Resolved (Array (records (db_settings (db w)))), w).
Proof. intros Hdb. unfold getAllSettings. unfold_async. now rewrite Hdb. Qed.

(** ** A saved note read back *)

(** C4 (as amended). With the database in use, for every note [N],
    [saveNote(N)] followed by [getNote] on the id of the saved record is
    resolved with the saved record; its [wordCount] is the length of its
    content and a non-empty [id] of [N] is kept.  Its [updatedAt] is not
    earlier than its [createdAt] provided the clock never runs backwards and
    [N] has no [createdAt] or one that is not later than the time of the
    call. *)
Theorem saveNote_then_getNote
    (Date_now : nat -> Timestamp) (Math_random : nat -> string)
    (note : NoteArg.t) (w : World) :
  useLocalStorage w = false ->
  exists saved w1,
    saveNote Date_now Math_random note w = (Resolved saved, w1) /\
    getNote (Note.id saved) w1 = (Resolved (Some saved), w1) /\
    Note.wordCount saved = String.length (Note.content saved) /\
    (forall i, NoteArg.id note = Some i -> i <> "" -> Note.id saved = i) /\
    (monotone Date_now ->
     (forall t, NoteArg.createdAt note = Some t -> t <= Date_now (clockReads w)) ->
     Note.createdAt saved <= Note.updatedAt saved).
Proof.
  intros Hdb.
  destruct (saveNote_structured Date_now Math_random note w Hdb)
    as (saved & i & Hsave & Hnorm & Hi & Hupd & Hcre & _).
  destruct Hnorm as (_ & Hid & _ & _ & _ & Hwc & Hkeep).
  eexists saved, _. split; [exact Hsave |]. split; [| split; [| split]].
  - rewrite getNote_structured by reflexivity. simpl.
    now rewrite lookup_insert_eq.
  - exact Hwc.
  - exact Hid.
  - intros Hmono Hpast. rewrite Hupd.
    destruct (NoteArg.createdAt note) as [t |] eqn:Hct.
    + rewrite (Hkeep t eq_refl). etransitivity; [apply (Hpast t eq_refl) |].
      now apply Hmono.
    + destruct (Hcre eq_refl) as (i0 & Hi0 & ->). apply Hmono. lia.
Qed.

Lemma ticking_monotone : monotone Sample.ticking.
Proof. intros i j Hij. unfold Sample.ticking. lia. Qed.

Lemma frozen_monotone : monotone Sample.frozen.
Proof. intros i j Hij. unfold Sample.frozen. lia. Qed.

Lemma saveNote_then_getNote_witness :
  useLocalStorage (init false) = false /\
  exists saved w1,
    saveNote Sample.ticking Sample.dice Sample.alpha (init false) = (Resolved saved, w1) /\
    getNote (Note.id saved) w1 = (Resolved (Some saved), w1) /\
    Note.wordCount saved = String.length (Note.content saved) /\
    Note.createdAt saved <= Note.updatedAt saved.
Proof.
  split; [reflexivity |].
  destruct (saveNote_then_getNote Sample.ticking Sample.dice Sample.alpha (init false) eq_refl)
    as (saved & w1 & Hsave & Hget & Hwc & _ & Htime).
  exists saved, w1. repeat split; try assumption.
  apply Htime; [exact ticking_monotone | discriminate].
Defined.

(** C4 as stated fails on a note that carries a [createdAt] later than the
    time of the call and an empty [id]: the record read back has an
    [updatedAt] earlier than its [createdAt], and another [id]. *)
Lemma saveNote_then_getNote_counterexample :
  let saved := Note.mk "loyw3v28k3x9" "Plan" "later" [] 1800000000000 1700000000001 5 in
  let after := snd (saveNote Sample.ticking Sample.dice Sample.postdated (init false)) in
  fst (saveNote Sample.ticking Sample.dice Sample.postdated (init false)) = Resolved saved /\
  fst (getNote (Note.id saved) after) = Resolved (Some saved) /\
  ~ (Note.updatedAt saved >= Note.createdAt saved) /\
  NoteArg.id Sample.postdated = Some "" /\
  Note.id saved <> "".
Proof. repeat split; try reflexivity; simpl; [lia | discriminate]. Qed.

(** ** Completing a task *)

Lemma find_absent {A} (p : A -> bool) (l : list A) :
  (forall x, In x l -> p x = false) -> List.find p l = None.
Proof.
  induction l as [| x l IH]; intros Hall; simpl; [reflexivity |].
  rewrite (Hall x (or_introl eq_refl)). apply IH. intros y Hy. apply Hall. now right.
Qed.

(** On either backend, looking up an id that no stored task has is resolved
    with [undefined] and changes nothing. *)
Lemma getTask_absent (id : string) (w : World) :
  task_absent id w -> getTask id w = (Resolved None, w).
Proof.
  unfold task_absent, stored_tasks. destruct (useLocalStorage w) eqn:Hmode.
  - intros (l & Hl & Habsent).
    assert (default (Array []) (ls_tasks (localStorage w)) = Array l) as Hdata.
    { destruct (ls_tasks (localStorage w)) as [[| l' | |] |]; simpl; congruence. }
    unfold getTask. unfold_async. rewrite Hmode. simpl. rewrite Hdata.
    rewrite find_absent; [reflexivity |].
    intros t Ht. apply String.eqb_neq. now apply Habsent.
  - intros Habsent. rewrite getTask_structured by exact Hmode. now rewrite Habsent.
Qed.

(** C6 (as amended). With the database in use, for every task [T],
    [saveTask(T)] then [updateTaskStatus(id, true)] then [getTask(id)], on
    the id of the saved record, is resolved with a record that has
    [completed == true]; its [updatedAt] is the second reading of the clock
    after the one that stamped the first save, so it is not earlier when the
    clock never runs backwards (and later exactly when the clock has
    advanced in between).  On either backend, [updateTaskStatus] on an id
    that no stored task has changes nothing and is resolved with
    [undefined]. *)
Theorem updateTaskStatus_completes_the_task
    (Date_now : nat -> Timestamp) (Math_random : nat -> string) (w : World) :
  (useLocalStorage w = false ->
   forall task,
      exists saved w1 updated w2 stored i,
        saveTask Date_now Math_random task w = (Resolved saved, w1) /\
        updateTaskStatus Date_now Math_random (Task.id saved) true w1
          = (Resolved (Some updated), w2) /\
        getTask (Task.id saved) w2 = (Resolved (Some stored), w2) /\
        Task.completed stored = true /\
        Task.updatedAt saved = Date_now i /\
        Task.updatedAt stored = Date_now (S (S i)) /\
        (monotone Date_now -> Task.updatedAt stored >= Task.updatedAt saved)) /\
  (forall id completed,
      task_absent id w ->
      updateTaskStatus Date_now Math_random id completed w = (Resolved None, w)).
Proof.
  split.
  - intros Hdb task.
    destruct (saveTask_structured Date_now Math_random task w Hdb)
      as (saved & i & Hsave & Hnorm & _ & Hupd & _).
    destruct Hnorm as (Hid & _).
    set (w1 := mkWorld _ _ _ _ _) in Hsave.
    set (marked := Task.mk (Task.id saved) (Task.title saved) (Task.description saved)
                           (Task.priority saved) true (Task.dueDate saved)
                           (Task.createdAt saved) (Date_now (S i))
                           (Task.relatedNoteId saved)).
    set (w1' := mkWorld false (db w1) (localStorage w1) (S (S i)) (randomDraws w1)).
    destruct (saveTask_structured Date_now Math_random (Task.arg marked) w1' eq_refl)
      as (stored & j & Hsave2 & Hnorm2 & _ & Hupd2 & _ & Hj).
    destruct Hnorm2 as (_ & Hid2 & _ & _ & _ & Hdone & _).
    specialize (Hid2 (Task.id saved) eq_refl Hid).
    assert (j = S (S i)) as ->.
    { apply Hj; [| discriminate].
      change (TaskArg.id (Task.arg marked)) with (Some (Task.id saved)).
      now rewrite (str_or_null_keeps _ Hid). }
    eexists saved, w1, marked, _, stored, i.
    split; [exact Hsave |]. split; [| split; [| split; [| split; [| split]]]].
    + assert (db_tasks (db w1) !! Task.id saved = Some saved) as Hstored
        by apply lookup_insert_eq.
      unfold updateTaskStatus, mbind, Async_bind.
      rewrite getTask_structured by reflexivity. rewrite Hstored.
      change (now Date_now w1) with (Resolved (Date_now (S i)), w1').
      cbv iota. fold marked. rewrite Hsave2. reflexivity.
    + rewrite getTask_structured by reflexivity. simpl.
      now rewrite <- Hid2, lookup_insert_eq.
    + exact Hdone.
    + exact Hupd.
    + exact Hupd2.
    + intros Hmono. rewrite Hupd, Hupd2. apply Z.le_ge, Hmono. lia.
  - intros id completed Habsent.
    unfold updateTaskStatus, mbind, Async_bind.
    now rewrite (getTask_absent id w Habsent).
Qed.

Lemma updateTaskStatus_completes_the_task_witness :
  useLocalStorage (init false) = false /\
  (exists saved w1 updated w2 stored,
     saveTask Sample.ticking Sample.dice Sample.chore (init false) = (Resolved saved, w1) /\
     updateTaskStatus Sample.ticking Sample.dice (Task.id saved) true w1
       = (Resolved (Some updated), w2) /\
     getTask (Task.id saved) w2 = (Resolved (Some stored), w2) /\
     Task.completed stored = true /\
     Task.updatedAt stored > Task.updatedAt saved) /\
  task_absent "t9" busy /\
  updateTaskStatus Sample.ticking Sample.dice "t9" true busy = (Resolved None, busy) /\
  task_absent "t9" Sample.populated /\
  updateTaskStatus Sample.ticking Sample.dice "t9" true Sample.populated
    = (Resolved None, Sample.populated).
Proof.
  split; [reflexivity |].
  destruct (updateTaskStatus_completes_the_task Sample.ticking Sample.dice (init false))
    as [Hdone _].
  destruct (Hdone eq_refl Sample.chore)
    as (saved & w1 & updated & w2 & stored & i & H1 & H2 & H3 & H4 & H5 & H6 & _).
  assert (task_absent "t9" busy) as Habsent by (vm_compute; reflexivity).
  assert (task_absent "t9" Sample.populated) as Habsent'
    by (exists []; split; [reflexivity | intros ? []]).
  split; [| split; [exact Habsent | split; [| split; [exact Habsent' |]]]].
  - exists saved, w1, updated, w2, stored. repeat split; try assumption.
    rewrite H5, H6. unfold Sample.ticking. lia.
  - exact (proj2 (updateTaskStatus_completes_the_task Sample.ticking Sample.dice busy)
                 "t9" true Habsent).
  - exact (proj2 (updateTaskStatus_completes_the_task Sample.ticking Sample.dice
                    Sample.populated) "t9" true Habsent').
Defined.

(** C6 as stated fails when the two saves fall within the same millisecond:
    the [updatedAt] read back equals the one before the change. *)
Lemma updateTaskStatus_same_millisecond_counterexample :
  let saved := Task.mk "t1" "Review" "" high false None 1700000000000 1700000000000 None in
  let stored := Task.mk "t1" "Review" "" high true None 1700000000000 1700000000000 None in
  fst ((saveTask Sample.frozen Sample.dice Sample.chore ≫= fun s =>
        updateTaskStatus Sample.frozen Sample.dice (Task.id s) true ≫= fun _ =>
        getTask (Task.id s) ≫= fun r => mret (s, r)) (init false))
    = Resolved (saved, Some stored) /\
  ~ (Task.updatedAt stored > Task.updatedAt saved).
Proof. split; [reflexivity | simpl; lia]. Qed.

(** ** Import *)

(** A loop stops at the first element whose body throws; the state is the
    one that body left. *)
Lemma for_of_aborts {A} (body : A -> Async unit) (before after : list A) (x : A)
    (e : JsError) (w w1 w2 : World) :
  for_of before body w = (Resolved tt, w1) ->
  body x w1 = (Rejected e, w2) ->
  for_of (before ++ x :: after) body w = (Rejected e, w2).
Proof.
  revert w. induction before as [| y before IH]; intros w Hbefore Hx; simpl in *.
  - injection Hbefore as <-. unfold mbind, Async_bind. now rewrite Hx.
  - unfold mbind, Async_bind in *.
    destruct (body y w) as [[[] | e'] w']; [| discriminate].
    now apply IH.
Qed.

(** With the database in use, every note a completed loop went through is
    stored under its id. *)
Lemma imported_notes_are_stored
    (Date_now : nat -> Timestamp) (Math_random : nat -> string)
    (batch : list (option NoteArg.t)) (w w1 : World) :
  useLocalStorage w = false ->
  for_of batch (import_note Date_now Math_random) w = (Resolved tt, w1) ->
  useLocalStorage w1 = false /\
  (forall i, is_Some (db_notes (db w) !! i) -> is_Some (db_notes (db w1) !! i)) /\
  (forall note i, In (Some note) batch -> NoteArg.id note = Some i -> i <> "" ->
                  is_Some (db_notes (db w1) !! i)).
Proof.
  revert w. induction batch as [| x batch IH]; intros w Hdb Hloop; simpl in Hloop.
  - injection Hloop as <-. split; [exact Hdb |]. split; [auto |]. intros ? ? [].
  - unfold mbind, Async_bind in Hloop.
    destruct x as [note |]; [| discriminate]. simpl in Hloop.
    unfold mbind, Async_bind in Hloop.
    destruct (saveNote_structured Date_now Math_random note w Hdb)
      as (saved & k & Hsave & Hnorm & _).
    rewrite Hsave in Hloop. simpl in Hloop.
    apply IH in Hloop as (Hdb1 & Hkeep & Hin); [| reflexivity].
    split; [exact Hdb1 |]. split.
    + intros i Hi. apply Hkeep. simpl. now apply lookup_insert_is_Some'; right.
    + intros n i [[= ->] | Hn] Hid Hne.
      * apply Hkeep. simpl. destruct Hnorm as (_ & Hsame & _).
        rewrite (Hsame i Hid Hne). apply lookup_insert_is_Some'. now left.
      * now apply (Hin n).
Qed.

(** C8. [importData(doc)] is rejected with the import error when [doc] has
    no [data] field.  When saving one record of the batch throws (a note, a
    task or a setting), the import is rejected with that error at once; the
    state is the one the failed save left, so the records saved before it
    stay stored. *)
Theorem importData_aborts_without_rollback
    (Date_now : nat -> Timestamp) (Math_random : nat -> string) :
  (forall w,
      importData Date_now Math_random (ImportDocument.mk None) w
        = (Rejected ImportError, w)) /\
  (forall d before x after e w w1 w2,
      ImportData.notes d = Array (before ++ x :: after) ->
      for_of before (import_note Date_now Math_random) w = (Resolved tt, w1) ->
      import_note Date_now Math_random x w1 = (Rejected e, w2) ->
      importData Date_now Math_random (ImportDocument.mk (Some d)) w
        = (Rejected e, w2) /\
      (useLocalStorage w = false ->
       forall note i, In (Some note) before -> NoteArg.id note = Some i -> i <> "" ->
                      is_Some (db_notes (db w2) !! i))) /\
  (forall d before x after e w w0 w1 w2,
      importNotes Date_now Math_random d w = (Resolved tt, w0) ->
      ImportData.tasks d = Array (before ++ x :: after) ->
      for_of before (import_task Date_now Math_random) w0 = (Resolved tt, w1) ->
      import_task Date_now Math_random x w1 = (Rejected e, w2) ->
      importData Date_now Math_random (ImportDocument.mk (Some d)) w
        = (Rejected e, w2)) /\
  (forall d before x after e w w0 w1 w2,
      (_ ← importNotes Date_now Math_random d;
       _ ← importTasks Date_now Math_random d;
       importKnowledgeGraph Date_now d) w = (Resolved tt, w0) ->
      ImportData.settings d = Array (before ++ x :: after) ->
      for_of before (import_setting Date_now) w0 = (Resolved tt, w1) ->
      import_setting Date_now x w1 = (Rejected e, w2) ->
      importData Date_now Math_random (ImportDocument.mk (Some d)) w
        = (Rejected e, w2)).
Proof.
  split; [reflexivity |]. split; [| split].
  - intros d before x after e w w1 w2 Hnotes Hbefore Hx. split.
    + unfold importData, importNotes. simpl. rewrite Hnotes. unfold mbind, Async_bind.
      now rewrite (for_of_aborts _ before after x e w w1 w2 Hbefore Hx).
    + intros Hdb note i Hin Hid Hne.
      destruct (imported_notes_are_stored _ _ _ _ _ Hdb Hbefore) as (Hdb1 & _ & Hstored).
      assert (w2 = w1) as ->.
      { destruct x as [n |]; simpl in Hx.
        - unfold mbind, Async_bind in Hx.
          destruct (saveNote_structured Date_now Math_random n w1 Hdb1)
            as (saved & k & Hsave & _).
          rewrite Hsave in Hx. discriminate.
        - now injection Hx. }
      now apply (Hstored note).
  - intros d before x after e w w0 w1 w2 Hnotes Htasks Hbefore Hx.
    unfold importData. simpl. unfold mbind at 1, Async_bind at 1. rewrite Hnotes.
    unfold mbind at 1, Async_bind at 1. unfold importTasks. rewrite Htasks.
    now rewrite (for_of_aborts _ before after x e w0 w1 w2 Hbefore Hx).
  - intros d before x after e w w0 w1 w2 Hstages Hsettings Hbefore Hx.
    unfold importData. simpl. unfold mbind, Async_bind in *.
    destruct (importNotes Date_now Math_random d w) as [[[] | e1] wa]; [| discriminate].
    destruct (importTasks Date_now Math_random d wa) as [[[] | e2] wb]; [| discriminate].
    rewrite Hstages. unfold importSettings. rewrite Hsettings.
    now rewrite (for_of_aborts _ before after x e w0 w1 w2 Hbefore Hx).
Qed.

Lemma importData_aborts_without_rollback_witness :
  importData Sample.ticking Sample.dice (ImportDocument.mk None) (init false)
    = (Rejected ImportError, init false) /\
  importData Sample.ticking Sample.dice (ImportDocument.mk (Some Sample.broken)) (init false)
    = (Rejected TypeError, one_imported) /\
  is_Some (db_notes (db one_imported) !! "n7") /\
  db_notes (db (init false)) !! "n7" = None /\
  importData Sample.ticking Sample.dice (ImportDocument.mk (Some Sample.broken_tasks))
             (init false)
    = (Rejected TypeError, busy).
Proof.
  destruct (importData_aborts_without_rollback Sample.ticking Sample.dice)
    as (Hshape & Habort & Habort_tasks & _).
  assert (for_of [Some Sample.gamma] (import_note Sample.ticking Sample.dice) (init false)
          = (Resolved tt, one_imported)) as Hbefore by (vm_compute; reflexivity).
  destruct (Habort Sample.broken [Some Sample.gamma] None [Some Sample.beta] TypeError
                   (init false) one_imported one_imported eq_refl Hbefore eq_refl)
    as [Hrejected Hkept].
  assert (for_of [Some Sample.chore] (import_task Sample.ticking Sample.dice) one_imported
          = (Resolved tt, busy)) as Hbefore_tasks by (vm_compute; reflexivity).
  split; [apply Hshape |]. split; [exact Hrejected |]. split; [| split; [reflexivity |]].
  - apply (Hkept eq_refl Sample.gamma "n7"); [now left | reflexivity | discriminate].
  - exact (Habort_tasks Sample.broken_tasks [Some Sample.chore] None [] TypeError
                        (init false) one_imported busy busy Hbefore eq_refl
                        Hbefore_tasks eq_refl).
Defined.

(** ** Every call keeps the state consistent *)

Ltac split_world w H :=
  destruct w as [fb [dn dt dk ds] [ln lt lk lse] c r];
  destruct H as (Hfb & Hn & Ht & Hln & Hlt); simpl in Hfb, Hn, Ht, Hln, Hlt; subst fb.

Ltac leaf :=
  unfold_async; unfold consistent_on, consistent, no_records in *; simpl in *;
  repeat (case_match; simplify_eq; simpl in *); simpl;
  repeat match goal with |- _ /\ _ => split end; auto; try (simplify_eq; fail).

Ltac by_backend fallback Hln Hlt :=
  destruct fallback; [destruct Hln as [-> | ->], Hlt as [-> | ->] |]; leaf.

Section Preservation.
Variable Date_now : nat -> Timestamp.
Variable Math_random : nat -> string.
Variable fallback : bool.

Lemma preserves_now : preserves (consistent_on fallback) (now Date_now).
Proof. intros w H. exact H. Qed.

Lemma preserves_getNotes : preserves (consistent_on fallback) getNotes.
Proof. intros w H. split_world w H. unfold getNotes. by_backend fallback Hln Hlt. Qed.

Lemma preserves_getNote id : preserves (consistent_on fallback) (getNote id).
Proof. intros w H. split_world w H. unfold getNote. by_backend fallback Hln Hlt. Qed.

Lemma preserves_deleteNote id : preserves (consistent_on fallback) (deleteNote id).
Proof.
  intros w H. split_world w H. unfold deleteNote. by_backend fallback Hln Hlt.
  now apply map_Forall_delete.
Qed.

Lemma preserves_getTasks : preserves (consistent_on fallback) getTasks.
Proof. intros w H. split_world w H. unfold getTasks. by_backend fallback Hln Hlt. Qed.

Lemma preserves_getTask id : preserves (consistent_on fallback) (getTask id).
Proof. intros w H. split_world w H. unfold getTask. by_backend fallback Hln Hlt. Qed.

Lemma preserves_deleteTask id : preserves (consistent_on fallback) (deleteTask id).
Proof.
  intros w H. split_world w H. unfold deleteTask. by_backend fallback Hln Hlt.
  now apply map_Forall_delete.
Qed.

Lemma preserves_getKnowledgeGraph : preserves (consistent_on fallback) getKnowledgeGraph.
Proof. intros w H. split_world w H. unfold getKnowledgeGraph. destruct fallback; leaf. Qed.

Lemma preserves_getSetting key d : preserves (consistent_on fallback) (getSetting key d).
Proof. intros w H. split_world w H. unfold getSetting. destruct fallback; leaf. Qed.

Lemma preserves_getAllSettings : preserves (consistent_on fallback) getAllSettings.
Proof. intros w H. split_world w H. unfold getAllSettings. destruct fallback; leaf. Qed.

Lemma preserves_saveKnowledgeGraph g :
  preserves (consistent_on fallback) (saveKnowledgeGraph Date_now g).
Proof. intros w H. split_world w H. unfold saveKnowledgeGraph. destruct fallback; leaf. Qed.

Lemma preserves_saveSetting key value :
  preserves (consistent_on fallback) (saveSetting Date_now key value).
Proof. intros w H. split_world w H. unfold saveSetting. destruct fallback; leaf. Qed.

Lemma preserves_clearAllData : preserves (consistent_on fallback) clearAllData.
Proof.
  intros w H. split_world w H. unfold clearAllData, clearStore.
  destruct fallback; leaf; apply map_Forall_empty.
Qed.

Lemma preserves_saveNote note :
  preserves (consistent_on fallback) (saveNote Date_now Math_random note).
Proof.
  intros w H. destruct fallback.
  - split_world w H. unfold saveNote.
    destruct (str_or_null (NoteArg.id note)), (NoteArg.createdAt note); leaf.
  - destruct H as (Hfb & Hn & Ht & Hln & Hlt).
    destruct (saveNote_structured Date_now Math_random note w Hfb)
      as (saved & i & -> & Hnorm & _).
    destruct Hnorm as (Hid & _ & Htitle & _).
    split; [reflexivity |]. split; [| split; [exact Ht | split; [exact Hln | exact Hlt]]].
    apply map_Forall_insert_2; [| exact Hn].
    split; [reflexivity |]. split; [exact Hid |].
    rewrite Htitle. now apply str_or_not_empty.
Qed.

Lemma preserves_saveTask task :
  preserves (consistent_on fallback) (saveTask Date_now Math_random task).
Proof.
  intros w H. destruct fallback.
  - split_world w H. unfold saveTask.
    destruct (str_or_null (TaskArg.id task)), (TaskArg.createdAt task); leaf.
  - destruct H as (Hfb & Hn & Ht & Hln & Hlt).
    destruct (saveTask_structured Date_now Math_random task w Hfb)
      as (saved & i & -> & Hnorm & _).
    destruct Hnorm as (Hid & _ & Htitle & _).
    split; [reflexivity |]. split; [exact Hn | split; [| split; [exact Hln | exact Hlt]]].
    apply map_Forall_insert_2; [| exact Ht].
    split; [reflexivity |]. split; [exact Hid |].
    rewrite Htitle. now apply str_or_not_empty.
Qed.

Lemma preserves_updateTaskStatus id completed :
  preserves (consistent_on fallback) (updateTaskStatus Date_now Math_random id completed).
Proof.
  apply preserves_bind; [apply preserves_getTask |]. intros [t |].
  - apply preserves_bind; [apply preserves_now |]. intros updatedAt.
    apply preserves_bind; [apply preserves_saveTask |]. intros _.
    apply preserves_ret.
  - apply preserves_ret.
Qed.

Lemma preserves_exportData : preserves (consistent_on fallback) (exportData Date_now).
Proof.
  apply preserves_bind.
  - repeat apply preserves_promise_all2.
    + apply preserves_getNotes.
    + apply preserves_getTasks.
    + apply preserves_getKnowledgeGraph.
    + apply preserves_getAllSettings.
  - intros [[[ns ts] kg] ss].
    apply preserves_bind; [apply preserves_now |]. intros t. apply preserves_ret.
Qed.

Lemma preserves_importData doc :
  preserves (consistent_on fallback) (importData Date_now Math_random doc).
Proof.
  unfold importData, importNotes, importTasks, importKnowledgeGraph, importSettings.
  destruct (ImportDocument.data doc) as [d |]; [| apply preserves_throw].
  apply preserves_bind.
  { destruct (ImportData.notes d); try apply preserves_ret.
    apply preserves_for_of. intros [n |]; [| apply preserves_throw].
    apply preserves_bind; [apply preserves_saveNote | intros _; apply preserves_ret]. }
  intros _. apply preserves_bind.
  { destruct (ImportData.tasks d); try apply preserves_ret.
    apply preserves_for_of. intros [k |]; [| apply preserves_throw].
    apply preserves_bind; [apply preserves_saveTask | intros _; apply preserves_ret]. }
  intros _. apply preserves_bind.
  { destruct (ImportData.knowledgeGraph d) as [g |]; [| apply preserves_ret].
    apply preserves_bind; [apply preserves_saveKnowledgeGraph | intros _; apply preserves_ret]. }
  intros _. apply preserves_bind.
  { destruct (ImportData.settings d); try apply preserves_ret.
    apply preserves_for_of. intros [[[key |] value] |]; [| | apply preserves_throw].
    - apply preserves_bind; [apply preserves_saveSetting | intros _; apply preserves_ret].
    - apply preserves_saveSetting_without_key, preserves_now. }
  intros _. apply preserves_ret.
Qed.

End Preservation.

(** ** Reachable states *)

Section Reachable.
Variable Date_now : nat -> Timestamp.
Variable Math_random : nat -> string.

Lemma after_consistent (fallback : bool) (c : Call) :
  forall w, consistent_on fallback w ->
            consistent_on fallback (after Date_now Math_random c w).
Proof.
  destruct c; simpl.
  - apply preserves_saveNote.
  - apply preserves_getNotes.
  - apply preserves_getNote.
  - apply preserves_deleteNote.
  - apply preserves_saveTask.
  - apply preserves_getTasks.
  - apply preserves_getTask.
  - apply preserves_deleteTask.
  - apply preserves_updateTaskStatus.
  - apply preserves_saveKnowledgeGraph.
  - apply preserves_getKnowledgeGraph.
  - apply preserves_saveSetting.
  - apply preserves_getSetting.
  - apply preserves_getAllSettings.
  - apply preserves_exportData.
  - apply preserves_importData.
  - apply preserves_clearAllData.
Qed.

(** Every state the manager can be in is consistent. *)
Lemma reachable_consistent (w : World) :
  reachable Date_now Math_random w -> consistent w.
Proof.
  induction 1 as [fallback | w c _ IH | w fallback _ IH].
  - split; [apply map_Forall_empty | split; [apply map_Forall_empty | split; now left]].
  - now apply (after_consistent (useLocalStorage w) c w).
  - exact IH.
Qed.

End Reachable.

(** ** Deleting a note *)

#[local] Instance by_key_total {A} : Total (@by_key A).
Proof. intros a b. apply String.leb_total. Qed.

(** [getAll] yields the records by ascending key. *)
Lemma records_in_key_order {A} (m : gmap string A) :
  Sorted by_key (merge_sort by_key (map_to_list m)).
Proof. apply Sorted_merge_sort. exact by_key_total. Qed.

Lemma In_records {A} (m : gmap string A) (x : A) :
  In x (records m) <-> exists k, m !! k = Some x.
Proof.
  unfold records. rewrite <- list_elem_of_In, list_elem_of_fmap. split.
  - intros ([k y] & -> & Hin). exists k.
    rewrite merge_sort_Permutation in Hin. now apply elem_of_map_to_list.
  - intros [k Hk]. exists (k, x). split; [reflexivity |].
    rewrite merge_sort_Permutation. now apply elem_of_map_to_list.
Qed.

Lemma filter_keeps_all {A} (p : A -> bool) (l : list A) :
  (forall x, In x l -> p x = true) -> List.filter p l = l.
Proof.
  induction l as [| x l IH]; intros Hall; simpl; [reflexivity |].
  rewrite (Hall x (or_introl eq_refl)). f_equal. apply IH.
  intros y Hy. apply Hall. now right.
Qed.

Lemma other_id_true (id : string) (n : Note.t) :
  negb (String.eqb (Note.id n) id) = true <-> Note.id n <> id.
Proof.
  rewrite negb_true_iff. destruct (String.eqb_spec (Note.id n) id); split; congruence.
Qed.

(** On either backend, whenever the notes collection can be read and the
    object store is keyed by [id]. *)
Lemma deleteNote_on_stored_notes (w : World) (l : list Note.t) (id : string) :
  stored_notes w = Some l ->
  filed_under_id (db_notes (db w)) ->
  fst (deleteNote id w) = Resolved tt /\
  ((forall n, In n l -> Note.id n <> id) ->
   stored_notes (snd (deleteNote id w)) = Some l) /\
  exists remaining,
    fst (getNotes (snd (deleteNote id w))) = Resolved (Array remaining) /\
    forall n, In n remaining -> Note.id n <> id.
Proof.
  intros Hstored Hfiled. destruct w as [fb d ls c r].
  unfold stored_notes in Hstored. simpl in Hstored, Hfiled. destruct fb.
  - assert (default (Array []) (ls_notes ls) = Array l) as Hdata.
    { destruct (ls_notes ls) as [[| l' | |] |]; simpl; congruence. }
    unfold deleteNote, getNotes, stored_notes. unfold_async. simpl.
    rewrite Hdata. simpl. split; [reflexivity |]. split.
    + intros Habsent. f_equal. apply filter_keeps_all.
      intros n Hn. now apply other_id_true, Habsent.
    + eexists. split; [reflexivity |].
      intros n Hn. apply filter_In in Hn. now apply other_id_true.
  - injection Hstored as <-.
    unfold deleteNote, getNotes, stored_notes. unfold_async. simpl.
    split; [reflexivity |]. split.
    + intros Habsent. rewrite delete_id; [reflexivity |].
      destruct (db_notes d !! id) as [n |] eqn:Hn; [| reflexivity].
      exfalso. apply (Habsent n); [apply In_records; eauto |].
      exact (Hfiled id n Hn).
    + eexists. split; [reflexivity |].
      intros n Hn. apply In_records in Hn as [k Hk].
      apply lookup_delete_Some in Hk as [Hne Hk].
      rewrite (Hfiled k n Hk). congruence.
Qed.

Lemma deleteNote_exactly (w : World) (l : list Note.t) (id : string) :
  stored_notes w = Some l ->
  filed_under_id (db_notes (db w)) ->
  exists remaining,
    fst (getNotes (snd (deleteNote id w))) = Resolved (Array remaining) /\
    forall n, In n remaining <-> In n l /\ Note.id n <> id.
Proof.
  intros Hstored Hfiled. destruct w as [fb d ls reads draws].
  unfold stored_notes in Hstored. simpl in Hstored, Hfiled. destruct fb.
  - assert (default (Array []) (ls_notes ls) = Array l) as Hdata.
    { destruct (ls_notes ls) as [[| l' | |] |]; simpl; congruence. }
    unfold deleteNote, getNotes. unfold_async. simpl. rewrite Hdata. simpl.
    eexists. split; [reflexivity |].
    intros n. rewrite filter_In, other_id_true. reflexivity.
  - injection Hstored as <-.
    unfold deleteNote, getNotes. unfold_async. simpl.
    eexists. split; [reflexivity |].
    intros n. rewrite !In_records. split.
    + intros [k Hk]. apply lookup_delete_Some in Hk as [Hne Hk].
      split; [eauto |]. rewrite (Hfiled k n Hk). congruence.
    + intros [[k Hk] Hne]. exists k. apply lookup_delete_Some. split; [| exact Hk].
      rewrite <- (Hfiled k n Hk). congruence.
Qed.

Lemma consistent_filed_under_id (w : World) :
  consistent w -> filed_under_id (db_notes (db w)).
Proof. intros (Hnotes & _) k n Hk. now destruct (Hnotes k n Hk). Qed.

Lemma consistent_stored_notes (w : World) :
  consistent w -> exists l, stored_notes w = Some l.
Proof.
  intros (_ & _ & Hentry & _). unfold stored_notes.
  destruct (useLocalStorage w); [| eauto].
  destruct Hentry as [-> | ->]; eauto.
Qed.

(** C10. On either backend, in every state whose notes collection can be
    read (the object store keyed by [id], as the database keeps it) and for
    every id, [deleteNote(id)] is resolved, also on an id that no stored
    note has, in which case the notes collection is left as it was; and
    after [deleteNote(id)], [getNotes()] is resolved with the notes stored
    before whose id is another, so with no note of that id.  Every state
    the manager can be in is such a state. *)
Theorem deleteNote_removes_the_note
    (Date_now : nat -> Timestamp) (Math_random : nat -> string) (w : World) (id : string) :
  (forall l,
     stored_notes w = Some l ->
     filed_under_id (db_notes (db w)) ->
     fst (deleteNote id w) = Resolved tt /\
     ((forall n, In n l -> Note.id n <> id) ->
      stored_notes (snd (deleteNote id w)) = Some l) /\
     exists remaining,
       fst (getNotes (snd (deleteNote id w))) = Resolved (Array remaining) /\
       (forall n, In n remaining -> Note.id n <> id) /\
       (forall n, In n remaining <-> In n l /\ Note.id n <> id)) /\
  (reachable Date_now Math_random w ->
   (exists l, stored_notes w = Some l) /\ filed_under_id (db_notes (db w))).
Proof.
  split.
  - intros l Hl Hfiled.
    destruct (deleteNote_on_stored_notes w l id Hl Hfiled)
      as (Hres & Hsame & remaining & Hget & Hgone).
    destruct (deleteNote_exactly w l id Hl Hfiled) as (remaining' & Hget' & Hexact).
    rewrite Hget in Hget'. injection Hget' as <-.
    split; [exact Hres |]. split; [exact Hsame |].
    exists remaining. split; [exact Hget |]. split; [exact Hgone | exact Hexact].
  - intros Hreach. apply reachable_consistent in Hreach.
    split; [exact (consistent_stored_notes w Hreach) |].
    exact (consistent_filed_under_id w Hreach).
Qed.

(** The witness deletes from a [localStorage] that holds two notes, where the
    fallback branch filters the array, and from the database. *)
Lemma deleteNote_removes_the_note_witness :
  (stored_notes Sample.populated = Some [Sample.stored_alpha; Sample.stored_beta] /\
   filed_under_id (db_notes (db Sample.populated)) /\
   fst (deleteNote "n1" Sample.populated) = Resolved tt /\
   fst (getNotes (snd (deleteNote "n1" Sample.populated)))
     = Resolved (Array [Sample.stored_beta]) /\
   fst (deleteNote "n9" Sample.populated) = Resolved tt /\
   stored_notes (snd (deleteNote "n9" Sample.populated))
     = Some [Sample.stored_alpha; Sample.stored_beta]) /\
  (reachable Sample.ticking Sample.dice two_notes /\
   stored_notes two_notes = Some [saved_alpha; saved_beta] /\
   filed_under_id (db_notes (db two_notes)) /\
   fst (deleteNote "no-such-note" two_notes) = Resolved tt /\
   stored_notes (snd (deleteNote "no-such-note" two_notes))
     = Some [saved_alpha; saved_beta] /\
   exists remaining,
     fst (getNotes (snd (deleteNote "loyw3v28k3x9" two_notes)))
       = Resolved (Array remaining) /\
     forall n, In n remaining <-> In n [saved_alpha; saved_beta] /\ Note.id n <> "loyw3v28k3x9").
Proof.
  split.
  - assert (stored_notes Sample.populated = Some [Sample.stored_alpha; Sample.stored_beta])
      as Hstored by reflexivity.
    assert (filed_under_id (db_notes (db Sample.populated))) as Hfiled
      by apply map_Forall_empty.
    destruct (proj1 (deleteNote_removes_the_note Sample.ticking Sample.dice
                       Sample.populated "n1") _ Hstored Hfiled)
      as (Hres & _ & remaining & Hget & _ & _).
    destruct (proj1 (deleteNote_removes_the_note Sample.ticking Sample.dice
                       Sample.populated "n9") _ Hstored Hfiled)
      as (Hres' & Hsame & _).
    split; [exact Hstored |]. split; [exact Hfiled |]. split; [exact Hres |].
    split; [reflexivity |]. split; [exact Hres' |].
    apply Hsame. intros n [<- | [<- | []]]; discriminate.
  - assert (reachable Sample.ticking Sample.dice two_notes) as Hreach
      by (do 2 apply reachable_call; apply reachable_init).
    assert (stored_notes two_notes = Some [saved_alpha; saved_beta]) as Hstored
      by (vm_compute; reflexivity).
    destruct (proj2 (deleteNote_removes_the_note Sample.ticking Sample.dice two_notes "")
                    Hreach) as [_ Hfiled].
    destruct (proj1 (deleteNote_removes_the_note Sample.ticking Sample.dice two_notes
                       "no-such-note") _ Hstored Hfiled) as (Hres & Hsame & _).
    destruct (proj1 (deleteNote_removes_the_note Sample.ticking Sample.dice two_notes
                       "loyw3v28k3x9") _ Hstored Hfiled)
      as (_ & _ & remaining & Hget & _ & Hexact).
    split; [exact Hreach |]. split; [exact Hstored |]. split; [exact Hfiled |].
    split; [exact Hres |]. split.
    + apply Hsame. intros n [<- | [<- | []]]; discriminate.
    + exists remaining. split; [exact Hget | exact Hexact].
Defined.

(** The same on a [localStorage] that holds notes. *)
Example deleteNote_in_fallback_mode :
  fst (deleteNote "n1" Sample.populated) = Resolved tt /\
  fst (getNotes (snd (deleteNote "n1" Sample.populated)))
    = Resolved (Array [Sample.stored_beta]) /\
  stored_notes (snd (deleteNote "n9" Sample.populated)) = stored_notes Sample.populated.
Proof. repeat split; reflexivity. Qed.

(** ** Export, clear, import *)

Lemma str_or_empty (x : string) : str_or (Some x) "" = x.
Proof. simpl. now destruct (String.eqb_spec x "") as [-> |]. Qed.

Section RoundTrip.
Variable Date_now : nat -> Timestamp.
Variable Math_random : nat -> string.

Lemma exportData_structured (w : World) :
  useLocalStorage w = false ->
  exportData Date_now w
    = (Resolved (ExportDocument.mk "1.0" (Date_now (clockReads w))
                   (ExportData.mk
                      (Array (records (db_notes (db w))))
                      (Array (records (db_tasks (db w))))
                      (db_knowledge_graph (db w) !! "main_graph")
                      (Array (records (db_settings (db w)))))),
       mkWorld false (db w) (localStorage w) (S (clockReads w)) (randomDraws w)).
Proof.
  intros Hdb. unfold exportData, promise_all2, mbind, Async_bind.
  rewrite getNotes_structured, getTasks_structured, getKnowledgeGraph_structured,
    getAllSettings_structured by exact Hdb.
  unfold now, mret, Async_ret. now rewrite Hdb.
Qed.

Lemma clearAllData_structured (w : World) :
  useLocalStorage w = false ->
  clearAllData w
    = (Resolved tt, mkWorld false emptyDB (localStorage w) (clockReads w) (randomDraws w)).
Proof.
  intros Hdb. destruct w as [fb d ls c r]. simpl in Hdb. subst fb. reflexivity.
Qed.

(** Re-saving stored notes one after the other: every record of the store
    afterwards was there before or is one of the notes, saved again. *)
Lemma import_notes_structured (l : list Note.t) (w : World) :
  useLocalStorage w = false ->
  Forall (fun n => Note.id n <> "" /\ Note.title n <> "") l ->
  exists w',
    for_of ((fun n => Some (Note.arg n)) <$> l) (import_note Date_now Math_random) w
      = (Resolved tt, w') /\
    useLocalStorage w' = false /\
    localStorage w' = localStorage w /\
    db_tasks (db w') = db_tasks (db w) /\
    (forall k n', db_notes (db w') !! k = Some n' ->
                  db_notes (db w) !! k = Some n' \/
                  exists n, In n l /\ Note.id n = k /\ same_note n n').
Proof.
  revert w. induction l as [| x l IH]; intros w Hdb Hl.
  - exists w. simpl. repeat split; auto.
  - apply Forall_cons in Hl as [[Hid Htitle] Hl].
    destruct (saveNote_structured Date_now Math_random (Note.arg x) w Hdb)
      as (saved & i & Hsave & Hnorm & _).
    destruct Hnorm as (_ & Hsame & Ht & Hc & Htags & _).
    specialize (Hsame (Note.id x) eq_refl Hid).
    cbn [Note.arg NoteArg.title NoteArg.content NoteArg.tags] in Ht, Hc, Htags.
    rewrite (str_or_keeps _ _ Htitle) in Ht. rewrite str_or_empty in Hc.
    cbn [default] in Htags.
    set (w1 := mkWorld _ _ _ _ _) in Hsave.
    destruct (IH w1 eq_refl Hl) as (w' & Hloop & Hdb' & Hls & Htasks & Hnotes).
    exists w'. split; [| split; [exact Hdb' | split; [exact Hls | split; [exact Htasks |]]]].
    + simpl. unfold mbind, Async_bind. unfold import_note at 1.
      unfold mbind, Async_bind. rewrite Hsave. exact Hloop.
    + intros k n' Hk. destruct (Hnotes k n' Hk) as [Hold | (n & Hn & Hnk & Hnn)].
      * unfold w1 in Hold. simpl in Hold.
        apply lookup_insert_Some in Hold as [[<- <-] | [_ Hold]]; [right | now left].
        exists x. split; [now left |]. split; [now symmetry |].
        repeat split; auto.
      * right. exists n. split; [now right | auto].
Qed.

Lemma import_tasks_structured (l : list Task.t) (w : World) :
  useLocalStorage w = false ->
  Forall (fun t => Task.id t <> "" /\ Task.title t <> "") l ->
  exists w',
    for_of ((fun t => Some (Task.arg t)) <$> l) (import_task Date_now Math_random) w
      = (Resolved tt, w') /\
    useLocalStorage w' = false /\
    localStorage w' = localStorage w /\
    db_notes (db w') = db_notes (db w) /\
    (forall k, is_Some (db_tasks (db w) !! k) -> is_Some (db_tasks (db w') !! k)) /\
    (forall t, In t l -> is_Some (db_tasks (db w') !! Task.id t)) /\
    (forall k t', db_tasks (db w') !! k = Some t' ->
                  db_tasks (db w) !! k = Some t' \/
                  exists t, In t l /\ Task.id t = k /\ same_task t t').
Proof.
  revert w. induction l as [| x l IH]; intros w Hdb Hl.
  - exists w. simpl. repeat split; auto. intros ? [].
  - apply Forall_cons in Hl as [[Hid Htitle] Hl].
    destruct (saveTask_structured Date_now Math_random (Task.arg x) w Hdb)
      as (saved & i & Hsave & Hnorm & _).
    destruct Hnorm as (_ & Hsame & Ht & Hd & _).
    specialize (Hsame (Task.id x) eq_refl Hid).
    cbn [Task.arg TaskArg.title TaskArg.description] in Ht, Hd.
    rewrite (str_or_keeps _ _ Htitle) in Ht. rewrite str_or_empty in Hd.
    set (w1 := mkWorld _ _ _ _ _) in Hsave.
    destruct (IH w1 eq_refl Hl) as (w' & Hloop & Hdb' & Hls & Hnotes & Hmono & Hall & Htasks).
    exists w'.
    split; [| split; [exact Hdb' | split; [exact Hls | split; [exact Hnotes | split; [| split]]]]].
    + simpl. unfold mbind, Async_bind. unfold import_task at 1.
      unfold mbind, Async_bind. rewrite Hsave. exact Hloop.
    + intros k Hk. apply Hmono. unfold w1. simpl.
      apply lookup_insert_is_Some'. now right.
    + intros t [<- | Ht']; [| now apply Hall].
      apply Hmono. unfold w1. simpl. rewrite Hsame.
      apply lookup_insert_is_Some'. now left.
    + intros k t' Hk. destruct (Htasks k t' Hk) as [Hold | (t & Hin & Htk & Htt)].
      * unfold w1 in Hold. simpl in Hold.
        apply lookup_insert_Some in Hold as [[<- <-] | [_ Hold]]; [right | now left].
        exists x. split; [now left |]. split; [now symmetry |]. repeat split; auto.
      * right. exists t. split; [now right | auto].
Qed.

Lemma for_of_leaves_notes_and_tasks {A} (l : list A) (body : A -> Async unit) :
  (forall x, In x l -> leaves_notes_and_tasks (body x)) ->
  leaves_notes_and_tasks (for_of l body).
Proof.
  induction l as [| x l IH]; intros Hbody w Hdb.
  - exists w. simpl. auto.
  - destruct (Hbody x (or_introl eq_refl) w Hdb) as (w1 & Hx & Hdb1 & Hls1 & Hn1 & Ht1).
    destruct (IH (fun y Hy => Hbody y (or_intror Hy)) w1 Hdb1)
      as (w' & Hloop & Hdb' & Hls' & Hn' & Ht').
    exists w'. simpl. unfold mbind, Async_bind. rewrite Hx.
    repeat split; auto; congruence.
Qed.

Lemma saveKnowledgeGraph_leaves_notes_and_tasks (g : GraphArg.t) :
  leaves_notes_and_tasks (_ ← saveKnowledgeGraph Date_now g; mret tt).
Proof.
  intros [fb d ls c r] Hdb. simpl in Hdb. subst fb. eexists. split; [reflexivity |].
  simpl. auto.
Qed.

Lemma import_setting_leaves_notes_and_tasks (key : string) (value : JsonValue) :
  leaves_notes_and_tasks (import_setting Date_now (Some (SettingArg.mk (Some key) value))).
Proof.
  intros [fb d ls c r] Hdb. simpl in Hdb. subst fb. eexists. split; [reflexivity |].
  simpl. auto.
Qed.

Lemma well_filed_notes_list (m : gmap string Note.t) :
  map_Forall well_filed_note m ->
  Forall (fun n => Note.id n <> "" /\ Note.title n <> "") (records m).
Proof.
  intros Hm. apply Forall_forall. intros n Hn.
  apply list_elem_of_In, In_records in Hn as [k Hk].
  destruct (Hm k n Hk) as (<- & Hid & Htitle). auto.
Qed.

Lemma well_filed_tasks_list (m : gmap string Task.t) :
  map_Forall well_filed_task m ->
  Forall (fun t => Task.id t <> "" /\ Task.title t <> "") (records m).
Proof.
  intros Hm. apply Forall_forall. intros t Ht.
  apply list_elem_of_In, In_records in Ht as [k Hk].
  destruct (Hm k t Hk) as (<- & Hid & Htitle). auto.
Qed.

(** Importing what was exported, into the cleared database. *)
Lemma importData_of_export (version : string) (exportDate : Timestamp)
    (ns : list Note.t) (ts : list Task.t) (kg : option Graph.t) (ss : list Setting.t)
    (w : World) :
  useLocalStorage w = false ->
  Forall (fun n => Note.id n <> "" /\ Note.title n <> "") ns ->
  Forall (fun t => Task.id t <> "" /\ Task.title t <> "") ts ->
  exists w',
    importData Date_now Math_random
      (asImport (ExportDocument.mk version exportDate
                   (ExportData.mk (Array ns) (Array ts) kg (Array ss)))) w
      = (Resolved true, w') /\
    useLocalStorage w' = false /\
    (forall n, In n ns -> is_Some (db_notes (db w') !! Note.id n)) /\
    (forall k n', db_notes (db w') !! k = Some n' ->
                  db_notes (db w) !! k = Some n' \/
                  exists n, In n ns /\ Note.id n = k /\ same_note n n') /\
    (forall t, In t ts -> is_Some (db_tasks (db w') !! Task.id t)) /\
    (forall k t', db_tasks (db w') !! k = Some t' ->
                  db_tasks (db w) !! k = Some t' \/
                  exists t, In t ts /\ Task.id t = k /\ same_task t t').
Proof.
  intros Hdb Hns Hts.
  destruct (import_notes_structured ns w Hdb Hns)
    as (wa & Hnotes & Hdba & Hlsa & Htasksa & Hfrom).
  destruct (imported_notes_are_stored _ _ _ _ _ Hdb Hnotes) as (_ & _ & Hall).
  destruct (import_tasks_structured ts wa Hdba Hts)
    as (wb & Htasks & Hdbb & Hlsb & Hnotesb & _ & Hallt & Hfromt).
  assert (leaves_notes_and_tasks
            (match Graph.arg <$> kg with
             | Some g => _ ← saveKnowledgeGraph Date_now g; mret tt
             | None => mret tt
             end)) as Hkg.
  { destruct kg as [g |]; simpl.
    - apply saveKnowledgeGraph_leaves_notes_and_tasks.
    - intros w0 Hw0. exists w0. auto. }
  destruct (Hkg wb Hdbb) as (wc & Hgraph & Hdbc & Hlsc & Hnotesc & Htasksc).
  destruct (for_of_leaves_notes_and_tasks
              ((fun s => Some (SettingArg.mk (Some (Setting.key s)) (Setting.value s))) <$> ss)
              (import_setting Date_now)) with (w := wc)
    as (wd & Hsettings & Hdbd & Hlsd & Hnotesd & Htasksd); [| exact Hdbc |].
  { intros x Hx. apply list_elem_of_In, list_elem_of_fmap in Hx as (s & -> & _).
    apply import_setting_leaves_notes_and_tasks. }
  exists wd. split; [| split; [exact Hdbd | split; [| split; [| split]]]].
  - unfold importData, importNotes, importTasks, importKnowledgeGraph, importSettings,
      asImport.
    cbn [ImportDocument.data ExportDocument.data
      ImportData.notes ImportData.tasks ImportData.knowledgeGraph ImportData.settings
      ExportData.notes ExportData.tasks ExportData.knowledgeGraph ExportData.settings
      map_value].
    unfold mbind at 1, Async_bind at 1. rewrite Hnotes.
    unfold mbind at 1, Async_bind at 1. rewrite Htasks.
    unfold mbind at 1, Async_bind at 1. rewrite Hgraph.
    unfold mbind at 1, Async_bind at 1. rewrite Hsettings. reflexivity.
  - intros n Hn. rewrite Hnotesd, Hnotesc, Hnotesb.
    apply (Hall (Note.arg n) (Note.id n)); [| reflexivity |].
    + apply list_elem_of_In, list_elem_of_fmap. exists n. split; [reflexivity |].
      now apply list_elem_of_In.
    + eapply Forall_forall in Hns; [| apply list_elem_of_In, Hn]. tauto.
  - intros k n'. rewrite Hnotesd, Hnotesc, Hnotesb. apply Hfrom.
  - intros t Ht. rewrite Htasksd, Htasksc. now apply Hallt.
  - intros k t'. rewrite Htasksd, Htasksc, <- Htasksa. apply Hfromt.
Qed.

End RoundTrip.

Lemma fallback_holds_no_records (w : World) :
  consistent_on true w -> stored_notes w = Some [] /\ stored_tasks w = Some [].
Proof.
  intros (Hfb & _ & _ & Hn & Ht). unfold stored_notes, stored_tasks. rewrite Hfb.
  destruct Hn as [-> | ->], Ht as [-> | ->]; auto.
Qed.

(** * Further properties *)

(** ** Properties kept by every call *)

Section EveryCall.
Variable Date_now : nat -> Timestamp.
Variable Math_random : nat -> string.
Variable P : World -> Prop.

Hypothesis P_now : preserves P (now Date_now).
Hypothesis P_saveNote : forall note, preserves P (saveNote Date_now Math_random note).
Hypothesis P_getNotes : preserves P getNotes.
Hypothesis P_getNote : forall id, preserves P (getNote id).
Hypothesis P_deleteNote : forall id, preserves P (deleteNote id).
Hypothesis P_saveTask : forall task, preserves P (saveTask Date_now Math_random task).
Hypothesis P_getTasks : preserves P getTasks.
Hypothesis P_getTask : forall id, preserves P (getTask id).
Hypothesis P_deleteTask : forall id, preserves P (deleteTask id).
Hypothesis P_saveKnowledgeGraph : forall g, preserves P (saveKnowledgeGraph Date_now g).
Hypothesis P_getKnowledgeGraph : preserves P getKnowledgeGraph.
Hypothesis P_saveSetting : forall key value, preserves P (saveSetting Date_now key value).
Hypothesis P_getSetting : forall key d, preserves P (getSetting key d).
Hypothesis P_getAllSettings : preserves P getAllSettings.
Hypothesis P_clearAllData : preserves P clearAllData.

Lemma updateTaskStatus_preserves id completed :
  preserves P (updateTaskStatus Date_now Math_random id completed).
Proof.
  apply preserves_bind; [apply P_getTask |]. intros [t |].
  - apply preserves_bind; [apply P_now |]. intros updatedAt.
    apply preserves_bind; [apply P_saveTask |]. intros _. apply preserves_ret.
  - apply preserves_ret.
Qed.

Lemma exportData_preserves : preserves P (exportData Date_now).
Proof.
  apply preserves_bind.
  - repeat apply preserves_promise_all2; assumption.
  - intros [[[ns ts] kg] ss].
    apply preserves_bind; [apply P_now |]. intros t. apply preserves_ret.
Qed.

Lemma importData_preserves doc : preserves P (importData Date_now Math_random doc).
Proof.
  unfold importData, importNotes, importTasks, importKnowledgeGraph, importSettings.
  destruct (ImportDocument.data doc) as [d |]; [| apply preserves_throw].
  apply preserves_bind.
  { destruct (ImportData.notes d); try apply preserves_ret.
    apply preserves_for_of. intros [n |]; [| apply preserves_throw].
    apply preserves_bind; [apply P_saveNote | intros _; apply preserves_ret]. }
  intros _. apply preserves_bind.
  { destruct (ImportData.tasks d); try apply preserves_ret.
    apply preserves_for_of. intros [k |]; [| apply preserves_throw].
    apply preserves_bind; [apply P_saveTask | intros _; apply preserves_ret]. }
  intros _. apply preserves_bind.
  { destruct (ImportData.knowledgeGraph d) as [g |]; [| apply preserves_ret].
    apply preserves_bind; [apply P_saveKnowledgeGraph | intros _; apply preserves_ret]. }
  intros _. apply preserves_bind.
  { destruct (ImportData.settings d); try apply preserves_ret.
    apply preserves_for_of. intros [[[key |] value] |]; [| | apply preserves_throw].
    - apply preserves_bind; [apply P_saveSetting | intros _; apply preserves_ret].
    - apply preserves_saveSetting_without_key, P_now. }
  intros _. apply preserves_ret.
Qed.

(** What the elementary calls keep, every call keeps. *)
Lemma after_preserves (c : Call) (w : World) :
  P w -> P (after Date_now Math_random c w).
Proof.
  destruct c; simpl.
  - apply P_saveNote.
  - apply P_getNotes.
  - apply P_getNote.
  - apply P_deleteNote.
  - apply P_saveTask.
  - apply P_getTasks.
  - apply P_getTask.
  - apply P_deleteTask.
  - apply updateTaskStatus_preserves.
  - apply P_saveKnowledgeGraph.
  - apply P_getKnowledgeGraph.
  - apply P_saveSetting.
  - apply P_getSetting.
  - apply P_getAllSettings.
  - apply exportData_preserves.
  - apply importData_preserves.
  - apply P_clearAllData.
Qed.

End EveryCall.

(** ** Each backend keeps to its own store *)

Ltac frame_leaf :=
  let w := fresh "w" in
  intros w [? ?]; destruct w as [? [? ? ? ?] [? ? ? ?] ? ?];
  unfold other_store_is in *; simpl in *; subst;
  unfold_async; simpl;
  repeat (case_match; simplify_eq; simpl in * ); simpl; auto.

(** X1. No call changes the backend in use; with the database in use no call
    touches [localStorage], and in fallback mode no call touches the
    database. *)
Theorem calls_keep_to_their_backend
    (Date_now : nat -> Timestamp) (Math_random : nat -> string) (c : Call) (w : World) :
  useLocalStorage (after Date_now Math_random c w) = useLocalStorage w /\
  (useLocalStorage w = false ->
   localStorage (after Date_now Math_random c w) = localStorage w) /\
  (useLocalStorage w = true ->
   db (after Date_now Math_random c w) = db w).
Proof.
  assert (other_store_is (useLocalStorage w) (db w) (localStorage w)
                         (after Date_now Math_random c w)) as [Hmode Hstore].
  { apply after_preserves.
    - intros w0 H0. exact H0.
    - intros note. unfold saveNote. destruct (useLocalStorage w); frame_leaf.
    - unfold getNotes. destruct (useLocalStorage w); frame_leaf.
    - intros id. unfold getNote. destruct (useLocalStorage w); frame_leaf.
    - intros id. unfold deleteNote. destruct (useLocalStorage w); frame_leaf.
    - intros task. unfold saveTask. destruct (useLocalStorage w); frame_leaf.
    - unfold getTasks. destruct (useLocalStorage w); frame_leaf.
    - intros id. unfold getTask. destruct (useLocalStorage w); frame_leaf.
    - intros id. unfold deleteTask. destruct (useLocalStorage w); frame_leaf.
    - intros g. unfold saveKnowledgeGraph. destruct (useLocalStorage w); frame_leaf.
    - unfold getKnowledgeGraph. destruct (useLocalStorage w); frame_leaf.
    - intros key value. unfold saveSetting. destruct (useLocalStorage w); frame_leaf.
    - intros key d. unfold getSetting. destruct (useLocalStorage w); frame_leaf.
    - unfold getAllSettings. destruct (useLocalStorage w); frame_leaf.
    - unfold clearAllData, clearStore. destruct (useLocalStorage w); frame_leaf.
    - split; [reflexivity |]. now destruct (useLocalStorage w). }
  split; [exact Hmode |]. split; intros Hw; rewrite Hw in Hstore; exact Hstore.
Qed.

(** ** Clearing *)

Lemma clearAllData_fallback (w : World) :
  useLocalStorage w = true ->
  clearAllData w
    = (Resolved tt,
       mkWorld true (db w)
               (mkLS (Some (Array [])) (Some (Array [])) (Some (Array [])) (Some (Array [])))
               (clockReads w) (randomDraws w)).
Proof.
  intros Hfb. destruct w as [fb d ls reads draws]. simpl in Hfb. subst fb. reflexivity.
Qed.

(** ** What is stored is well kept *)

Ltac keep_maps :=
  repeat match goal with
         | |- _ /\ _ => split
         | |- map_Forall _ (<[_ := _]> _) => apply map_Forall_insert_2
         | |- map_Forall _ (delete _ _) => apply map_Forall_delete
         | |- map_Forall _ ∅ => apply map_Forall_empty
         | H : map_Forall _ ?m |- map_Forall _ ?m => exact H
         end.

Ltac kept_leaf :=
  let w := fresh "w" in
  intros w (Hnotes & Hgraph & Hsettings & Hls & Hlk);
  destruct w as [fb [dn dt dk ds] [ln lt lk lse] reads draws];
  unfold well_kept in *; simpl in Hnotes, Hgraph, Hsettings, Hls, Hlk;
  destruct fb;
  [destruct Hls as [-> | ->], Hlk as [-> | [-> | ->]] |];
  unfold_async; unfold no_records, no_graph; simpl;
  repeat (case_match; simplify_eq; simpl in * ); simpl;
  keep_maps; auto.

Section WellKept.
Variable Date_now : nat -> Timestamp.
Variable Math_random : nat -> string.

Lemma after_well_kept (c : Call) (w : World) :
  well_kept w -> well_kept (after Date_now Math_random c w).
Proof.
  apply after_preserves.
  - intros w0 H0. exact H0.
  - intros note. unfold saveNote. kept_leaf.
    all: unfold counted; simpl;
      match goal with
      | H : str_or_null (NoteArg.content ?n) = _ |- _ =>
          pose proof (wordCount_is_length (NoteArg.content n)) as Hcount;
          rewrite H in Hcount; exact Hcount
      end.
  - unfold getNotes. kept_leaf.
  - intros id. unfold getNote. kept_leaf.
  - intros id. unfold deleteNote. kept_leaf.
  - intros task. unfold saveTask. kept_leaf.
  - unfold getTasks. kept_leaf.
  - intros id. unfold getTask. kept_leaf.
  - intros id. unfold deleteTask. kept_leaf.
  - intros g. unfold saveKnowledgeGraph. kept_leaf. all: try (now split).
  - unfold getKnowledgeGraph. kept_leaf.
  - intros key value. unfold saveSetting. kept_leaf. all: try reflexivity.
  - intros key d. unfold getSetting. kept_leaf.
  - unfold getAllSettings. kept_leaf.
  - intros w0 H0. destruct (useLocalStorage w0) eqn:Hmode.
    + rewrite clearAllData_fallback by exact Hmode.
      destruct H0 as (Hnotes & Hgraph & Hsettings & _).
      unfold well_kept; simpl. keep_maps; [now right | right; now left].
    + rewrite clearAllData_structured by exact Hmode.
      destruct H0 as (_ & _ & _ & Hls & Hlk).
      unfold well_kept; simpl. keep_maps; assumption.
Qed.

(** In every state the manager can be in, what is stored is well kept. *)
Lemma reachable_well_kept (w : World) :
  reachable Date_now Math_random w -> well_kept w.
Proof.
  induction 1 as [fallback | w c _ IH | w fallback _ IH].
  - unfold well_kept, init. simpl. keep_maps; [now left | now left].
  - now apply after_well_kept.
  - exact IH.
Qed.

End WellKept.

(** ** Time stamps *)

Ltac keep_stamps :=
  repeat match goal with
         | |- _ /\ _ => split
         | |- map_Forall _ (<[_ := _]> _) => apply map_Forall_insert_2
         | |- map_Forall _ (delete _ _) => apply map_Forall_delete
         | |- map_Forall _ ∅ => apply map_Forall_empty
         | H : map_Forall _ ?m |- map_Forall _ ?m =>
             first [ exact H
                   | eapply map_Forall_impl;
                     [exact H
                     | simpl; intros ? ? (i & ? & ?); exists i; split; [lia | assumption]] ]
         | |- stamped_before _ _ _ => simpl; eexists; split; [| reflexivity]; lia
         end.

Ltac stamped_leaf :=
  let w := fresh "w" in
  intros w (Hnotes & Htasks);
  destruct w as [fb [dn dt dk ds] [ln lt lk lse] reads draws];
  unfold stamped in *; simpl in Hnotes, Htasks;
  destruct fb;
  unfold_async; simpl;
  repeat (case_match; simplify_eq; simpl in * ); simpl;
  keep_stamps; auto.

Section Stamped.
Variable Date_now : nat -> Timestamp.
Variable Math_random : nat -> string.

Lemma after_stamped (c : Call) (w : World) :
  stamped Date_now w -> stamped Date_now (after Date_now Math_random c w).
Proof.
  apply after_preserves.
  - stamped_leaf.
  - intros note. unfold saveNote. stamped_leaf.
  - unfold getNotes. stamped_leaf.
  - intros id. unfold getNote. stamped_leaf.
  - intros id. unfold deleteNote. stamped_leaf.
  - intros task. unfold saveTask. stamped_leaf.
  - unfold getTasks. stamped_leaf.
  - intros id. unfold getTask. stamped_leaf.
  - intros id. unfold deleteTask. stamped_leaf.
  - intros g. unfold saveKnowledgeGraph. stamped_leaf.
  - unfold getKnowledgeGraph. stamped_leaf.
  - intros key value. unfold saveSetting. stamped_leaf.
  - intros key d. unfold getSetting. stamped_leaf.
  - unfold getAllSettings. stamped_leaf.
  - unfold clearAllData, clearStore. stamped_leaf.
Qed.

(** In every state the manager can be in, every stored [updatedAt] is a
    reading the clock has given. *)
Lemma reachable_stamped (w : World) :
  reachable Date_now Math_random w -> stamped Date_now w.
Proof.
  induction 1 as [fallback | w c _ IH | w fallback _ IH].
  - split; apply map_Forall_empty.
  - now apply after_stamped.
  - exact IH.
Qed.

End Stamped.

(** ** The notes a read returns *)

Lemma records_length {A} (m : gmap string A) : length (records m) = size m.
Proof.
  unfold records. rewrite length_fmap, merge_sort_Permutation.
  apply length_map_to_list.
Qed.

(** The keys of the records, in the order [records] gives them. *)
Lemma keys_of_records {A} (key : A -> string) (m : gmap string A) :
  map_Forall (fun k x => key x = k) m ->
  key <$> records m = fst <$> merge_sort by_key (map_to_list m).
Proof.
  intros Hkeyed. unfold records. rewrite <- list_fmap_compose.
  apply list_fmap_ext. intros i [k x] Hi. simpl.
  apply Hkeyed. apply elem_of_map_to_list.
  rewrite <- (merge_sort_Permutation by_key). eapply list_elem_of_lookup_2, Hi.
Qed.

Lemma records_NoDup {A} (key : A -> string) (m : gmap string A) :
  map_Forall (fun k x => key x = k) m -> NoDup (key <$> records m).
Proof.
  intros Hkeyed. rewrite (keys_of_records key m Hkeyed), merge_sort_Permutation.
  apply NoDup_fst_map_to_list.
Qed.

(** X2. In every state the manager can be in, [getNotes()] is resolved with
    an array of notes that have pairwise different ids, none of them empty,
    a title that is not empty, and a [wordCount] equal to the length of
    their content. *)
Theorem getNotes_returns_well_formed_notes
    (Date_now : nat -> Timestamp) (Math_random : nat -> string) (w : World) :
  reachable Date_now Math_random w ->
  exists l,
    fst (getNotes w) = Resolved (Array l) /\
    NoDup (Note.id <$> l) /\
    forall n, In n l ->
      Note.id n <> "" /\ Note.title n <> "" /\
      Note.wordCount n = String.length (Note.content n).
Proof.
  intros Hreach.
  pose proof (reachable_consistent _ _ _ Hreach) as (Hfiled & _ & Hentry & _).
  pose proof (reachable_well_kept _ _ _ Hreach) as (Hcounted & _).
  destruct (useLocalStorage w) eqn:Hmode.
  - exists []. split; [| split; [constructor | intros ? []]].
    apply getNotes_stored. unfold stored_notes. rewrite Hmode.
    now destruct Hentry as [-> | ->].
  - exists (records (db_notes (db w))). split; [| split].
    + now rewrite getNotes_structured.
    + apply records_NoDup. intros k n Hk. now destruct (Hfiled k n Hk).
    + intros n Hn. apply In_records in Hn as [k Hk].
      destruct (Hfiled k n Hk) as (<- & Hid & Htitle).
      repeat split; try assumption. exact (Hcounted _ n Hk).
Qed.

Lemma two_notes_reachable : reachable Sample.ticking Sample.dice two_notes.
Proof. do 2 apply reachable_call. apply reachable_init. Qed.

Lemma getNotes_returns_well_formed_notes_witness :
  reachable Sample.ticking Sample.dice two_notes /\
  exists l,
    fst (getNotes two_notes) = Resolved (Array l) /\
    l <> [] /\
    NoDup (Note.id <$> l) /\
    forall n, In n l ->
      Note.id n <> "" /\ Note.title n <> "" /\
      Note.wordCount n = String.length (Note.content n).
Proof.
  split; [exact two_notes_reachable |].
  destruct (getNotes_returns_well_formed_notes Sample.ticking Sample.dice two_notes
              two_notes_reachable) as (l & Hget & Hnodup & Hall).
  exists l. split; [exact Hget |]. split; [| split; assumption].
  intros ->. revert Hget. vm_compute. discriminate.
Defined.

(** ** Saving again *)

(** X3. With the database in use and a clock that never runs backwards, in
    every state the manager can be in, saving a note under the id of a
    stored note, or a task under the id of a stored task, gives a record
    whose [updatedAt] is not earlier than the one stored. *)
Theorem saving_again_never_moves_updatedAt_back
    (Date_now : nat -> Timestamp) (Math_random : nat -> string) (w : World) :
  reachable Date_now Math_random w ->
  useLocalStorage w = false ->
  monotone Date_now ->
  (forall id old note,
      db_notes (db w) !! id = Some old ->
      NoteArg.id note = Some id ->
      exists saved w1,
        saveNote Date_now Math_random note w = (Resolved saved, w1) /\
        Note.id saved = id /\
        db_notes (db w1) !! id = Some saved /\
        Note.updatedAt old <= Note.updatedAt saved) /\
  (forall id old task,
      db_tasks (db w) !! id = Some old ->
      TaskArg.id task = Some id ->
      exists saved w1,
        saveTask Date_now Math_random task w = (Resolved saved, w1) /\
        Task.id saved = id /\
        db_tasks (db w1) !! id = Some saved /\
        Task.updatedAt old <= Task.updatedAt saved).
Proof.
  intros Hreach Hdb Hmono.
  pose proof (reachable_consistent _ _ _ Hreach) as (Hnotes & Htasks & _).
  pose proof (reachable_stamped _ _ _ Hreach) as (Hsn & Hst).
  split.
  - intros id old note Hold Hid.
    destruct (Hnotes id old Hold) as (_ & Hne & _).
    destruct (Hsn id old Hold) as (i & Hi & Hstamp).
    destruct (saveNote_structured Date_now Math_random note w Hdb)
      as (saved & j & Hsave & Hnorm & Hj & Hupd & _).
    destruct Hnorm as (_ & Hsame & _).
    specialize (Hsame id Hid Hne).
    eexists saved, _. split; [exact Hsave |]. split; [exact Hsame |]. split.
    + simpl. rewrite Hsame. apply lookup_insert_eq.
    + rewrite Hstamp, Hupd. apply Hmono. lia.
  - intros id old task Hold Hid.
    destruct (Htasks id old Hold) as (_ & Hne & _).
    destruct (Hst id old Hold) as (i & Hi & Hstamp).
    destruct (saveTask_structured Date_now Math_random task w Hdb)
      as (saved & j & Hsave & Hnorm & Hj & Hupd & _).
    destruct Hnorm as (_ & Hsame & _).
    specialize (Hsame id Hid Hne).
    eexists saved, _. split; [exact Hsave |]. split; [exact Hsame |]. split.
    + simpl. rewrite Hsame. apply lookup_insert_eq.
    + rewrite Hstamp, Hupd. apply Hmono. lia.
Qed.

Lemma saving_again_never_moves_updatedAt_back_witness :
  reachable Sample.ticking Sample.dice two_notes /\
  useLocalStorage two_notes = false /\
  monotone Sample.ticking /\
  db_notes (db two_notes) !! "loyw3v28k3x9" = Some saved_alpha /\
  exists saved w1,
    saveNote Sample.ticking Sample.dice alpha_edited two_notes = (Resolved saved, w1) /\
    Note.id saved = "loyw3v28k3x9" /\
    db_notes (db w1) !! "loyw3v28k3x9" = Some saved /\
    Note.updatedAt saved_alpha <= Note.updatedAt saved.
Proof.
  assert (useLocalStorage two_notes = false) as Hmode by (vm_compute; reflexivity).
  assert (db_notes (db two_notes) !! "loyw3v28k3x9" = Some saved_alpha) as Hold
    by (vm_compute; reflexivity).
  split; [exact two_notes_reachable |]. split; [exact Hmode |].
  split; [exact ticking_monotone |]. split; [exact Hold |].
  exact (proj1 (saving_again_never_moves_updatedAt_back Sample.ticking Sample.dice
                  two_notes two_notes_reachable Hmode ticking_monotone)
               "loyw3v28k3x9" saved_alpha alpha_edited Hold eq_refl).
Defined.

(** ** Deleting removes nothing else *)

Lemma other_task_id_true (id : string) (t : Task.t) :
  negb (String.eqb (Task.id t) id) = true <-> Task.id t <> id.
Proof.
  rewrite negb_true_iff. destruct (String.eqb_spec (Task.id t) id); split; congruence.
Qed.

Lemma consistent_stored_tasks (w : World) :
  consistent w -> exists l, stored_tasks w = Some l.
Proof.
  intros (_ & _ & _ & Hentry). unfold stored_tasks.
  destruct (useLocalStorage w); [| eauto].
  destruct Hentry as [-> | ->]; eauto.
Qed.

Lemma deleteTask_exactly (w : World) (l : list Task.t) (id : string) :
  stored_tasks w = Some l ->
  map_Forall (fun k t => Task.id t = k) (db_tasks (db w)) ->
  fst (deleteTask id w) = Resolved tt /\
  exists remaining,
    fst (getTasks (snd (deleteTask id w))) = Resolved (Array remaining) /\
    forall t, In t remaining <-> In t l /\ Task.id t <> id.
Proof.
  intros Hstored Hfiled. destruct w as [fb d ls reads draws].
  unfold stored_tasks in Hstored. simpl in Hstored, Hfiled. destruct fb.
  - assert (default (Array []) (ls_tasks ls) = Array l) as Hdata.
    { destruct (ls_tasks ls) as [[| l' | |] |]; simpl; congruence. }
    unfold deleteTask, getTasks. unfold_async. simpl. rewrite Hdata. simpl.
    split; [reflexivity |]. eexists. split; [reflexivity |].
    intros t. rewrite filter_In, other_task_id_true. reflexivity.
  - injection Hstored as <-.
    unfold deleteTask, getTasks. unfold_async. simpl.
    split; [reflexivity |]. eexists. split; [reflexivity |].
    intros t. rewrite !In_records. split.
    + intros [k Hk]. apply lookup_delete_Some in Hk as [Hne Hk].
      split; [eauto |]. rewrite (Hfiled k t Hk). congruence.
    + intros [[k Hk] Hne]. exists k. apply lookup_delete_Some. split; [| exact Hk].
      rewrite <- (Hfiled k t Hk). congruence.
Qed.

(** X4. In every state the manager can be in and for every id,
    [deleteNote(id)] and [deleteTask(id)] are resolved and remove exactly the
    records with that id: afterwards [getNotes()] (or [getTasks()]) gives
    the records stored before whose id differs from it, and no others. *)
Theorem delete_removes_exactly_that_id
    (Date_now : nat -> Timestamp) (Math_random : nat -> string) (w : World) (id : string) :
  reachable Date_now Math_random w ->
  (exists notes_before notes_after,
     stored_notes w = Some notes_before /\
     fst (deleteNote id w) = Resolved tt /\
     fst (getNotes (snd (deleteNote id w))) = Resolved (Array notes_after) /\
     forall n, In n notes_after <-> In n notes_before /\ Note.id n <> id) /\
  (exists tasks_before tasks_after,
     stored_tasks w = Some tasks_before /\
     fst (deleteTask id w) = Resolved tt /\
     fst (getTasks (snd (deleteTask id w))) = Resolved (Array tasks_after) /\
     forall t, In t tasks_after <-> In t tasks_before /\ Task.id t <> id).
Proof.
  intros Hreach. apply reachable_consistent in Hreach.
  destruct (consistent_stored_notes w Hreach) as [ns Hns].
  destruct (consistent_stored_tasks w Hreach) as [ts Hts].
  pose proof (consistent_filed_under_id w Hreach) as Hfn.
  assert (map_Forall (fun k t => Task.id t = k) (db_tasks (db w))) as Hft.
  { destruct Hreach as (_ & Htasks & _). intros k t Hk. now destruct (Htasks k t Hk). }
  split.
  - destruct (deleteNote_exactly w ns id Hns Hfn) as (remaining & Hget & Hexact).
    destruct (deleteNote_on_stored_notes w ns id Hns Hfn) as (Hres & _).
    now exists ns, remaining.
  - destruct (deleteTask_exactly w ts id Hts Hft) as (Hres & remaining & Hget & Hexact).
    now exists ts, remaining.
Qed.

Lemma busy_reachable : reachable Sample.ticking Sample.dice busy.
Proof. do 2 apply reachable_call. apply reachable_init. Qed.

Lemma delete_removes_exactly_that_id_witness :
  reachable Sample.ticking Sample.dice busy /\
  exists tasks_before tasks_after,
    stored_tasks busy = Some tasks_before /\
    tasks_before <> [] /\
    fst (deleteTask "t1" busy) = Resolved tt /\
    fst (getTasks (snd (deleteTask "t1" busy))) = Resolved (Array tasks_after) /\
    forall t, In t tasks_after <-> In t tasks_before /\ Task.id t <> "t1".
Proof.
  split; [exact busy_reachable |].
  destruct (delete_removes_exactly_that_id Sample.ticking Sample.dice busy "t1"
              busy_reachable) as (_ & before & remaining & Hbefore & Hres & Hget & Hexact).
  exists before, remaining. split; [exact Hbefore |].
  split; [| split; [exact Hres | split; [exact Hget | exact Hexact]]].
  intros ->. revert Hbefore. vm_compute. discriminate.
Defined.

(** ** Reading with the database *)

Lemma searchNotes_structured (toLowerCase : string -> string) (query : string) (w : World) :
  useLocalStorage w = false ->
  searchNotes toLowerCase query w
    = (Resolved (List.filter (note_matches toLowerCase (toLowerCase query))
                             (records (db_notes (db w)))), w).
Proof.
  intros Hdb. unfold searchNotes, mbind, Async_bind.
  now rewrite getNotes_structured by exact Hdb.
Qed.

Lemma getSetting_structured (key : string) (defaultValue : JsonValue) (w : World) :
  useLocalStorage w = false ->
  getSetting key defaultValue w
    = (Resolved (match db_settings (db w) !! key with
                 | Some s => Setting.value s
                 | None => defaultValue
                 end), w).
Proof. intros Hdb. unfold getSetting. unfold_async. now rewrite Hdb. Qed.

Lemma getStorageStats_structured (round_percent : nat -> nat -> Z) (w : World) :
  useLocalStorage w = false ->
  snd (getStorageStats round_percent w) = w.
Proof.
  intros Hdb. unfold getStorageStats, promise_all2, mbind, Async_bind.
  rewrite getNotes_structured, getTasks_structured by exact Hdb. reflexivity.
Qed.

(** X5. With the database in use no read changes anything: [getNotes],
    [getNote], [searchNotes], [getTasks], [getTask], [getKnowledgeGraph],
    [getSetting], [getAllSettings] and [getStorageStats] leave the whole
    state as it was, the clock included, so that a read repeated at once is
    resolved with the same value; [exportData] reads the clock once and
    leaves what is stored as it was. *)
Theorem reads_change_nothing_with_the_database
    (Date_now : nat -> Timestamp) (toLowerCase : string -> string)
    (round_percent : nat -> nat -> Z) (w : World) :
  useLocalStorage w = false ->
  snd (getNotes w) = w /\
  (forall id, snd (getNote id w) = w) /\
  (forall query, snd (searchNotes toLowerCase query w) = w) /\
  snd (getTasks w) = w /\
  (forall id, snd (getTask id w) = w) /\
  snd (getKnowledgeGraph w) = w /\
  (forall key defaultValue, snd (getSetting key defaultValue w) = w) /\
  snd (getAllSettings w) = w /\
  snd (getStorageStats round_percent w) = w /\
  persisted (snd (exportData Date_now w)) = persisted w /\
  clockReads (snd (exportData Date_now w)) = S (clockReads w).
Proof.
  intros Hdb.
  split; [now rewrite getNotes_structured |].
  split; [intros id; now rewrite getNote_structured |].
  split; [intros query; now rewrite searchNotes_structured |].
  split; [now rewrite getTasks_structured |].
  split; [intros id; now rewrite getTask_structured |].
  split; [now rewrite getKnowledgeGraph_structured |].
  split; [intros key d; now rewrite getSetting_structured |].
  split; [now rewrite getAllSettings_structured |].
  split; [now apply getStorageStats_structured |].
  unfold exportData, promise_all2, mbind, Async_bind.
  rewrite getNotes_structured, getTasks_structured, getKnowledgeGraph_structured,
          getAllSettings_structured by exact Hdb.
  split; reflexivity.
Qed.

Lemma reads_change_nothing_with_the_database_witness :
  useLocalStorage busy = false /\
  snd (getNotes busy) = busy /\
  snd (getTask "t1" busy) = busy /\
  persisted (snd (exportData Sample.ticking busy)) = persisted busy.
Proof.
  assert (useLocalStorage busy = false) as Hdb by (vm_compute; reflexivity).
  pose proof (reads_change_nothing_with_the_database Sample.ticking Sample.toLowerCase
                (fun _ _ => 0) busy Hdb)
    as (Hnotes & _ & _ & _ & Htask & _ & _ & _ & _ & Hexport & _).
  split; [exact Hdb |]. split; [exact Hnotes |]. split; [exact (Htask "t1") | exact Hexport].
Defined.

(** ** Clearing *)

(** X6. On either backend and whatever is stored, [clearAllData()] is
    resolved and leaves all four collections empty: [getNotes], [getTasks]
    and [getAllSettings] are then resolved with [[]], and
    [getKnowledgeGraph] with [undefined] when the database is in use, with
    the default [{ nodes: [], links: [] }] in fallback mode.  The other
    backend is left as it was. *)
Theorem clearAllData_empties_every_collection (w : World) :
  let w' := snd (clearAllData w) in
  fst (clearAllData w) = Resolved tt /\
  fst (getNotes w') = Resolved (Array []) /\
  fst (getTasks w') = Resolved (Array []) /\
  fst (getAllSettings w') = Resolved (Array []) /\
  fst (getKnowledgeGraph w')
    = Resolved (if useLocalStorage w then Some empty_graph else None) /\
  (if useLocalStorage w then db w' = db w else localStorage w' = localStorage w).
Proof.
  destruct w as [[|] d ls reads draws]; cbv zeta.
  - repeat split; reflexivity.
  - repeat split; reflexivity.
Qed.

(** ** The graph entry in fallback mode *)

(** In fallback mode [getNotes], [getTasks] and [getAllSettings] are always
    resolved, and leave the [knowledge_graph] entry alone. *)
Lemma getNotes_fallback (w : World) :
  useLocalStorage w = true ->
  exists v, fst (getNotes w) = Resolved v /\
            useLocalStorage (snd (getNotes w)) = true /\
            ls_knowledge_graph (localStorage (snd (getNotes w)))
              = ls_knowledge_graph (localStorage w).
Proof.
  intros Hfb. destruct w as [fb d ls reads draws]. simpl in Hfb. subst fb.
  unfold getNotes. unfold_async. simpl.
  destruct (or_empty (default (Array []) (ls_notes ls))); eexists; repeat split.
Qed.

Lemma getTasks_fallback (w : World) :
  useLocalStorage w = true ->
  exists v, fst (getTasks w) = Resolved v /\
            useLocalStorage (snd (getTasks w)) = true /\
            ls_knowledge_graph (localStorage (snd (getTasks w)))
              = ls_knowledge_graph (localStorage w).
Proof.
  intros Hfb. destruct w as [fb d ls reads draws]. simpl in Hfb. subst fb.
  unfold getTasks. unfold_async. simpl.
  destruct (or_empty (default (Array []) (ls_tasks ls))); eexists; repeat split.
Qed.

Lemma getAllSettings_fallback (w : World) :
  useLocalStorage w = true ->
  exists v, fst (getAllSettings w) = Resolved v /\
            useLocalStorage (snd (getAllSettings w)) = true /\
            ls_knowledge_graph (localStorage (snd (getAllSettings w)))
              = ls_knowledge_graph (localStorage w).
Proof.
  intros Hfb. destruct w as [fb d ls reads draws]. simpl in Hfb. subst fb.
  unfold getAllSettings. unfold_async. simpl.
  destruct (or_empty (default (Array []) (ls_settings ls))); eexists; repeat split.
Qed.

Lemma getKnowledgeGraph_not_an_array (w : World) :
  useLocalStorage w = true ->
  not_an_array (ls_knowledge_graph (localStorage w)) ->
  getKnowledgeGraph w = (Rejected TypeError, w).
Proof.
  intros Hfb Hentry. destruct w as [fb d ls reads draws]. simpl in Hfb, Hentry. subst fb.
  unfold getKnowledgeGraph. unfold_async. simpl.
  destruct (ls_knowledge_graph ls) as [[| l | g | s] |]; simpl in *; tauto.
Qed.

Lemma getKnowledgeGraph_leaves_not_an_array (w : World) :
  useLocalStorage w = true ->
  useLocalStorage (snd (getKnowledgeGraph w)) = true /\
  not_an_array (ls_knowledge_graph (localStorage (snd (getKnowledgeGraph w)))).
Proof.
  intros Hfb. destruct w as [fb d ls reads draws]. simpl in Hfb. subst fb.
  unfold getKnowledgeGraph. unfold_async. simpl.
  destruct (ls_knowledge_graph ls) as [[| l | g | s] |] eqn:Hentry; simpl;
    rewrite ?Hentry; simpl; auto.
Qed.

Lemma exportData_not_an_array (Date_now : nat -> Timestamp) (w : World) :
  useLocalStorage w = true ->
  not_an_array (ls_knowledge_graph (localStorage w)) ->
  fst (exportData Date_now w) = Rejected TypeError.
Proof.
  intros Hfb Hentry.
  destruct (getNotes_fallback w Hfb) as (ns & Hns & Hfb1 & Hkg1).
  destruct (getTasks_fallback _ Hfb1) as (ts & Hts & Hfb2 & Hkg2).
  rewrite Hkg1 in Hkg2. rewrite <- Hkg2 in Hentry.
  pose proof (getKnowledgeGraph_not_an_array _ Hfb2 Hentry) as Hkg.
  unfold exportData, promise_all2, mbind, Async_bind.
  destruct (getNotes w) as [rn w1]. simpl in *. subst rn.
  destruct (getTasks w1) as [rt w2]. simpl in *. subst rt.
  rewrite Hkg.
  now destruct (getAllSettings w2) as [[v | e] w4].
Qed.

Lemma exportData_leaves_not_an_array (Date_now : nat -> Timestamp) (w : World) :
  useLocalStorage w = true ->
  useLocalStorage (snd (exportData Date_now w)) = true /\
  not_an_array (ls_knowledge_graph (localStorage (snd (exportData Date_now w)))).
Proof.
  intros Hfb.
  destruct (getNotes_fallback w Hfb) as (ns & Hns & Hfb1 & _).
  destruct (getTasks_fallback _ Hfb1) as (ts & Hts & Hfb2 & _).
  destruct (getKnowledgeGraph_leaves_not_an_array _ Hfb2) as (Hfb3 & Hentry).
  destruct (getAllSettings_fallback _ Hfb3) as (ss & Hss & Hfb4 & Hkg4).
  rewrite <- Hkg4 in Hentry.
  unfold exportData, promise_all2, mbind, Async_bind.
  destruct (getNotes w) as [rn w1]. simpl in *.
  destruct (getTasks w1) as [rt w2]. simpl in *.
  destruct (getKnowledgeGraph w2) as [rg w3]. simpl in *.
  destruct (getAllSettings w3) as [rs w4]. simpl in *.
  subst rn rt rs. destruct rg; simpl; auto.
Qed.

(** X7. In fallback mode, whatever is stored, [getKnowledgeGraph()] and
    [exportData()] work at most once: called a second time, in either
    order, they are rejected with a [TypeError], the first call having left
    in the [knowledge_graph] entry something that is not an array. *)
Theorem fallback_graph_reads_fail_the_second_time
    (Date_now : nat -> Timestamp) (w : World) :
  useLocalStorage w = true ->
  fst (getKnowledgeGraph (snd (getKnowledgeGraph w))) = Rejected TypeError /\
  fst (exportData Date_now (snd (exportData Date_now w))) = Rejected TypeError /\
  fst (exportData Date_now (snd (getKnowledgeGraph w))) = Rejected TypeError /\
  fst (getKnowledgeGraph (snd (exportData Date_now w))) = Rejected TypeError.
Proof.
  intros Hfb.
  destruct (getKnowledgeGraph_leaves_not_an_array w Hfb) as (Hfb1 & Hg).
  destruct (exportData_leaves_not_an_array Date_now w Hfb) as (Hfb2 & He).
  split; [now rewrite getKnowledgeGraph_not_an_array |].
  split; [now apply exportData_not_an_array |].
  split; [now apply exportData_not_an_array |].
  now rewrite getKnowledgeGraph_not_an_array.
Qed.

Lemma fallback_graph_reads_fail_the_second_time_witness :
  useLocalStorage Sample.populated = true /\
  (exists doc, fst (exportData Sample.ticking Sample.populated) = Resolved doc) /\
  fst (exportData Sample.ticking (snd (exportData Sample.ticking Sample.populated)))
    = Rejected TypeError.
Proof.
  split; [reflexivity |]. split; [eexists; reflexivity |].
  exact (proj1 (proj2 (fallback_graph_reads_fail_the_second_time
                         Sample.ticking Sample.populated eq_refl))).
Defined.

(** ** Settings *)

Lemma saveSetting_structured (Date_now : nat -> Timestamp)
    (key : string) (value : JsonValue) (w : World) :
  useLocalStorage w = false ->
  saveSetting Date_now key value w
    = (Resolved (Setting.mk key value (Date_now (clockReads w))),
       mkWorld false
               (setObjectStore settings
                  (<[key := Setting.mk key value (Date_now (clockReads w))]>
                     (db_settings (db w))) (db w))
               (localStorage w) (S (clockReads w)) (randomDraws w)).
Proof.
  intros Hdb. destruct w as [fb d ls reads draws]. simpl in Hdb. subst fb.
  reflexivity.
Qed.

(** X8. With the database in use, [saveSetting(key, value)] is resolved
    with the record [{ key, value, updatedAt }] and [getSetting(key, d)] is
    then resolved with [value], whatever the default [d] and whatever was
    stored under the key before; every other key reads as it did before, and
    notes, tasks and the graph are untouched. *)
Theorem saveSetting_then_getSetting
    (Date_now : nat -> Timestamp) (key : string) (value : JsonValue) (w : World) :
  useLocalStorage w = false ->
  let w' := snd (saveSetting Date_now key value w) in
  (exists saved,
     fst (saveSetting Date_now key value w) = Resolved saved /\
     Setting.key saved = key /\ Setting.value saved = value /\
     Setting.updatedAt saved = Date_now (clockReads w)) /\
  (forall d, fst (getSetting key d w') = Resolved value) /\
  (forall other d, other <> key ->
     fst (getSetting other d w') = fst (getSetting other d w)) /\
  db_notes (db w') = db_notes (db w) /\
  db_tasks (db w') = db_tasks (db w) /\
  db_knowledge_graph (db w') = db_knowledge_graph (db w).
Proof.
  intros Hdb. cbv zeta. rewrite (saveSetting_structured Date_now key value w Hdb).
  cbn [fst snd]. split; [eexists; repeat split |].
  split; [| split; [| repeat split]].
  - intros d. rewrite getSetting_structured by reflexivity. simpl.
    now rewrite lookup_insert_eq.
  - intros other d Hother. rewrite !getSetting_structured by (exact Hdb || reflexivity).
    simpl. now rewrite lookup_insert_ne by congruence.
Qed.

Lemma saveSetting_then_getSetting_witness :
  useLocalStorage busy = false /\
  fst (getSetting "theme" JNull (snd (saveSetting Sample.ticking "theme" (JString "dark") busy)))
    = Resolved (JString "dark") /\
  fst (getSetting "font" JNull (snd (saveSetting Sample.ticking "theme" (JString "dark") busy)))
    = fst (getSetting "font" JNull busy).
Proof.
  assert (useLocalStorage busy = false) as Hdb by (vm_compute; reflexivity).
  pose proof (saveSetting_then_getSetting Sample.ticking "theme" (JString "dark") busy Hdb)
    as (_ & Hsame & Hother & _).
  split; [exact Hdb |]. split; [exact (Hsame JNull) |].
  apply Hother. discriminate.
Defined.

(** ** The knowledge graph *)

Lemma only_main_graph (m : gmap string Graph.t) (g : Graph.t) :
  map_Forall the_graph m -> <["main_graph" := g]> m = {["main_graph" := g]}.
Proof.
  intros Hm. apply map_eq. intros k.
  destruct (decide (k = "main_graph")) as [-> | Hk].
  - now rewrite lookup_insert_eq, lookup_singleton_eq.
  - rewrite lookup_insert_ne, lookup_singleton_ne by congruence.
    destruct (m !! k) as [g' |] eqn:Hg; [| reflexivity].
    now destruct (Hm k g' Hg).
Qed.

Lemma records_singleton {A} (k : string) (x : A) : records ({[k := x]} : gmap string A) = [x].
Proof. unfold records. now rewrite map_to_list_singleton. Qed.

(** X9. In every state the manager can be in with the database in use,
    [saveKnowledgeGraph(g)] is resolved with the record it stores, whose
    [id] is [main_graph] and whose nodes and links are those of [g] (none
    where [g] has none); the record replaces the graph saved before, so that
    the store holds this one record and [getKnowledgeGraph()] is then
    resolved with it. *)
Theorem saveKnowledgeGraph_replaces_the_graph
    (Date_now : nat -> Timestamp) (Math_random : nat -> string)
    (graphData : GraphArg.t) (w : World) :
  reachable Date_now Math_random w ->
  useLocalStorage w = false ->
  exists saved,
    let w' := snd (saveKnowledgeGraph Date_now graphData w) in
    fst (saveKnowledgeGraph Date_now graphData w) = Resolved saved /\
    Graph.id saved = Some "main_graph" /\
    Graph.nodes saved = default [] (GraphArg.nodes graphData) /\
    Graph.links saved = default [] (GraphArg.links graphData) /\
    records (db_knowledge_graph (db w')) = [saved] /\
    fst (getKnowledgeGraph w') = Resolved (Some saved).
Proof.
  intros Hreach Hdb.
  destruct (reachable_well_kept Date_now Math_random w Hreach) as (_ & Hgraph & _).
  destruct w as [fb d ls reads draws]. simpl in Hdb, Hgraph. subst fb.
  eexists (Graph.mk _ _ _ _). cbv zeta.
  split; [reflexivity |]. split; [reflexivity |]. split; [reflexivity |].
  split; [reflexivity |]. split.
  - unfold saveKnowledgeGraph. unfold_async. simpl.
    rewrite (only_main_graph _ _ Hgraph). apply records_singleton.
  - unfold saveKnowledgeGraph, getKnowledgeGraph. unfold_async. simpl.
    now rewrite lookup_insert_eq.
Qed.

Lemma saveKnowledgeGraph_replaces_the_graph_witness :
  reachable Sample.ticking Sample.dice busy /\
  useLocalStorage busy = false /\
  exists saved,
    fst (saveKnowledgeGraph Sample.ticking (GraphArg.mk None None) busy) = Resolved saved /\
    Graph.nodes saved = [] /\
    fst (getKnowledgeGraph (snd (saveKnowledgeGraph Sample.ticking (GraphArg.mk None None) busy)))
      = Resolved (Some saved).
Proof.
  assert (useLocalStorage busy = false) as Hdb by (vm_compute; reflexivity).
  split; [exact busy_reachable |]. split; [exact Hdb |].
  destruct (saveKnowledgeGraph_replaces_the_graph Sample.ticking Sample.dice
              (GraphArg.mk None None) busy busy_reachable Hdb)
    as (saved & Hsave & _ & Hnodes & _ & _ & Hget).
  exists saved. split; [exact Hsave |]. split; [exact Hnodes | exact Hget].
Defined.

(** ** What a save leaves alone *)

Lemma records_insert_length {A} (k : string) (x : A) (m : gmap string A) :
  length (records (<[k := x]> m))
    = match m !! k with
      | Some _ => length (records m)
      | None => S (length (records m))
      end.
Proof.
  rewrite !records_length.
  destruct (m !! k) as [y |] eqn:Hk.
  - apply map_size_insert_Some. now rewrite Hk.
  - now apply map_size_insert_None.
Qed.

(** X10. With the database in use, [saveNote] touches one record only:
    every other id reads through [getNote] as before, tasks, graph, settings
    and [localStorage] are as before, and [getNotes()] gives as many notes
    as before when a note was stored under the id of the saved record, one
    more otherwise.  The same holds of [saveTask]. *)
Theorem save_touches_one_record
    (Date_now : nat -> Timestamp) (Math_random : nat -> string) (w : World) :
  useLocalStorage w = false ->
  (forall note, exists saved before after,
     let w' := snd (saveNote Date_now Math_random note w) in
     fst (saveNote Date_now Math_random note w) = Resolved saved /\
     (forall id, id <> Note.id saved -> fst (getNote id w') = fst (getNote id w)) /\
     fst (getNotes w) = Resolved (Array before) /\
     fst (getNotes w') = Resolved (Array after) /\
     length after = (if fst (getNote (Note.id saved) w) is Resolved (Some _)
                     then length before else S (length before)) /\
     db_tasks (db w') = db_tasks (db w) /\
     db_knowledge_graph (db w') = db_knowledge_graph (db w) /\
     db_settings (db w') = db_settings (db w) /\
     localStorage w' = localStorage w) /\
  (forall task, exists saved before after,
     let w' := snd (saveTask Date_now Math_random task w) in
     fst (saveTask Date_now Math_random task w) = Resolved saved /\
     (forall id, id <> Task.id saved -> fst (getTask id w') = fst (getTask id w)) /\
     fst (getTasks w) = Resolved (Array before) /\
     fst (getTasks w') = Resolved (Array after) /\
     length after = (if fst (getTask (Task.id saved) w) is Resolved (Some _)
                     then length before else S (length before)) /\
     db_notes (db w') = db_notes (db w) /\
     db_knowledge_graph (db w') = db_knowledge_graph (db w) /\
     db_settings (db w') = db_settings (db w) /\
     localStorage w' = localStorage w).
Proof.
  intros Hdb. split.
  - intros note.
    destruct (saveNote_structured Date_now Math_random note w Hdb)
      as (saved & i & Hsave & _).
    exists saved, (records (db_notes (db w))),
           (records (<[Note.id saved := saved]> (db_notes (db w)))).
    cbv zeta. rewrite Hsave. cbn [fst snd].
    split; [reflexivity |]. split; [| split; [| split; [| split]]].
    + intros id Hid. rewrite !getNote_structured by (exact Hdb || reflexivity).
      simpl. now rewrite lookup_insert_ne by congruence.
    + now rewrite getNotes_structured.
    + now rewrite getNotes_structured.
    + rewrite getNote_structured by exact Hdb. cbn [fst].
      rewrite records_insert_length. now destruct (db_notes (db w) !! Note.id saved).
    + repeat split.
  - intros task.
    destruct (saveTask_structured Date_now Math_random task w Hdb)
      as (saved & i & Hsave & _).
    exists saved, (records (db_tasks (db w))),
           (records (<[Task.id saved := saved]> (db_tasks (db w)))).
    cbv zeta. rewrite Hsave. cbn [fst snd].
    split; [reflexivity |]. split; [| split; [| split; [| split]]].
    + intros id Hid. rewrite !getTask_structured by (exact Hdb || reflexivity).
      simpl. now rewrite lookup_insert_ne by congruence.
    + now rewrite getTasks_structured.
    + now rewrite getTasks_structured.
    + rewrite getTask_structured by exact Hdb. cbn [fst].
      rewrite records_insert_length. now destruct (db_tasks (db w) !! Task.id saved).
    + repeat split.
Qed.

Lemma save_touches_one_record_witness :
  useLocalStorage busy = false /\
  exists saved before after,
    fst (saveNote Sample.ticking Sample.dice Sample.alpha busy) = Resolved saved /\
    fst (getNote "n7" (snd (saveNote Sample.ticking Sample.dice Sample.alpha busy)))
      = fst (getNote "n7" busy) /\
    fst (getNotes busy) = Resolved (Array before) /\
    fst (getNotes (snd (saveNote Sample.ticking Sample.dice Sample.alpha busy)))
      = Resolved (Array after) /\
    length after = S (length before).
Proof.
  assert (useLocalStorage busy = false) as Hdb by (vm_compute; reflexivity).
  split; [exact Hdb |].
  destruct (proj1 (save_touches_one_record Sample.ticking Sample.dice busy Hdb) Sample.alpha)
    as (saved & before & after & Hsave & Hother & Hbefore & Hafter & Hlen & _).
  exists saved, before, after.
  split; [exact Hsave |]. split; [| split; [exact Hbefore | split; [exact Hafter |]]].
  - apply Hother. vm_compute in Hsave. injection Hsave as <-. discriminate.
  - rewrite Hlen. vm_compute in Hsave. injection Hsave as <-. reflexivity.
Defined.

(** ** Only deleting removes *)

Lemma keys_kept_insert {A} (m m' : gmap string A) (k : string) (x : A) :
  keys_kept m m' -> keys_kept m (<[k := x]> m').
Proof.
  intros Hkept j Hj. apply lookup_insert_is_Some'. right. now apply Hkept.
Qed.

Lemma records_kept_refl (w : World) : records_kept w w.
Proof. repeat split; intros k Hk; exact Hk. Qed.

Lemma records_kept_trans (w1 w2 w3 : World) :
  records_kept w1 w2 -> records_kept w2 w3 -> records_kept w1 w3.
Proof.
  intros (Hn & Ht & Hg & Hs) (Hn' & Ht' & Hg' & Hs').
  repeat split; intros k Hk; auto.
Qed.

Ltac keep_keys :=
  repeat match goal with
         | |- _ /\ _ => split
         | |- keys_kept _ (<[_ := _]> _) => apply keys_kept_insert
         | H : keys_kept ?a ?b |- keys_kept ?a ?b => exact H
         end.

Ltac kept_keys_leaf :=
  let w := fresh "w" in
  unfold preserves;
  repeat lazymatch goal with
         | |- forall _ : World, _ => fail
         | |- forall _, _ => intro
         end;
  unfold saveNote, getNotes, getNote, saveTask, getTasks, getTask,
         saveKnowledgeGraph, getKnowledgeGraph, saveSetting, getSetting, getAllSettings;
  intros w (Hn & Ht & Hg & Hs);
  destruct w as [fb [dn dt dk ds] [ln lt lk lse] reads draws];
  unfold records_kept in *; simpl in Hn, Ht, Hg, Hs;
  destruct fb; unfold_async; simpl;
  repeat (case_match; simplify_eq; simpl in * ); simpl;
  keep_keys.

(** X11. Only [deleteNote], [deleteTask] and [clearAllData] remove records
    from the database: after any other call, whether it was resolved or
    rejected, every key of the four object stores still has a record.  So
    [importData] merges into what is stored and [updateTaskStatus] never
    loses a task. *)
Theorem only_deleting_calls_remove_records
    (Date_now : nat -> Timestamp) (Math_random : nat -> string) (c : Call) (w : World) :
  removes c = false ->
  records_kept w (after Date_now Math_random c w).
Proof.
  intros Hc.
  enough (forall w0, records_kept w w0 ->
                     records_kept w (after Date_now Math_random c w0)) as Hkept
    by apply Hkept, records_kept_refl.
  destruct c; try discriminate Hc; simpl.
  - kept_keys_leaf.
  - kept_keys_leaf.
  - kept_keys_leaf.
  - kept_keys_leaf.
  - kept_keys_leaf.
  - kept_keys_leaf.
  - apply updateTaskStatus_preserves; kept_keys_leaf.
  - kept_keys_leaf.
  - kept_keys_leaf.
  - kept_keys_leaf.
  - kept_keys_leaf.
  - kept_keys_leaf.
  - apply exportData_preserves; kept_keys_leaf.
  - apply importData_preserves; kept_keys_leaf.
Qed.

Lemma only_deleting_calls_remove_records_witness :
  removes (call_importData (ImportDocument.mk (Some Sample.broken))) = false /\
  is_Some (db_notes (db busy) !! "n7") /\
  is_Some (db_notes (db (after Sample.ticking Sample.dice
                           (call_importData (ImportDocument.mk (Some Sample.broken))) busy))
             !! "n7").
Proof.
  assert (is_Some (db_notes (db busy) !! "n7")) as Hstored by (vm_compute; eauto).
  split; [reflexivity |]. split; [exact Hstored |].
  exact (proj1 (only_deleting_calls_remove_records Sample.ticking Sample.dice
                  (call_importData (ImportDocument.mk (Some Sample.broken))) busy eq_refl)
               "n7" Hstored).
Defined.

(** ** Importing with the database *)

(** A loop over saves that are resolved with the database in use: it is
    resolved, nothing stored is lost, and what each round has stored is
    still there at the end. *)
Lemma for_of_structured {A} (body : A -> Async unit) (Q : A -> World -> Prop) (l : list A) :
  (forall x w, In x l -> useLocalStorage w = false ->
     exists w', body x w = (Resolved tt, w') /\ useLocalStorage w' = false /\
                records_kept w w' /\ Q x w') ->
  (forall x w w', Q x w -> records_kept w w' -> Q x w') ->
  forall w, useLocalStorage w = false ->
    exists w', for_of l body w = (Resolved tt, w') /\ useLocalStorage w' = false /\
               records_kept w w' /\ forall x, In x l -> Q x w'.
Proof.
  intros Hbody Hmono. induction l as [| x l IH]; intros w Hdb.
  - exists w. split; [reflexivity |]. split; [exact Hdb |].
    split; [apply records_kept_refl | intros x []].
  - destruct (Hbody x w (or_introl eq_refl) Hdb) as (w1 & Hx & Hdb1 & Hkept1 & HQ).
    destruct IH with (w := w1) as (w' & Hloop & Hdb' & Hkept' & HQs).
    { intros y w0 Hy. apply Hbody. now right. }
    { exact Hdb1. }
    exists w'. split; [| split; [exact Hdb' | split]].
    + simpl. unfold mbind, Async_bind. now rewrite Hx.
    + now apply records_kept_trans with w1.
    + intros y [<- | Hy]; [| now apply HQs]. now apply Hmono with w1.
Qed.

Section ImportStructured.
Variable Date_now : nat -> Timestamp.
Variable Math_random : nat -> string.

Lemma importNotes_elements (d : ImportData.t) :
  importNotes Date_now Math_random d
    = for_of (elements (ImportData.notes d)) (import_note Date_now Math_random).
Proof. unfold importNotes. now destruct (ImportData.notes d). Qed.

Lemma importTasks_elements (d : ImportData.t) :
  importTasks Date_now Math_random d
    = for_of (elements (ImportData.tasks d)) (import_task Date_now Math_random).
Proof. unfold importTasks. now destruct (ImportData.tasks d). Qed.

Lemma importSettings_elements (d : ImportData.t) :
  importSettings Date_now d
    = for_of (elements (ImportData.settings d)) (import_setting Date_now).
Proof. unfold importSettings. now destruct (ImportData.settings d). Qed.

Lemma import_note_structured (x : option NoteArg.t) (w : World) :
  is_Some x -> useLocalStorage w = false ->
  exists w', import_note Date_now Math_random x w = (Resolved tt, w') /\
             useLocalStorage w' = false /\ records_kept w w' /\ note_in x w'.
Proof.
  intros [n ->] Hdb.
  destruct (saveNote_structured Date_now Math_random n w Hdb)
    as (saved & i & Hsave & (_ & Hid & _) & _).
  eexists. split; [unfold import_note, mbind, Async_bind; rewrite Hsave; reflexivity |].
  split; [reflexivity | split].
  - repeat split; simpl; try (intros k Hk; exact Hk).
    apply keys_kept_insert. intros k Hk; exact Hk.
  - intros n' j [= <-] Hj Hne. simpl. rewrite (Hid j Hj Hne).
    apply lookup_insert_is_Some'. now left.
Qed.

Lemma import_task_structured (x : option TaskArg.t) (w : World) :
  is_Some x -> useLocalStorage w = false ->
  exists w', import_task Date_now Math_random x w = (Resolved tt, w') /\
             useLocalStorage w' = false /\ records_kept w w' /\ task_in x w'.
Proof.
  intros [t ->] Hdb.
  destruct (saveTask_structured Date_now Math_random t w Hdb)
    as (saved & i & Hsave & (_ & Hid & _) & _).
  eexists. split; [unfold import_task, mbind, Async_bind; rewrite Hsave; reflexivity |].
  split; [reflexivity | split].
  - repeat split; simpl; try (intros k Hk; exact Hk).
    apply keys_kept_insert. intros k Hk; exact Hk.
  - intros t' j [= <-] Hj Hne. simpl. rewrite (Hid j Hj Hne).
    apply lookup_insert_is_Some'. now left.
Qed.

(** With the database in use, a setting without [key] is stamped and then
    refused by [put]. *)
Lemma import_setting_without_key (value : JsonValue) (w : World) :
  useLocalStorage w = false ->
  import_setting Date_now (Some (SettingArg.mk None value)) w
    = (Rejected DataError,
       mkWorld false (db w) (localStorage w) (S (clockReads w)) (randomDraws w)).
Proof.
  intros Hdb. destruct w as [fb d ls reads draws]. simpl in Hdb. subst fb. reflexivity.
Qed.

(** The settings of a document, saved one after the other with the database
    in use: the loop is resolved when every setting carries its key, and is
    rejected with a [DataError] at the first that does not; the settings
    before it are stored. *)
Lemma import_settings_with_database (l : list (option SettingArg.t)) (w : World) :
  useLocalStorage w = false ->
  Forall is_Some l ->
  exists r w',
    for_of l (import_setting Date_now) w = (r, w') /\
    useLocalStorage w' = false /\
    records_kept w w' /\
    (Forall has_key l -> r = Resolved tt /\ forall x, In x l -> setting_in x w') /\
    (~ Forall has_key l -> r = Rejected DataError).
Proof.
  revert w. induction l as [| x l IH]; intros w Hdb Hl.
  - exists (Resolved tt), w. split; [reflexivity |]. split; [exact Hdb |].
    split; [apply records_kept_refl |]. split.
    + intros _. split; [reflexivity | intros x []].
    + intros Hno. destruct Hno. constructor.
  - apply Forall_cons in Hl as [[[[key |] value] ->] Hl].
    + pose proof (saveSetting_structured Date_now key value w Hdb) as Hsave.
      set (w1 := mkWorld _ _ _ _ _) in Hsave.
      assert (records_kept w w1) as Hkept1.
      { repeat split; simpl; try (intros k Hk; exact Hk).
        apply keys_kept_insert. intros k Hk; exact Hk. }
      destruct (IH w1 eq_refl Hl) as (r & w' & Hloop & Hdb' & Hkept & Hyes & Hno).
      exists r, w'. split; [| split; [exact Hdb' | split; [| split]]].
      * cbn [for_of]. rewrite (bind_resolved _ _ w w1 tt); [exact Hloop |].
        unfold import_setting. cbn [SettingArg.key SettingArg.value].
        now rewrite (bind_resolved _ _ _ _ _ Hsave).
      * now apply records_kept_trans with w1.
      * intros Hall. apply Forall_cons in Hall as [_ Hall].
        destruct (Hyes Hall) as [-> Hin]. split; [reflexivity |].
        intros x [<- | Hx]; [| now apply Hin].
        intros s k [= <-] [= <-]. destruct Hkept as (_ & _ & _ & Hsettings).
        apply Hsettings. unfold w1. simpl. apply lookup_insert_is_Some'. now left.
      * intros Hnot. apply Hno. intros Hall. apply Hnot. constructor; [| exact Hall].
        intros s [= <-]. simpl. eauto.
    + exists (Rejected DataError),
             (mkWorld false (db w) (localStorage w) (S (clockReads w)) (randomDraws w)).
      split; [| split; [reflexivity | split; [| split]]].
      * cbn [for_of].
        rewrite (bind_rejected _ _ w DataError)
          by now rewrite (import_setting_without_key value w Hdb).
        now rewrite (import_setting_without_key value w Hdb).
      * repeat split; intros k Hk; exact Hk.
      * intros Hall. apply Forall_cons in Hall as [Hx _].
        destruct (Hx _ eq_refl) as [k Hk]. discriminate Hk.
      * reflexivity.
Qed.

Lemma importKnowledgeGraph_structured (d : ImportData.t) (w : World) :
  useLocalStorage w = false ->
  exists w', importKnowledgeGraph Date_now d w = (Resolved tt, w') /\
             useLocalStorage w' = false /\ records_kept w w' /\
             (is_Some (ImportData.knowledgeGraph d) ->
              is_Some (db_knowledge_graph (db w') !! "main_graph")).
Proof.
  intros Hdb. destruct w as [fb db0 ls reads draws]. simpl in Hdb. subst fb.
  unfold importKnowledgeGraph.
  destruct (ImportData.knowledgeGraph d) as [g |].
  - eexists. split; [reflexivity |]. split; [reflexivity |]. split.
    + repeat split; simpl; try (intros k Hk; exact Hk).
      apply keys_kept_insert. intros k Hk; exact Hk.
    + intros _. simpl. apply lookup_insert_is_Some'. now left.
  - eexists. split; [reflexivity |]. split; [reflexivity |].
    split; [apply records_kept_refl |]. now intros [? ?].
Qed.

End ImportStructured.

(** X12. With the database in use, take a document whose [notes], [tasks]
    and [settings] are arrays of records (ids and keys that are strings,
    where present) with no [null] element.  [importData] of it is resolved
    with [true] when every setting carries its [key], each setting then
    being stored under its key; it is rejected with a [DataError] when a
    setting has no [key].  Either way the database afterwards holds each
    note and each task of the document under its [id] when it has a
    non-empty one, and the graph under [main_graph] when the document has
    one.  A document without [data] is rejected with the format error and
    changes nothing. *)
Theorem importData_stores_the_document
    (Date_now : nat -> Timestamp) (Math_random : nat -> string)
    (d : ImportData.t) (w : World) :
  useLocalStorage w = false ->
  no_null (ImportData.notes d) ->
  no_null (ImportData.tasks d) ->
  no_null (ImportData.settings d) ->
  let w' := snd (importData Date_now Math_random (ImportDocument.mk (Some d)) w) in
  (keyed (ImportData.settings d) ->
   fst (importData Date_now Math_random (ImportDocument.mk (Some d)) w) = Resolved true /\
   forall s key, In (Some s) (elements (ImportData.settings d)) ->
     SettingArg.key s = Some key -> is_Some (db_settings (db w') !! key)) /\
  (~ keyed (ImportData.settings d) ->
   fst (importData Date_now Math_random (ImportDocument.mk (Some d)) w)
     = Rejected DataError) /\
  (forall n i, In (Some n) (elements (ImportData.notes d)) ->
     NoteArg.id n = Some i -> i <> "" -> is_Some (db_notes (db w') !! i)) /\
  (forall t i, In (Some t) (elements (ImportData.tasks d)) ->
     TaskArg.id t = Some i -> i <> "" -> is_Some (db_tasks (db w') !! i)) /\
  (is_Some (ImportData.knowledgeGraph d) ->
   is_Some (db_knowledge_graph (db w') !! "main_graph")) /\
  importData Date_now Math_random (ImportDocument.mk None) w = (Rejected ImportError, w).
Proof.
  intros Hdb Hnotes Htasks Hsettings.
  assert (exists w1, importNotes Date_now Math_random d w = (Resolved tt, w1) /\
                     useLocalStorage w1 = false /\ records_kept w w1 /\
                     forall x, In x (elements (ImportData.notes d)) -> note_in x w1)
    as (w1 & H1 & Hdb1 & Hkept1 & Hin1).
  { unfold importNotes, no_null in *.
    destruct (ImportData.notes d) as [| l | |]; simpl in *.
    2: { apply for_of_structured; [| | exact Hdb].
         - intros x w0 Hx. apply import_note_structured.
           now apply (proj1 (List.Forall_forall _ _) Hnotes).
         - intros x w0 w0' Hx (Hn & _) n i Hxn Hi Hne. apply Hn. now apply (Hx n i). }
    all: exists w; split; [reflexivity |]; split; [exact Hdb |];
      split; [apply records_kept_refl | intros x []]. }
  assert (exists w2, importTasks Date_now Math_random d w1 = (Resolved tt, w2) /\
                     useLocalStorage w2 = false /\ records_kept w1 w2 /\
                     forall x, In x (elements (ImportData.tasks d)) -> task_in x w2)
    as (w2 & H2 & Hdb2 & Hkept2 & Hin2).
  { unfold importTasks, no_null in *.
    destruct (ImportData.tasks d) as [| l | |]; simpl in *.
    2: { apply for_of_structured; [| | exact Hdb1].
         - intros x w0 Hx. apply import_task_structured.
           now apply (proj1 (List.Forall_forall _ _) Htasks).
         - intros x w0 w0' Hx (_ & Ht & _) t i Hxt Hi Hne. apply Ht. now apply (Hx t i). }
    all: exists w1; split; [reflexivity |]; split; [exact Hdb1 |];
      split; [apply records_kept_refl | intros x []]. }
  destruct (importKnowledgeGraph_structured Date_now d w2 Hdb2)
    as (w3 & H3 & Hdb3 & Hkept3 & Hin3).
  destruct (import_settings_with_database Date_now (elements (ImportData.settings d)) w3
              Hdb3 Hsettings) as (r & w4 & H4 & Hdb4 & Hkept4 & Hyes & Hno).
  assert (importData Date_now Math_random (ImportDocument.mk (Some d)) w
          = (match r with
             | Resolved _ => Resolved true
             | Rejected e => Rejected e
             end, w4)) as Himport.
  { unfold importData. cbn [ImportDocument.data].
    rewrite (bind_resolved _ _ _ _ _ H1), (bind_resolved _ _ _ _ _ H2),
            (bind_resolved _ _ _ _ _ H3).
    rewrite (importSettings_elements Date_now d).
    unfold mbind, Async_bind. rewrite H4. now destruct r as [[] | e]. }
  cbv zeta. rewrite Himport. cbn [fst snd].
  pose proof Hkept4 as (_ & _ & Hg34 & _).
  pose proof (records_kept_trans _ _ _ Hkept3 Hkept4) as (_ & Ht24 & _).
  pose proof (records_kept_trans _ _ _ Hkept2 (records_kept_trans _ _ _ Hkept3 Hkept4))
    as (Hn14 & _).
  split; [| split; [| split; [| split; [| split]]]].
  - intros Hkeyed. destruct (Hyes Hkeyed) as [-> Hin4]. split; [reflexivity |].
    intros s key Hs Hkey. now apply (Hin4 _ Hs s key).
  - intros Hnot. now rewrite (Hno Hnot).
  - intros n i Hn Hi Hne. apply Hn14. now apply (Hin1 _ Hn n i).
  - intros t i Ht Hi Hne. apply Ht24. now apply (Hin2 _ Ht t i).
  - intros Hg. apply Hg34. now apply Hin3.
  - reflexivity.
Qed.

Lemma importData_stores_the_document_witness :
  useLocalStorage busy = false /\
  (no_null (ImportData.notes backup) /\
   no_null (ImportData.tasks backup) /\
   no_null (ImportData.settings backup) /\
   keyed (ImportData.settings backup) /\
   fst (importData Sample.ticking Sample.dice (ImportDocument.mk (Some backup)) busy)
     = Resolved true /\
   is_Some (db_settings (db (snd (importData Sample.ticking Sample.dice
                                    (ImportDocument.mk (Some backup)) busy))) !! "theme")) /\
  (no_null (ImportData.notes without_key) /\
   no_null (ImportData.tasks without_key) /\
   no_null (ImportData.settings without_key) /\
   ~ keyed (ImportData.settings without_key) /\
   fst (importData Sample.ticking Sample.dice (ImportDocument.mk (Some without_key)) busy)
     = Rejected DataError /\
   is_Some (db_tasks (db (snd (importData Sample.ticking Sample.dice
                                 (ImportDocument.mk (Some without_key)) busy))) !! "t1")).
Proof.
  assert (useLocalStorage busy = false) as Hdb by (vm_compute; reflexivity).
  split; [exact Hdb |]. split.
  - assert (no_null (ImportData.notes backup)) as Hn by (repeat constructor; eauto).
    assert (no_null (ImportData.tasks backup)) as Ht by (repeat constructor; eauto).
    assert (no_null (ImportData.settings backup)) as Hs by (repeat constructor; eauto).
    assert (keyed (ImportData.settings backup)) as Hk.
    { repeat constructor. intros s [= <-]. simpl. eauto. }
    destruct (importData_stores_the_document Sample.ticking Sample.dice backup busy
                Hdb Hn Ht Hs) as (Hyes & _).
    destruct (Hyes Hk) as [Hres Hsettings].
    split; [exact Hn |]. split; [exact Ht |]. split; [exact Hs |]. split; [exact Hk |].
    split; [exact Hres |].
    apply (Hsettings (SettingArg.mk (Some "theme") (JString "dark")) "theme");
      [now left | reflexivity].
  - assert (no_null (ImportData.notes without_key)) as Hn by (repeat constructor; eauto).
    assert (no_null (ImportData.tasks without_key)) as Ht by (repeat constructor; eauto).
    assert (no_null (ImportData.settings without_key)) as Hs by (repeat constructor; eauto).
    assert (~ keyed (ImportData.settings without_key)) as Hk.
    { intros Hall. apply Forall_cons in Hall as [_ Hall].
      apply Forall_cons in Hall as [Hx _].
      destruct (Hx _ eq_refl) as [k Hkey]. discriminate Hkey. }
    destruct (importData_stores_the_document Sample.ticking Sample.dice without_key busy
                Hdb Hn Ht Hs) as (_ & Hno & _ & Htasks & _).
    split; [exact Hn |]. split; [exact Ht |]. split; [exact Hs |]. split; [exact Hk |].
    split; [exact (Hno Hk) |].
    apply (Htasks Sample.chore "t1"); [now left | reflexivity | discriminate].
Defined.

(** ** Importing in fallback mode *)

Section ImportFallback.
Variable Date_now : nat -> Timestamp.
Variable Math_random : nat -> string.

(** A loop whose first round throws. *)
Lemma for_of_first_rejected {A} (body : A -> Async unit) (x : A) (l : list A) (w : World) :
  fst (body x w) = Rejected TypeError /\ persisted (snd (body x w)) = persisted w ->
  fst (for_of (x :: l) body w) = Rejected TypeError /\
  persisted (snd (for_of (x :: l) body w)) = persisted w.
Proof.
  intros [Hres Hsame]. cbn [for_of]. rewrite (bind_rejected _ _ _ _ Hres).
  split; [reflexivity | exact Hsame].
Qed.

Lemma import_note_fallback (x : option NoteArg.t) (w : World) :
  useLocalStorage w = true ->
  fst (import_note Date_now Math_random x w) = Rejected TypeError /\
  persisted (snd (import_note Date_now Math_random x w)) = persisted w.
Proof.
  intros Hfb. destruct x as [n |]; [| now split].
  destruct (saveNote_fallback Date_now Math_random n w Hfb) as [Hres Hsame].
  unfold import_note. rewrite (bind_rejected _ _ _ _ Hres).
  split; [reflexivity | exact Hsame].
Qed.

Lemma import_task_fallback (x : option TaskArg.t) (w : World) :
  useLocalStorage w = true ->
  fst (import_task Date_now Math_random x w) = Rejected TypeError /\
  persisted (snd (import_task Date_now Math_random x w)) = persisted w.
Proof.
  intros Hfb. destruct x as [t |]; [| now split].
  destruct (saveTask_fallback Date_now Math_random t w Hfb) as [Hres Hsame].
  unfold import_task. rewrite (bind_rejected _ _ _ _ Hres).
  split; [reflexivity | exact Hsame].
Qed.

Lemma import_setting_fallback (x : option SettingArg.t) (w : World) :
  useLocalStorage w = true ->
  fst (import_setting Date_now x w) = Rejected TypeError /\
  persisted (snd (import_setting Date_now x w)) = persisted w.
Proof.
  intros Hfb. destruct x as [[[key |] value] |]; [| | now split].
  - destruct (saveSetting_fallback Date_now key value w Hfb) as [Hres Hsame].
    unfold import_setting. cbn [SettingArg.key SettingArg.value].
    rewrite (bind_rejected _ _ _ _ Hres).
    split; [reflexivity | exact Hsame].
  - destruct w as [fb d ls reads draws]. simpl in Hfb. subst fb. now split.
Qed.

Lemma importData_fallback (d : ImportData.t) (w : World) :
  useLocalStorage w = true ->
  (nothing_to_import d /\
   importData Date_now Math_random (ImportDocument.mk (Some d)) w = (Resolved true, w)) \/
  (~ nothing_to_import d /\
   fst (importData Date_now Math_random (ImportDocument.mk (Some d)) w) = Rejected TypeError /\
   persisted (snd (importData Date_now Math_random (ImportDocument.mk (Some d)) w))
     = persisted w).
Proof.
  intros Hfb. unfold importData, nothing_to_import. cbn [ImportDocument.data].
  rewrite importNotes_elements, importTasks_elements, importSettings_elements.
  destruct (elements (ImportData.notes d)) as [| x l].
  2: { right. split; [now intros [? _] |].
       destruct (for_of_first_rejected (import_note Date_now Math_random) x l w
                   (import_note_fallback x w Hfb)) as [Hres Hsame].
       rewrite (bind_rejected _ _ _ _ Hres). split; [reflexivity | exact Hsame]. }
  rewrite (bind_resolved _ _ w w tt eq_refl).
  destruct (elements (ImportData.tasks d)) as [| x l].
  2: { right. split; [now intros (_ & ? & _) |].
       destruct (for_of_first_rejected (import_task Date_now Math_random) x l w
                   (import_task_fallback x w Hfb)) as [Hres Hsame].
       rewrite (bind_rejected _ _ _ _ Hres). split; [reflexivity | exact Hsame]. }
  rewrite (bind_resolved _ _ w w tt eq_refl).
  unfold importKnowledgeGraph.
  destruct (ImportData.knowledgeGraph d) as [g |].
  { right. split; [now intros (_ & _ & ? & _) |].
    destruct (saveKnowledgeGraph_fallback Date_now g w Hfb) as [Hres Hsame].
    assert (fst ((saveKnowledgeGraph Date_now g ≫= fun _ => mret tt) w) = Rejected TypeError
            /\ snd ((saveKnowledgeGraph Date_now g ≫= fun _ => mret tt) w)
                = snd (saveKnowledgeGraph Date_now g w)) as [Hres' Hsnd]
      by (rewrite (bind_rejected _ _ _ _ Hres); now split).
    rewrite (bind_rejected _ _ _ _ Hres'). cbn [fst snd]. rewrite Hsnd.
    split; [reflexivity | exact Hsame]. }
  rewrite (bind_resolved _ _ w w tt eq_refl).
  destruct (elements (ImportData.settings d)) as [| x l].
  2: { right. split; [now intros (_ & _ & _ & ?) |].
       destruct (for_of_first_rejected (import_setting Date_now) x l w
                   (import_setting_fallback x w Hfb)) as [Hres Hsame].
       rewrite (bind_rejected _ _ _ _ Hres). split; [reflexivity | exact Hsame]. }
  left. split; [now repeat split | reflexivity].
Qed.

End ImportFallback.

(** X13. In fallback mode [importData] is resolved with [true] exactly when
    the document gives it nothing to save (no element in [notes], [tasks]
    and [settings], no graph); as soon as there is something, the call is
    rejected with the [TypeError] of the first save.  Either way what is
    stored is as before: nothing is imported. *)
Theorem importData_imports_nothing_in_fallback_mode
    (Date_now : nat -> Timestamp) (Math_random : nat -> string)
    (d : ImportData.t) (w : World) :
  useLocalStorage w = true ->
  let outcome := importData Date_now Math_random (ImportDocument.mk (Some d)) w in
  (nothing_to_import d <-> fst outcome = Resolved true) /\
  (~ nothing_to_import d <-> fst outcome = Rejected TypeError) /\
  persisted (snd outcome) = persisted w.
Proof.
  intros Hfb. cbv zeta.
  destruct (importData_fallback Date_now Math_random d w Hfb)
    as [[Hnone Hres] | (Hsome & Hres & Hsame)].
  - rewrite Hres. cbn [fst snd].
    split; [split; [reflexivity | intros _; exact Hnone] |].
    split; [split; [intros Hsome; now destruct Hsome | discriminate] | reflexivity].
  - rewrite Hres.
    split; [split; [intros Hnone; now destruct Hsome | discriminate] |].
    split; [split; [reflexivity | intros _; exact Hsome] | exact Hsame].
Qed.

Lemma importData_imports_nothing_in_fallback_mode_witness :
  useLocalStorage Sample.populated = true /\
  ~ nothing_to_import backup /\
  fst (importData Sample.ticking Sample.dice (ImportDocument.mk (Some backup)) Sample.populated)
    = Rejected TypeError /\
  persisted (snd (importData Sample.ticking Sample.dice (ImportDocument.mk (Some backup))
                    Sample.populated))
    = persisted Sample.populated.
Proof.
  assert (~ nothing_to_import backup) as Hsome by (intros [Hnotes _]; discriminate Hnotes).
  destruct (importData_imports_nothing_in_fallback_mode Sample.ticking Sample.dice backup
              Sample.populated eq_refl) as (_ & Hrejected & Hsame).
  split; [reflexivity |]. split; [exact Hsome |].
  split; [exact (proj1 Hrejected Hsome) | exact Hsame].
Defined.

(** ** Statistics *)

Lemma fold_left_wordCount (l : list Note.t) (a : nat) :
  Forall (fun n => Note.wordCount n = String.length (Note.content n)) l ->
  fold_left (fun sum note => (sum + Note.wordCount note)%nat) l a
    = (a + total_length l)%nat.
Proof.
  unfold total_length. revert a. induction l as [| n l IH]; intros a Hl; simpl.
  - lia.
  - apply Forall_cons in Hl as [Hn Hl]. rewrite IH by exact Hl. rewrite Hn. lia.
Qed.

Lemma records_Forall {A} (P : A -> Prop) (m : gmap string A) :
  map_Forall (fun _ x => P x) m -> Forall P (records m).
Proof.
  intros Hm. apply List.Forall_forall. intros x Hx.
  apply In_records in Hx as [k Hk]. exact (Hm k x Hk).
Qed.

(** X14. In every state the manager can be in, on either backend,
    [getStorageStats()] is resolved: [totalNotes] and [totalTasks] count the
    stored notes and tasks, [completedTasks] the stored tasks that are
    completed, which are never more than [totalTasks], [totalWords] is the
    number of characters of the contents of the stored notes, and
    [completionRate] is 0 when there is no task, the rounded percentage
    otherwise. *)
Theorem getStorageStats_counts_what_is_stored
    (Date_now : nat -> Timestamp) (Math_random : nat -> string)
    (round_percent : nat -> nat -> Z) (w : World) :
  reachable Date_now Math_random w ->
  exists ns ts stats,
    stored_notes w = Some ns /\
    stored_tasks w = Some ts /\
    fst (getStorageStats round_percent w) = Resolved stats /\
    StorageStats.totalNotes stats = length ns /\
    StorageStats.totalTasks stats = length ts /\
    StorageStats.completedTasks stats = length (List.filter Task.completed ts) /\
    (StorageStats.completedTasks stats <= StorageStats.totalTasks stats)%nat /\
    StorageStats.totalWords stats = total_length ns /\
    StorageStats.completionRate stats
      = match ts with
        | [] => 0
        | _ :: _ => round_percent (StorageStats.completedTasks stats) (length ts)
        end.
Proof.
  intros Hreach.
  pose proof (reachable_consistent Date_now Math_random w Hreach) as (_ & _ & Hln & Hlt).
  pose proof (reachable_well_kept Date_now Math_random w Hreach) as (Hcounted & _).
  destruct w as [fb d ls reads draws]. simpl in Hln, Hlt, Hcounted.
  unfold stored_notes, stored_tasks. destruct fb; simpl.
  - exists [], [], (StorageStats.mk 0 0 0 0 0).
    destruct ls as [ln lt lk lse]. simpl in Hln, Hlt.
    destruct Hln as [-> | ->], Hlt as [-> | ->]; repeat split; auto.
  - exists (records (db_notes d)), (records (db_tasks d)). eexists.
    split; [reflexivity |]. split; [reflexivity |].
    split; [reflexivity |]. cbn [StorageStats.totalNotes StorageStats.totalTasks
      StorageStats.completedTasks StorageStats.totalWords StorageStats.completionRate].
    split; [reflexivity |]. split; [reflexivity |]. split; [reflexivity |].
    split; [apply List.filter_length_le |]. split.
    + rewrite fold_left_wordCount; [reflexivity |]. now apply records_Forall.
    + now destruct (records (db_tasks d)).
Qed.

Lemma getStorageStats_counts_what_is_stored_witness :
  reachable Sample.ticking Sample.dice busy /\
  exists stats,
    fst (getStorageStats (fun _ _ => 0) busy) = Resolved stats /\
    StorageStats.totalNotes stats = 1%nat /\
    StorageStats.totalTasks stats = 1%nat /\
    StorageStats.totalWords stats = 4%nat.
Proof.
  split; [exact busy_reachable |].
  destruct (getStorageStats_counts_what_is_stored Sample.ticking Sample.dice
              (fun _ _ => 0) busy busy_reachable)
    as (ns & ts & stats & Hns & Hts & Hres & Hn & Ht & _ & _ & Hw & _).
  exists stats. split; [exact Hres |].
  vm_compute in Hns, Hts. injection Hns as <-. injection Hts as <-.
  rewrite Hn, Ht, Hw. repeat split.
Defined.

(** ** Saving a stored record again *)

Lemma str_or_null_tidy (s : option string) : str_or_null s <> Some "".
Proof.
  destruct s as [x |]; simpl; [| discriminate].
  destruct (String.eqb_spec x ""); congruence.
Qed.

Lemma str_or_null_of_tidy (s : option string) : s <> Some "" -> str_or_null s = s.
Proof.
  destruct s as [x |]; simpl; [| reflexivity].
  destruct (String.eqb_spec x "") as [-> |]; congruence.
Qed.

Ltac tidy_leaf :=
  let w := fresh "w" in
  unfold preserves;
  repeat lazymatch goal with
         | |- forall _ : World, _ => fail
         | |- forall _, _ => intro
         end;
  unfold saveNote, getNotes, getNote, deleteNote, saveTask, getTasks, getTask, deleteTask,
         saveKnowledgeGraph, getKnowledgeGraph, saveSetting, getSetting, getAllSettings,
         clearAllData, clearStore;
  intros w Htidy;
  destruct w as [fb [dn dt dk ds] [ln lt lk lse] reads draws];
  unfold tidy in *; simpl in Htidy;
  destruct fb; unfold_async; simpl;
  repeat (case_match; simplify_eq; simpl in * ); simpl;
  keep_maps; auto; try (split; apply str_or_null_tidy).

Section Tidy.
Variable Date_now : nat -> Timestamp.
Variable Math_random : nat -> string.

Lemma after_tidy (c : Call) (w : World) :
  tidy w -> tidy (after Date_now Math_random c w).
Proof. apply after_preserves; tidy_leaf. Qed.

Lemma reachable_tidy (w : World) :
  reachable Date_now Math_random w -> tidy w.
Proof.
  induction 1 as [fallback | w c _ IH | w fallback _ IH].
  - apply map_Forall_empty.
  - now apply after_tidy.
  - exact IH.
Qed.

Lemma saveNote_of_stored (n : Note.t) (w : World) :
  useLocalStorage w = false ->
  Note.id n <> "" -> Note.title n <> "" ->
  Note.wordCount n = String.length (Note.content n) ->
  saveNote Date_now Math_random (Note.arg n) w
    = (Resolved (note_stamped n (Date_now (clockReads w))),
       mkWorld false
               (setObjectStore notes
                  (<[Note.id n := note_stamped n (Date_now (clockReads w))]> (db_notes (db w)))
                  (db w))
               (localStorage w) (S (clockReads w)) (randomDraws w)).
Proof.
  intros Hdb Hid Htitle Hcount.
  destruct w as [fb d ls reads draws]. simpl in Hdb. subst fb.
  destruct n as [id title content tags created updated count]. simpl in *.
  unfold saveNote, note_stamped.
  cbn [Note.arg NoteArg.id NoteArg.title NoteArg.content NoteArg.tags NoteArg.createdAt
       Note.id Note.title Note.content Note.tags Note.createdAt Note.wordCount default].
  rewrite (str_or_null_keeps _ Hid), (str_or_keeps _ _ Htitle), str_or_empty.
  pose proof (wordCount_is_length (Some content)) as Hwc.
  rewrite str_or_empty in Hwc.
  destruct (str_or_null (Some content)) as [c |]; rewrite Hwc, <- Hcount; reflexivity.
Qed.

Lemma saveTask_of_stored (t : Task.t) (w : World) :
  useLocalStorage w = false ->
  Task.id t <> "" -> Task.title t <> "" ->
  Task.dueDate t <> Some "" -> Task.relatedNoteId t <> Some "" ->
  saveTask Date_now Math_random (Task.arg t) w
    = (Resolved (task_stamped t (Task.completed t) (Date_now (clockReads w))),
       mkWorld false
               (setObjectStore tasks
                  (<[Task.id t := task_stamped t (Task.completed t) (Date_now (clockReads w))]>
                     (db_tasks (db w)))
                  (db w))
               (localStorage w) (S (clockReads w)) (randomDraws w)).
Proof.
  intros Hdb Hid Htitle Hdue Hrelated.
  destruct w as [fb d ls reads draws]. simpl in Hdb. subst fb.
  destruct t as [id title description priority completed due created updated related].
  simpl in *. unfold saveTask, task_stamped.
  cbn [Task.arg TaskArg.id TaskArg.title TaskArg.description TaskArg.priority
       TaskArg.completed TaskArg.dueDate TaskArg.createdAt TaskArg.relatedNoteId
       Task.id Task.title Task.description Task.priority Task.completed Task.dueDate
       Task.createdAt Task.relatedNoteId default].
  rewrite (str_or_null_keeps _ Hid), (str_or_keeps _ _ Htitle), str_or_empty,
          (str_or_null_of_tidy _ Hdue), (str_or_null_of_tidy _ Hrelated).
  reflexivity.
Qed.

End Tidy.

(** X15. In every state the manager can be in with the database in use, a
    note read with [getNote] and handed back to [saveNote] is stored again
    as it was, under the same id, with a new [updatedAt] only (the reading
    of the clock at the call); the same holds of a task read with [getTask]
    and handed back to [saveTask]. *)
Theorem saving_a_stored_record_again_changes_only_updatedAt
    (Date_now : nat -> Timestamp) (Math_random : nat -> string) (w : World) (id : string) :
  reachable Date_now Math_random w ->
  useLocalStorage w = false ->
  (forall n, fst (getNote id w) = Resolved (Some n) ->
     let saved := note_stamped n (Date_now (clockReads w)) in
     fst (saveNote Date_now Math_random (Note.arg n) w) = Resolved saved /\
     fst (getNote id (snd (saveNote Date_now Math_random (Note.arg n) w)))
       = Resolved (Some saved)) /\
  (forall t, fst (getTask id w) = Resolved (Some t) ->
     let saved := task_stamped t (Task.completed t) (Date_now (clockReads w)) in
     fst (saveTask Date_now Math_random (Task.arg t) w) = Resolved saved /\
     fst (getTask id (snd (saveTask Date_now Math_random (Task.arg t) w)))
       = Resolved (Some saved)).
Proof.
  intros Hreach Hdb.
  destruct (reachable_consistent Date_now Math_random w Hreach) as (Hnotes & Htasks & _).
  destruct (reachable_well_kept Date_now Math_random w Hreach) as (Hcounted & _).
  pose proof (reachable_tidy Date_now Math_random w Hreach) as Htidy.
  split.
  - intros n Hn. rewrite getNote_structured in Hn by exact Hdb.
    injection Hn as Hn.
    destruct (Hnotes id n Hn) as (Hid & Hne & Htitle). subst id.
    cbv zeta.
    rewrite (saveNote_of_stored Date_now Math_random n w Hdb Hne Htitle (Hcounted _ n Hn)).
    split; [reflexivity |]. cbn [snd]. rewrite getNote_structured by reflexivity.
    simpl. now rewrite lookup_insert_eq.
  - intros t Ht. rewrite getTask_structured in Ht by exact Hdb.
    injection Ht as Ht.
    destruct (Htasks id t Ht) as (Hid & Hne & Htitle). subst id.
    destruct (Htidy _ t Ht) as [Hdue Hrelated].
    cbv zeta.
    rewrite (saveTask_of_stored Date_now Math_random t w Hdb Hne Htitle Hdue Hrelated).
    split; [reflexivity |]. cbn [snd]. rewrite getTask_structured by reflexivity.
    simpl. now rewrite lookup_insert_eq.
Qed.

Lemma saving_a_stored_record_again_changes_only_updatedAt_witness :
  reachable Sample.ticking Sample.dice busy /\
  useLocalStorage busy = false /\
  exists n,
    fst (getNote "n7" busy) = Resolved (Some n) /\
    fst (saveNote Sample.ticking Sample.dice (Note.arg n) busy)
      = Resolved (note_stamped n (Sample.ticking (clockReads busy))).
Proof.
  assert (useLocalStorage busy = false) as Hdb by (vm_compute; reflexivity).
  split; [exact busy_reachable |]. split; [exact Hdb |].
  assert (exists n, fst (getNote "n7" busy) = Resolved (Some n)) as [n Hn]
    by (eexists; vm_compute; reflexivity).
  exists n. split; [exact Hn |].
  exact (proj1 (proj1 (saving_a_stored_record_again_changes_only_updatedAt
                         Sample.ticking Sample.dice busy "n7" busy_reachable Hdb) n Hn)).
Defined.

(** ** Changing the status of a task *)

(** X16. In every state the manager can be in with the database in use,
    [updateTaskStatus(id, completed)] on the id of a stored task changes
    its [completed] and its [updatedAt] and nothing else: the task stored
    afterwards is the old one with the new [completed], stamped with the
    second reading of the clock of the call; the task the call is resolved
    with is the same but for its [updatedAt], which is the first reading.
    Every other task reads as before. *)
Theorem updateTaskStatus_changes_only_the_status
    (Date_now : nat -> Timestamp) (Math_random : nat -> string)
    (w : World) (id : string) (completed : bool) (t : Task.t) :
  reachable Date_now Math_random w ->
  useLocalStorage w = false ->
  fst (getTask id w) = Resolved (Some t) ->
  let w' := snd (updateTaskStatus Date_now Math_random id completed w) in
  fst (updateTaskStatus Date_now Math_random id completed w)
    = Resolved (Some (task_stamped t completed (Date_now (clockReads w)))) /\
  fst (getTask id w')
    = Resolved (Some (task_stamped t completed (Date_now (S (clockReads w))))) /\
  (forall other, other <> id -> fst (getTask other w') = fst (getTask other w)) /\
  db_notes (db w') = db_notes (db w).
Proof.
  intros Hreach Hdb Ht.
  destruct (reachable_consistent Date_now Math_random w Hreach) as (_ & Htasks & _).
  pose proof (reachable_tidy Date_now Math_random w Hreach) as Htidy.
  rewrite getTask_structured in Ht by exact Hdb. injection Ht as Ht.
  destruct (Htasks id t Ht) as (Hid & Hne & Htitle). subst id.
  destruct (Htidy _ t Ht) as [Hdue Hrelated].
  set (marked := task_stamped t completed (Date_now (clockReads w))).
  set (w1 := mkWorld false (db w) (localStorage w) (S (clockReads w)) (randomDraws w)).
  pose proof (saveTask_of_stored Date_now Math_random marked w1 eq_refl
                Hne Htitle Hdue Hrelated) as Hsave.
  assert (updateTaskStatus Date_now Math_random (Task.id t) completed w
          = (Resolved (Some marked),
             snd (saveTask Date_now Math_random (Task.arg marked) w1))) as Hupdate.
  { unfold updateTaskStatus.
    rewrite (bind_resolved _ _ w w (Some t)) by (rewrite getTask_structured by exact Hdb;
                                                 now rewrite Ht).
    rewrite (bind_resolved _ _ w w1 (Date_now (clockReads w)))
      by (unfold now, w1; now rewrite Hdb).
    fold (task_stamped t completed (Date_now (clockReads w))). fold marked.
    rewrite (bind_resolved _ _ w1 _ _ Hsave). now rewrite Hsave. }
  cbv zeta. rewrite Hupdate. cbn [fst snd]. rewrite Hsave.
  cbn [snd]. split; [reflexivity |]. split; [| split].
  - rewrite getTask_structured by reflexivity. simpl. now rewrite lookup_insert_eq.
  - intros other Hother. rewrite !getTask_structured by (exact Hdb || reflexivity).
    simpl. now rewrite lookup_insert_ne by congruence.
  - reflexivity.
Qed.

Lemma updateTaskStatus_changes_only_the_status_witness :
  reachable Sample.ticking Sample.dice busy /\
  useLocalStorage busy = false /\
  exists t,
    fst (getTask "t1" busy) = Resolved (Some t) /\
    fst (getTask "t1" (snd (updateTaskStatus Sample.ticking Sample.dice "t1" true busy)))
      = Resolved (Some (task_stamped t true (Sample.ticking (S (clockReads busy))))).
Proof.
  assert (useLocalStorage busy = false) as Hdb by (vm_compute; reflexivity).
  split; [exact busy_reachable |]. split; [exact Hdb |].
  assert (exists t, fst (getTask "t1" busy) = Resolved (Some t)) as [t Ht]
    by (eexists; vm_compute; reflexivity).
  exists t. split; [exact Ht |].
  exact (proj1 (proj2 (updateTaskStatus_changes_only_the_status
                         Sample.ticking Sample.dice busy "t1" true t busy_reachable Hdb Ht))).
Defined.

(** ** What fallback mode holds *)

(** X17. In fallback mode the manager never holds a record: in every state
    it can be in, [getNotes], [getTasks] and [getAllSettings] are resolved
    with [[]], [getNote] and [getTask] with [undefined] for every id,
    [searchNotes] with [[]] for every query and [getSetting] with the
    default for every key. *)
Theorem fallback_mode_holds_no_record
    (Date_now : nat -> Timestamp) (Math_random : nat -> string)
    (toLowerCase : string -> string) (w : World) :
  reachable Date_now Math_random w ->
  useLocalStorage w = true ->
  fst (getNotes w) = Resolved (Array []) /\
  (forall id, fst (getNote id w) = Resolved None) /\
  (forall query, fst (searchNotes toLowerCase query w) = Resolved []) /\
  fst (getTasks w) = Resolved (Array []) /\
  (forall id, fst (getTask id w) = Resolved None) /\
  fst (getAllSettings w) = Resolved (Array []) /\
  (forall key defaultValue, fst (getSetting key defaultValue w) = Resolved defaultValue).
Proof.
  intros Hreach Hfb.
  destruct (reachable_consistent Date_now Math_random w Hreach) as (_ & _ & Hln & Hlt).
  destruct (reachable_well_kept Date_now Math_random w Hreach) as (_ & _ & _ & Hls & _).
  destruct w as [fb d [ln lt lk lse] reads draws]. simpl in Hfb, Hln, Hlt, Hls. subst fb.
  destruct Hln as [-> | ->], Hlt as [-> | ->], Hls as [-> | ->]; repeat split.
Qed.

Lemma fallback_mode_holds_no_record_witness :
  reachable Sample.ticking Sample.dice (reload true busy) /\
  useLocalStorage (reload true busy) = true /\
  fst (getNotes (reload true busy)) = Resolved (Array []) /\
  fst (getSetting "theme" (JString "light") (reload true busy))
    = Resolved (JString "light").
Proof.
  assert (reachable Sample.ticking Sample.dice (reload true busy))
    as Hreach by (apply reachable_reload, busy_reachable).
  pose proof (fallback_mode_holds_no_record Sample.ticking Sample.dice Sample.toLowerCase
                _ Hreach eq_refl) as (Hnotes & _ & _ & _ & _ & _ & Hsetting).
  split; [exact Hreach |]. split; [reflexivity |]. split; [exact Hnotes |].
  exact (Hsetting "theme" (JString "light")).
Defined.

(** ** Searching for the empty string *)

Lemma includes_empty (s : string) : includes s "" = true.
Proof. now destruct s. Qed.

(** X18. When lower-casing leaves the empty string empty, [searchNotes('')]
    is resolved with every stored note, in the order of [getNotes()]: the
    empty string occurs in every title. *)
Theorem searchNotes_empty_query_returns_every_note
    (toLowerCase : string -> string) (w : World) (l : list Note.t) :
  toLowerCase "" = "" ->
  stored_notes w = Some l ->
  fst (searchNotes toLowerCase "" w) = Resolved l.
Proof.
  intros Hlower Hstored. pose proof (getNotes_stored w l Hstored) as Hnotes.
  unfold searchNotes, mbind, Async_bind.
  destruct (getNotes w) as [r w']. simpl in Hnotes. subst r. simpl.
  unfold mret, Async_ret. cbn [fst]. f_equal.
  rewrite Hlower. apply filter_keeps_all.
  intros n _. unfold note_matches. now rewrite includes_empty.
Qed.

Lemma searchNotes_empty_query_returns_every_note_witness :
  Sample.toLowerCase "" = "" /\
  stored_notes two_notes = Some [saved_alpha; saved_beta] /\
  fst (searchNotes Sample.toLowerCase "" two_notes) = Resolved [saved_alpha; saved_beta].
Proof.
  assert (stored_notes two_notes = Some [saved_alpha; saved_beta]) as Hstored
    by (vm_compute; reflexivity).
  split; [reflexivity |]. split; [exact Hstored |].
  exact (searchNotes_empty_query_returns_every_note Sample.toLowerCase two_notes _
           eq_refl Hstored).
Defined.

(** ** Settings and graph through export, clear, import *)

Ltac aside_leaf :=
  let w := fresh "w" in
  intros w [Hs Hg]; destruct w as [fb [dn dt dk ds] ls reads draws];
  unfold settings_and_graph_are in *; simpl in Hs, Hg; subst;
  destruct fb; unfold_async; simpl;
  repeat (case_match; simplify_eq; simpl in * ); simpl; auto.

Section SettingsRoundTrip.
Variable Date_now : nat -> Timestamp.
Variable Math_random : nat -> string.

Lemma importNotes_aside (s : gmap string Setting.t) (g : gmap string Graph.t)
    (l : list (option NoteArg.t)) :
  preserves (settings_and_graph_are s g) (for_of l (import_note Date_now Math_random)).
Proof.
  apply preserves_for_of. intros [n |]; [| apply preserves_throw].
  apply preserves_bind; [| intros _; apply preserves_ret].
  unfold saveNote. aside_leaf.
Qed.

Lemma importTasks_aside (s : gmap string Setting.t) (g : gmap string Graph.t)
    (l : list (option TaskArg.t)) :
  preserves (settings_and_graph_are s g) (for_of l (import_task Date_now Math_random)).
Proof.
  apply preserves_for_of. intros [t |]; [| apply preserves_throw].
  apply preserves_bind; [| intros _; apply preserves_ret].
  unfold saveTask. aside_leaf.
Qed.

(** Saving settings one after the other: every record of the store
    afterwards was there before or carries the key and the value of one of
    the settings, and every setting has a record. *)
Lemma import_settings_structured (l : list Setting.t) (w : World) :
  useLocalStorage w = false ->
  exists w',
    for_of ((fun s => Some (SettingArg.mk (Some (Setting.key s)) (Setting.value s))) <$> l)
           (import_setting Date_now) w
      = (Resolved tt, w') /\
    useLocalStorage w' = false /\
    db_knowledge_graph (db w') = db_knowledge_graph (db w) /\
    (forall k, is_Some (db_settings (db w) !! k) -> is_Some (db_settings (db w') !! k)) /\
    (forall s, In s l -> is_Some (db_settings (db w') !! Setting.key s)) /\
    (forall k s', db_settings (db w') !! k = Some s' ->
                  db_settings (db w) !! k = Some s' \/
                  exists s, In s l /\ Setting.key s = k /\ Setting.value s' = Setting.value s).
Proof.
  revert w. induction l as [| x l IH]; intros w Hdb.
  - exists w. simpl. repeat split; auto. intros ? [].
  - pose proof (saveSetting_structured Date_now (Setting.key x) (Setting.value x) w Hdb)
      as Hsave.
    set (w1 := mkWorld _ _ _ _ _) in Hsave.
    destruct (IH w1 eq_refl) as (w' & Hloop & Hdb' & Hgraph & Hmono & Hall & Hfrom).
    exists w'.
    split; [| split; [exact Hdb' | split; [exact Hgraph | split; [| split]]]].
    + cbn [fmap list_fmap for_of]. rewrite (bind_resolved _ _ w w1 tt); [exact Hloop |].
      unfold import_setting. cbn [SettingArg.key SettingArg.value].
      now rewrite (bind_resolved _ _ _ _ _ Hsave).
    + intros k Hk. apply Hmono. unfold w1. simpl.
      apply lookup_insert_is_Some'. now right.
    + intros s [<- | Hs]; [| now apply Hall].
      apply Hmono. unfold w1. simpl. apply lookup_insert_is_Some'. now left.
    + intros k s' Hk. destruct (Hfrom k s' Hk) as [Hold | (s & Hin & Hkey & Hvalue)].
      * unfold w1 in Hold. simpl in Hold.
        apply lookup_insert_Some in Hold as [[<- <-] | [_ Hold]]; [right | now left].
        exists x. split; [now left |]. now split.
      * right. exists s. split; [now right | auto].
Qed.

End SettingsRoundTrip.

(** X19. In every state the manager can be in with the database in use,
    [exportData()] followed by [clearAllData()] followed by [importData] of
    the exported document brings back the settings and the graph:
    afterwards [getSetting] is resolved, for every key and default, with
    what it was resolved with before, and [getKnowledgeGraph()] with a
    graph that has the nodes and links of the one before (with [undefined]
    when there was none). *)
Theorem export_clear_import_restores_settings_and_graph
    (Date_now : nat -> Timestamp) (Math_random : nat -> string) (w : World) :
  reachable Date_now Math_random w ->
  useLocalStorage w = false ->
  exists doc w1,
    exportData Date_now w = (Resolved doc, w1) /\
    let w2 := snd (importData Date_now Math_random (asImport doc) (snd (clearAllData w1))) in
    (forall key d, fst (getSetting key d w2) = fst (getSetting key d w)) /\
    (forall g, fst (getKnowledgeGraph w) = Resolved (Some g) ->
       exists g', fst (getKnowledgeGraph w2) = Resolved (Some g') /\
                  Graph.id g' = Graph.id g /\
                  Graph.nodes g' = Graph.nodes g /\
                  Graph.links g' = Graph.links g) /\
    (fst (getKnowledgeGraph w) = Resolved None ->
     fst (getKnowledgeGraph w2) = Resolved None).
Proof.
  intros Hreach Hdb.
  destruct (reachable_consistent Date_now Math_random w Hreach) as (Hnotes & Htasks & _).
  destruct (reachable_well_kept Date_now Math_random w Hreach) as (_ & Hgraph & Hsettings & _).
  rewrite (exportData_structured Date_now w Hdb). eexists _, _. split; [reflexivity |].
  rewrite clearAllData_structured by reflexivity. cbn [snd localStorage clockReads randomDraws].
  set (w0 := mkWorld false emptyDB _ _ _).
  destruct (import_notes_structured Date_now Math_random (records (db_notes (db w))) w0
              eq_refl (well_filed_notes_list _ Hnotes)) as (wa & Ha & Hdba & _).
  pose proof (importNotes_aside Date_now Math_random ∅ ∅
                ((fun n => Some (Note.arg n)) <$> records (db_notes (db w)))
                w0 (conj eq_refl eq_refl))
    as Hasidea.
  rewrite Ha in Hasidea. cbn [snd] in Hasidea.
  destruct (import_tasks_structured Date_now Math_random (records (db_tasks (db w))) wa
              Hdba (well_filed_tasks_list _ Htasks)) as (wb & Hb & Hdbb & _).
  pose proof (importTasks_aside Date_now Math_random ∅ ∅
                ((fun t => Some (Task.arg t)) <$> records (db_tasks (db w)))
                wa Hasidea) as Hasideb.
  rewrite Hb in Hasideb. cbn [snd] in Hasideb. destruct Hasideb as [Hsb Hgb].
  set (kg := db_knowledge_graph (db w) !! "main_graph").
  assert (exists wc,
            importKnowledgeGraph Date_now
              (ImportData.mk Undefined Undefined (Graph.arg <$> kg) Undefined) wb
              = (Resolved tt, wc) /\
            useLocalStorage wc = false /\
            db_settings (db wc) = ∅ /\
            match kg with
            | Some g => exists g', db_knowledge_graph (db wc) !! "main_graph" = Some g' /\
                                   Graph.id g' = Some "main_graph" /\
                                   Graph.nodes g' = Graph.nodes g /\
                                   Graph.links g' = Graph.links g
            | None => db_knowledge_graph (db wc) !! "main_graph" = None
            end) as (wc & Hc & Hdbc & Hsc & Hgc).
  { destruct wb as [fb [dn dt dk ds] ls reads draws]. simpl in Hdbb, Hsb, Hgb. subst fb dk ds.
    destruct kg as [g |]; eexists; (split; [reflexivity |]); simpl.
    - split; [reflexivity |]. split; [reflexivity |].
      eexists. split; [apply lookup_insert_eq |]. now repeat split.
    - now repeat split. }
  destruct (import_settings_structured Date_now (records (db_settings (db w))) wc Hdbc)
    as (wd & Hd & Hdbd & Hgd & _ & Hall & Hfrom).
  assert (importData Date_now Math_random
            (asImport (ExportDocument.mk "1.0" (Date_now (clockReads w))
                         (ExportData.mk (Array (records (db_notes (db w))))
                                        (Array (records (db_tasks (db w))))
                                        kg
                                        (Array (records (db_settings (db w))))))) w0
          = (Resolved true, wd)) as Himport.
  { unfold importData, importNotes, importTasks, importSettings, asImport.
    cbn [ImportDocument.data ExportDocument.data
      ImportData.notes ImportData.tasks ImportData.settings
      ExportData.notes ExportData.tasks ExportData.settings map_value].
    rewrite (bind_resolved _ _ _ _ _ Ha), (bind_resolved _ _ _ _ _ Hb).
    rewrite (bind_resolved _ _ wb wc tt) by exact Hc.
    now rewrite (bind_resolved _ _ _ _ _ Hd). }
  cbv zeta. fold kg. rewrite Himport. cbn [snd].
  rewrite !getKnowledgeGraph_structured by assumption. fold kg. cbn [fst]. rewrite Hgd.
  split; [| split].
  - intros key d. rewrite !getSetting_structured by assumption. cbn [fst]. f_equal.
    destruct (db_settings (db w) !! key) as [s |] eqn:Hs.
    + assert (In s (records (db_settings (db w)))) as Hin by (apply In_records; eauto).
      pose proof (Hsettings key s Hs) as Hkey. unfold filed_setting in Hkey.
      destruct (Hall s Hin) as [s' Hs']. rewrite Hkey in Hs'. rewrite Hs'.
      destruct (Hfrom key s' Hs') as [Hold | (s2 & Hin2 & Hkey2 & Hvalue)].
      * rewrite Hsc in Hold. now rewrite lookup_empty in Hold.
      * apply In_records in Hin2 as [k2 Hk2].
        pose proof (Hsettings k2 s2 Hk2) as Hfiled. unfold filed_setting in Hfiled.
        assert (k2 = key) as -> by congruence. congruence.
    + destruct (db_settings (db wd) !! key) as [s' |] eqn:Hs'; [| reflexivity].
      destruct (Hfrom key s' Hs') as [Hold | (s2 & Hin2 & Hkey2 & _)].
      * rewrite Hsc in Hold. now rewrite lookup_empty in Hold.
      * apply In_records in Hin2 as [k2 Hk2].
        pose proof (Hsettings k2 s2 Hk2) as Hfiled. unfold filed_setting in Hfiled.
        assert (k2 = key) as -> by congruence. congruence.
  - intros g [= Hg]. rewrite Hg in Hgc. destruct Hgc as (g' & Hg' & Hid & Hnodes & Hlinks).
    exists g'. rewrite Hg'. split; [reflexivity |].
    destruct (Hgraph _ g Hg) as [_ Hidg]. rewrite Hidg. auto.
  - intros [= Hg]. rewrite Hg in Hgc. now rewrite Hgc.
Qed.

Lemma furnished_reachable : reachable Sample.ticking Sample.dice furnished.
Proof. do 2 apply reachable_call. exact busy_reachable. Qed.

Lemma export_clear_import_restores_settings_and_graph_witness :
  reachable Sample.ticking Sample.dice furnished /\
  useLocalStorage furnished = false /\
  fst (getSetting "theme" JNull furnished) = Resolved (JString "dark") /\
  exists doc w1,
    exportData Sample.ticking furnished = (Resolved doc, w1) /\
    fst (getSetting "theme" JNull
           (snd (importData Sample.ticking Sample.dice (asImport doc)
                   (snd (clearAllData w1)))))
      = Resolved (JString "dark").
Proof.
  assert (useLocalStorage furnished = false) as Hdb by (vm_compute; reflexivity).
  assert (fst (getSetting "theme" JNull furnished) = Resolved (JString "dark")) as Htheme
    by (vm_compute; reflexivity).
  split; [exact furnished_reachable |]. split; [exact Hdb |]. split; [exact Htheme |].
  destruct (export_clear_import_restores_settings_and_graph Sample.ticking Sample.dice
              furnished furnished_reachable Hdb) as (doc & w1 & Hexport & Hsettings & _).
  exists doc, w1. split; [exact Hexport |].
  rewrite <- Htheme. apply Hsettings.
Defined.

(** ** The round trip on either backend *)

Ltac backend_leaf :=
  let w := fresh "w" in
  unfold preserves;
  repeat lazymatch goal with
         | |- forall _ : World, _ => fail
         | |- forall _, _ => intro
         end;
  unfold saveNote, saveTask, saveKnowledgeGraph, saveSetting;
  intros w Hw; destruct w as [fb d ls reads draws]; simpl in Hw; subst;
  unfold_async; simpl;
  repeat (case_match; simplify_eq; simpl in * ); simpl; auto.

(** [importData] leaves the backend as it is. *)
Lemma importData_keeps_fallback_mode
    (Date_now : nat -> Timestamp) (Math_random : nat -> string)
    (doc : ImportDocument.t) (w : World) :
  useLocalStorage w = true ->
  useLocalStorage (snd (importData Date_now Math_random doc w)) = true.
Proof.
  apply (importData_preserves Date_now Math_random (fun w0 => useLocalStorage w0 = true));
    backend_leaf.
Qed.

(** In fallback mode [getKnowledgeGraph], when resolved, gives a graph: the
    stored one or the default. *)
Lemma getKnowledgeGraph_fallback_resolved (w w' : World) (g : option Graph.t) :
  useLocalStorage w = true ->
  getKnowledgeGraph w = (Resolved g, w') -> is_Some g.
Proof.
  intros Hfb. destruct w as [fb d ls reads draws]. simpl in Hfb. subst fb.
  unfold getKnowledgeGraph. unfold_async. simpl.
  destruct (default (Array []) (ls_knowledge_graph ls)) as [| l | g0 | s0]; simpl;
    intros [= <- _] || discriminate. eauto.
Qed.

(** So a document exported in fallback mode carries a graph. *)
Lemma exportData_fallback_has_graph (Date_now : nat -> Timestamp)
    (w w1 : World) (doc : ExportDocument.t) :
  useLocalStorage w = true ->
  exportData Date_now w = (Resolved doc, w1) ->
  useLocalStorage w1 = true /\
  is_Some (ExportData.knowledgeGraph (ExportDocument.data doc)).
Proof.
  intros Hfb Hexport. split.
  { pose proof (proj1 (exportData_leaves_not_an_array Date_now w Hfb)) as Hfb1.
    now rewrite Hexport in Hfb1. }
  destruct (getNotes_fallback w Hfb) as (ns & Hns & Hfba & _).
  destruct (getTasks_fallback _ Hfba) as (ts & Hts & Hfbb & _).
  unfold exportData, promise_all2, mbind, Async_bind in Hexport.
  destruct (getNotes w) as [rn wa]. simpl in *.
  destruct (getTasks wa) as [rt wb]. simpl in *.
  destruct (getKnowledgeGraph wb) as [rg wc] eqn:Hg.
  destruct (getAllSettings wc) as [rs wd].
  subst rn rt. destruct rg as [g | e], rs as [ss | e']; try discriminate Hexport.
  injection Hexport as <- _. simpl.
  exact (getKnowledgeGraph_fallback_resolved wb wc g Hfbb Hg).
Qed.

(** C7 (the code departs from it). With the database in use, in every state
    the manager can be in, [exportData()] followed by [clearAllData()]
    followed by [importData] of the exported document is resolved at each
    step and leaves notes with the same ids as before, each with the title,
    content and tags it had, and tasks with the same ids, each with the
    title and description it had.  In fallback mode the round trip fails in
    every state: whenever the export is resolved, the clear is resolved and
    the import of the exported document is rejected with a [TypeError],
    which leaves no note and no task. *)
Theorem export_clear_import_round_trip
    (Date_now : nat -> Timestamp) (Math_random : nat -> string) (w : World) :
  (reachable Date_now Math_random w ->
   useLocalStorage w = false ->
   exists doc w1,
     exportData Date_now w = (Resolved doc, w1) /\
     fst (clearAllData w1) = Resolved tt /\
     fst (importData Date_now Math_random (asImport doc) (snd (clearAllData w1)))
       = Resolved true /\
     exists before_notes before_tasks after_notes after_tasks,
       stored_notes w = Some before_notes /\
       stored_tasks w = Some before_tasks /\
       stored_notes (snd (importData Date_now Math_random (asImport doc)
                                     (snd (clearAllData w1)))) = Some after_notes /\
       stored_tasks (snd (importData Date_now Math_random (asImport doc)
                                     (snd (clearAllData w1)))) = Some after_tasks /\
       (forall n, In n before_notes -> exists n', In n' after_notes /\ same_note n n') /\
       (forall n', In n' after_notes -> exists n, In n before_notes /\ same_note n n') /\
       (forall t, In t before_tasks -> exists t', In t' after_tasks /\ same_task t t') /\
       (forall t', In t' after_tasks -> exists t, In t before_tasks /\ same_task t t')) /\
  (useLocalStorage w = true ->
   forall doc w1,
     exportData Date_now w = (Resolved doc, w1) ->
     fst (clearAllData w1) = Resolved tt /\
     fst (importData Date_now Math_random (asImport doc) (snd (clearAllData w1)))
       = Rejected TypeError /\
     stored_notes (snd (importData Date_now Math_random (asImport doc)
                                   (snd (clearAllData w1)))) = Some [] /\
     stored_tasks (snd (importData Date_now Math_random (asImport doc)
                                   (snd (clearAllData w1)))) = Some []).
Proof.
  split.
  - intros Hreach Hmode. apply reachable_consistent in Hreach.
    destruct Hreach as (Hnotes & Htasks & _).
    pose proof (exportData_structured Date_now w Hmode) as Hexport.
    set (w2 := mkWorld false emptyDB (localStorage w) (S (clockReads w)) (randomDraws w)).
    destruct (importData_of_export Date_now Math_random "1.0" (Date_now (clockReads w))
                (records (db_notes (db w)))
                (records (db_tasks (db w)))
                (db_knowledge_graph (db w) !! "main_graph")
                (records (db_settings (db w)))
                w2 eq_refl
                (well_filed_notes_list _ Hnotes) (well_filed_tasks_list _ Htasks))
      as (w3 & Himport & Hmode3 & Hall & Hfrom & Hallt & Hfromt).
    eexists _, _. split; [exact Hexport |].
    rewrite clearAllData_structured by reflexivity. cbn [fst snd clockReads randomDraws localStorage].
    fold w2. rewrite Himport. cbn [fst snd].
    split; [reflexivity |]. split; [reflexivity |].
    unfold stored_notes, stored_tasks. rewrite Hmode, Hmode3.
    eexists _, _, _, _. do 4 (split; [reflexivity |]).
    split; [| split; [| split]].
    + intros n Hn. destruct (Hall n Hn) as [n' Hn'].
      exists n'. split; [apply In_records; eauto |].
      destruct (Hfrom _ _ Hn') as [Hempty | (n0 & Hn0 & Hid & Hsame)];
        [unfold w2, emptyDB in Hempty; simpl in Hempty;
         now rewrite lookup_empty in Hempty |].
      apply In_records in Hn as [k Hk]. apply In_records in Hn0 as [k0 Hk0].
      destruct (Hnotes k n Hk) as (Hkn & _). destruct (Hnotes k0 n0 Hk0) as (Hkn0 & _).
      assert (k0 = k) by congruence. subst k0.
      assert (n0 = n) by congruence. now subst n0.
    + intros n' Hn'. apply In_records in Hn' as [k Hk].
      destruct (Hfrom _ _ Hk) as [Hempty | (n0 & Hn0 & Hid & Hsame)];
        [unfold w2, emptyDB in Hempty; simpl in Hempty;
         now rewrite lookup_empty in Hempty |].
      now exists n0.
    + intros t Ht. destruct (Hallt t Ht) as [t' Ht'].
      exists t'. split; [apply In_records; eauto |].
      destruct (Hfromt _ _ Ht') as [Hempty | (t0 & Ht0 & Hid & Hsame)];
        [unfold w2, emptyDB in Hempty; simpl in Hempty;
         now rewrite lookup_empty in Hempty |].
      apply In_records in Ht as [k Hk]. apply In_records in Ht0 as [k0 Hk0].
      destruct (Htasks k t Hk) as (Hkt & _). destruct (Htasks k0 t0 Hk0) as (Hkt0 & _).
      assert (k0 = k) by congruence. subst k0.
      assert (t0 = t) by congruence. now subst t0.
    + intros t' Ht'. apply In_records in Ht' as [k Hk].
      destruct (Hfromt _ _ Hk) as [Hempty | (t0 & Ht0 & Hid & Hsame)];
        [unfold w2, emptyDB in Hempty; simpl in Hempty;
         now rewrite lookup_empty in Hempty |].
      now exists t0.
  - intros Hfb doc w1 Hexport.
    destruct (exportData_fallback_has_graph Date_now w w1 doc Hfb Hexport)
      as [Hfb1 [g Hgraph]].
    rewrite (clearAllData_fallback w1 Hfb1). cbn [fst snd].
    set (w2 := mkWorld true _ _ _ _).
    split; [reflexivity |].
    pose proof (importData_keeps_fallback_mode Date_now Math_random (asImport doc) w2 eq_refl)
      as Hfb3.
    destruct (importData_fallback Date_now Math_random
                (ImportData.mk
                   (map_value (fun n => Some (Note.arg n))
                              (ExportData.notes (ExportDocument.data doc)))
                   (map_value (fun k => Some (Task.arg k))
                              (ExportData.tasks (ExportDocument.data doc)))
                   (Graph.arg <$> ExportData.knowledgeGraph (ExportDocument.data doc))
                   (map_value (fun s => Some (SettingArg.mk (Some (Setting.key s))
                                                               (Setting.value s)))
                              (ExportData.settings (ExportDocument.data doc))))
                w2 eq_refl) as [[(_ & _ & Hnone & _) _] | (_ & Hres & Hsame)].
    { simpl in Hnone. rewrite Hgraph in Hnone. discriminate Hnone. }
    fold (asImport doc) in Hres, Hsame.
    split; [exact Hres |].
    injection Hsame as _ Hls.
    unfold stored_notes, stored_tasks. rewrite Hfb3, Hls. split; reflexivity.
Qed.

(** The witness runs the round trip on a database that holds a note and a
    task, on a fresh profile in fallback mode, and on a [localStorage] that
    holds two notes, which are lost. *)
Lemma export_clear_import_round_trip_witness :
  (reachable Sample.ticking Sample.dice busy /\
   useLocalStorage busy = false /\
   stored_notes busy <> Some [] /\
   exists doc w1,
     exportData Sample.ticking busy = (Resolved doc, w1) /\
     fst (importData Sample.ticking Sample.dice (asImport doc) (snd (clearAllData w1)))
       = Resolved true /\
     exists before_notes after_notes,
       stored_notes busy = Some before_notes /\
       stored_notes (snd (importData Sample.ticking Sample.dice (asImport doc)
                                     (snd (clearAllData w1)))) = Some after_notes /\
       (forall n, In n before_notes -> exists n', In n' after_notes /\ same_note n n') /\
       (forall n', In n' after_notes -> exists n, In n before_notes /\ same_note n n')) /\
  (reachable Sample.ticking Sample.dice (init true) /\
   useLocalStorage (init true) = true /\
   exists doc w1,
     exportData Sample.ticking (init true) = (Resolved doc, w1) /\
     fst (importData Sample.ticking Sample.dice (asImport doc) (snd (clearAllData w1)))
       = Rejected TypeError) /\
  (useLocalStorage Sample.populated = true /\
   stored_notes Sample.populated = Some [Sample.stored_alpha; Sample.stored_beta] /\
   exists doc w1,
     exportData Sample.ticking Sample.populated = (Resolved doc, w1) /\
     fst (importData Sample.ticking Sample.dice (asImport doc) (snd (clearAllData w1)))
       = Rejected TypeError /\
     stored_notes (snd (importData Sample.ticking Sample.dice (asImport doc)
                                   (snd (clearAllData w1)))) = Some []).
Proof.
  split; [| split].
  - assert (useLocalStorage busy = false) as Hmode by (vm_compute; reflexivity).
    split; [exact busy_reachable |]. split; [exact Hmode |].
    split; [vm_compute; discriminate |].
    destruct (proj1 (export_clear_import_round_trip Sample.ticking Sample.dice busy)
                    busy_reachable Hmode)
      as (doc & w1 & Hexport & _ & Himport & bn & bt & an & at' & Hbn & _ & Han & _ &
          Hto & Hfrom & _).
    exists doc, w1. split; [exact Hexport |]. split; [exact Himport |].
    exists bn, an. split; [exact Hbn |]. split; [exact Han |].
    split; [exact Hto | exact Hfrom].
  - split; [apply reachable_init |]. split; [reflexivity |].
    eexists _, _. split; [reflexivity |].
    exact (proj1 (proj2 (proj2 (export_clear_import_round_trip Sample.ticking Sample.dice
                                  (init true)) eq_refl _ _ eq_refl))).
  - split; [reflexivity |]. split; [reflexivity |].
    eexists _, _. split; [reflexivity |].
    destruct (proj2 (export_clear_import_round_trip Sample.ticking Sample.dice
                       Sample.populated) eq_refl _ _ eq_refl)
      as (_ & Hres & Hnotes & _).
    split; [exact Hres | exact Hnotes].
Defined.
